(** * Investment tracker: portfolio valuation, holdings store and CSV exchange

    A shallow embedding of [app.py] (the Flask handlers [dashboard],
    [add_investment], [edit_investment], [delete_investment], [export_csv]
    and [import_csv]) and of the schema of [models.py].

    Python [float]s are IEEE-754 binary64 numbers; they are modelled with the
    executable specification [SpecFloat] of the Standard Library, so that
    every arithmetic step rounds exactly as the interpreter does.  Text is
    modelled by [string] and restricted to ASCII. *)

From Stdlib Require Import ZArith List String Ascii Bool Lia.
From Stdlib Require Import Floats.SpecFloat.
From Stdlib Require Import DecimalString.
From Stdlib Require Import Sorting.Permutation Sorting.Sorted.
Import ListNotations.

Local Open Scope string_scope.
Local Open Scope Z_scope.

(** ** Exceptions and the result monad *)

Inductive exn : Type :=
| ZeroDivisionError
| ValueError
| TypeError
| AttributeError
| IntegrityError
| OverflowError
| CsvError.

Inductive result (A : Type) : Type :=
| Ok (a : A)
| Raise (e : exn).

Arguments Ok {A} a.
Arguments Raise {A} e.

Definition bind {A B : Type} (r : result A) (k : A -> result B) : result B :=
  match r with
  | Ok a => k a
  | Raise e => Raise e
  end.

Declare Scope result_scope.
Delimit Scope result_scope with result.
Notation "x <- c1 ;; c2" := (bind c1 (fun x => c2))
  (at level 100, c1 at next level, right associativity) : result_scope.
Local Open Scope result_scope.

(** ** Binary64 floating point *)

Module Float64.

Definition prec : Z := 53.
Definition emax : Z := 1024.

Definition float : Type := spec_float.

Definition add : float -> float -> float := SFadd prec emax.
Definition sub : float -> float -> float := SFsub prec emax.
Definition mul : float -> float -> float := SFmul prec emax.
Definition div : float -> float -> float := SFdiv prec emax.
Definition opp : float -> float := SFopp.
Definition eqb : float -> float -> bool := SFeqb.
Definition ltb : float -> float -> bool := SFltb.
Definition leb : float -> float -> bool := SFleb.

Definition zero : float := S754_zero false.

(** [float(z)] for a Python [int]: the nearest binary64 number. *)
Definition of_Z (z : Z) : float := binary_normalize prec emax z 0 false.

Definition is_nan (x : float) : bool :=
  match x with
  | S754_nan => true
  | _ => false
  end.

Definition is_zero (x : float) : bool :=
  match x with
  | S754_zero _ => true
  | _ => false
  end.

Definition is_finite (x : float) : bool :=
  match x with
  | S754_zero _ | S754_finite _ _ _ => true
  | _ => false
  end.

(** The binary64 number nearest to [(-1)^s * n / d], ties to even; the
    sign of a zero result is [s]. *)
Definition of_ratio (s : bool) (n : Z) (d : positive) : float :=
  match n with
  | Zpos p => div (S754_finite s p 0) (S754_finite false d 0)
  | _ => S754_zero s
  end.

(** The integer nearest to [m * 2^e * 10^2], ties to even. *)
Definition scaled_half_even (m : positive) (e : Z) : Z :=
  match e with
  | Zneg k =>
      let den := Z.shiftl 1 (Zpos k) in
      let num := Zpos m * 100 in
      let q := num / den in
      let r := num mod den in
      match Z.compare (2 * r) den with
      | Lt => q
      | Gt => q + 1
      | Eq => if Z.even q then q else q + 1
      end
  | _ => Z.shiftl (Zpos m) e * 100
  end.

(** [round(x, 2)] on a float: infinities and NaN round to themselves; a
    finite [x] is rounded to two decimals on its exact value, ties to
    even, and the decimal is converted back to the nearest float. *)
Definition round2 (x : float) : float :=
  match x with
  | S754_finite s m e => of_ratio s (scaled_half_even m e) 100
  | _ => x
  end.

(** [x / y]: the interpreter raises on a zero divisor. *)
Definition truediv (x y : float) : result float :=
  if is_zero y then Raise ZeroDivisionError else Ok (div x y).

End Float64.

Import Float64.

(** A Python number that is either an [int] or a [float]. *)
Inductive pynum : Type :=
| PyInt (z : Z)
| PyFloat (f : float).

(** [round(v, 2)]: an [int] is returned unchanged. *)
Definition py_round2 (v : pynum) : pynum :=
  match v with
  | PyInt z => PyInt z
  | PyFloat f => PyFloat (round2 f)
  end.

(** ** Persisted rows ([models.py]) *)

(** A row of the [investments] table. *)
Record investment : Type := mkInvestment {
  inv_id : Z;
  inv_user_id : Z;
  inv_symbol : string;
  inv_category : string;
  inv_quantity : float;
  inv_buy_price : float;
  inv_purchase_date : string
}.

Inductive transaction_type : Type := BUY | SELL.

(** A row of the [transactions] table. *)
Record transaction : Type := mkTransaction {
  txn_id : Z;
  txn_user_id : Z;
  txn_symbol : string;
  txn_type : transaction_type;
  txn_quantity : float;
  txn_price : float;
  txn_date : string
}.

(** ** The dashboard: valuation pass and aggregation *)

(** The dictionary appended to [updated_investments] for one holding. *)
Record dashboard_row : Type := mkRow {
  row_id : Z;
  row_symbol : string;
  row_category : string;
  row_quantity : float;
  row_buy_price : float;
  row_current_price : float;
  row_value : float;
  row_profit_loss : float;
  row_pct_return : pynum;
  row_purchase_date : string
}.

(** The variables carried around the [for inv in investments] loop. *)
Record loop_state : Type := mkLoop {
  total_value : float;
  total_cost : float;
  updated_investments : list dashboard_row;
  failed_symbols : list string
}.

(** The variables of one iteration before any rounding. *)
Record holding_locals : Type := mkLocals {
  loc_failed : bool;
  loc_live_price : float;
  loc_quantity : float;
  loc_buy_price : float;
  loc_current_value : float;
  loc_cost : float;
  loc_profit_loss : float;
  loc_pct_return : pynum
}.

(** [category_totals[k] += v] on a [defaultdict(float)]; the association
    list keeps the insertion order of the keys, as a Python dict does. *)
Fixpoint dict_add (k : string) (v : float) (d : list (string * float))
  : list (string * float) :=
  match d with
  | [] => [(k, add zero v)]
  | (k', x) :: d' =>
      if String.eqb k k' then (k', add x v) :: d'
      else (k', x) :: dict_add k v d'
  end.

Fixpoint dict_get (k : string) (d : list (string * float)) : option float :=
  match d with
  | [] => None
  | (k', x) :: d' => if String.eqb k k' then Some x else dict_get k d'
  end.

(** What the handler computes before rendering. *)
Record dashboard_locals : Type := mkDashboard {
  d_total_value : float;
  d_total_cost : float;
  d_updated_investments : list dashboard_row;
  d_failed_symbols : list string;
  d_total_profit_loss : float;
  d_total_return_pct : pynum;
  d_category_totals : list (string * float)
}.

(** The keyword arguments handed to [render_template]. *)
Record dashboard_context : Type := mkContext {
  ctx_investments : list dashboard_row;
  ctx_total_value : float;
  ctx_total_cost : float;
  ctx_profit_loss : float;
  ctx_return_pct : pynum;
  ctx_category_labels : list string;
  ctx_category_values : list float;
  ctx_has_investments : bool;
  ctx_warning : option (list string)
}.

Section Dashboard.

(** [get_live_price]: the market-data lookup, [None] on any failure. *)
Variable get_live_price : string -> option float.

(** Lines 202-217: the body of the loop up to the percentage return. *)
Definition holding_metrics (inv : investment) : result holding_locals :=
  let symbol := inv_symbol inv in
  let fetched := get_live_price symbol in
  let failed := match fetched with None => true | Some _ => false end in
  let live_price := match fetched with None => zero | Some p => p end in
  let quantity := inv_quantity inv in
  let buy_price := inv_buy_price inv in
  let current_value := mul quantity live_price in
  let cost := mul quantity buy_price in
  let profit_loss := sub current_value cost in
  pct_return <-
    (if ltb zero buy_price
     then q <- truediv (sub live_price buy_price) buy_price ;;
          Ok (PyFloat (mul q (of_Z 100)))
     else Ok (PyInt 0)) ;;
  Ok (mkLocals failed live_price quantity buy_price
               current_value cost profit_loss pct_return).

(** Lines 222-235: the dictionary built from the locals. *)
Definition make_row (inv : investment) (l : holding_locals) : dashboard_row :=
  mkRow (inv_id inv) (inv_symbol inv) (inv_category inv)
        (loc_quantity l) (loc_buy_price l)
        (round2 (loc_live_price l))
        (round2 (loc_current_value l))
        (round2 (loc_profit_loss l))
        (py_round2 (loc_pct_return l))
        (inv_purchase_date inv).

(** One iteration of the loop of lines 201-235. *)
Definition dashboard_step (st : loop_state) (inv : investment)
  : result loop_state :=
  l <- holding_metrics inv ;;
  Ok (mkLoop (add (total_value st) (loc_current_value l))
             (add (total_cost st) (loc_cost l))
             (updated_investments st ++ [make_row inv l])
             (if loc_failed l
              then failed_symbols st ++ [inv_symbol inv]
              else failed_symbols st)).

Fixpoint dashboard_loop (investments : list investment) (st : loop_state)
  : result loop_state :=
  match investments with
  | [] => Ok st
  | inv :: rest => st' <- dashboard_step st inv ;; dashboard_loop rest st'
  end.

(** Lines 242-244: the allocation by category. *)
Definition category_totals (rows : list dashboard_row)
  : list (string * float) :=
  fold_left (fun d r => dict_add (row_category r) (row_value r) d) rows [].

(** Lines 193-247, with [investments] the rows fetched for the user. *)
Definition dashboard_compute (investments : list investment)
  : result dashboard_locals :=
  st <- dashboard_loop investments (mkLoop zero zero [] []) ;;
  let total_profit_loss := sub (total_value st) (total_cost st) in
  total_return_pct <-
    (if ltb zero (total_cost st)
     then q <- truediv (sub (total_value st) (total_cost st)) (total_cost st) ;;
          Ok (PyFloat (mul q (of_Z 100)))
     else Ok (PyInt 0)) ;;
  Ok (mkDashboard (total_value st) (total_cost st)
                  (updated_investments st) (failed_symbols st)
                  total_profit_loss total_return_pct
                  (category_totals (updated_investments st))).

(** Lines 249-263: the warning and the arguments of the template. *)
Definition dashboard_render (d : dashboard_locals) : dashboard_context :=
  mkContext (d_updated_investments d)
            (round2 (d_total_value d))
            (round2 (d_total_cost d))
            (round2 (d_total_profit_loss d))
            (py_round2 (d_total_return_pct d))
            (map fst (d_category_totals d))
            (map snd (d_category_totals d))
            (negb (Nat.eqb (List.length (d_updated_investments d)) 0))
            (match d_failed_symbols d with
             | [] => None
             | _ :: _ => Some (d_failed_symbols d)
             end).

Definition dashboard (investments : list investment)
  : result dashboard_context :=
  d <- dashboard_compute investments ;; Ok (dashboard_render d).

End Dashboard.

(** ** Text: [str.strip], [str.upper], [float(str)] and [repr(float)] *)

Module Text.

(** ASCII characters for which [str.isspace] holds. *)
Definition is_space (c : ascii) : bool :=
  let n := N_of_ascii c in
  ((9 <=? n) && (n <=? 13) || (28 <=? n) && (n <=? 32))%N.

Fixpoint lstrip (s : string) : string :=
  match s with
  | String c s' => if is_space c then lstrip s' else s
  | EmptyString => EmptyString
  end.

Fixpoint rstrip (s : string) : string :=
  match s with
  | String c s' =>
      match rstrip s' with
      | EmptyString => if is_space c then EmptyString else String c EmptyString
      | t => String c t
      end
  | EmptyString => EmptyString
  end.

(** [s.strip()] *)
Definition strip (s : string) : string := rstrip (lstrip s).

Definition upper_char (c : ascii) : ascii :=
  let n := N_of_ascii c in
  if ((97 <=? n) && (n <=? 122))%N then ascii_of_N (n - 32) else c.

Definition lower_char (c : ascii) : ascii :=
  let n := N_of_ascii c in
  if ((65 <=? n) && (n <=? 90))%N then ascii_of_N (n + 32) else c.

(** [s.upper()] *)
Fixpoint upper (s : string) : string :=
  match s with
  | String c s' => String (upper_char c) (upper s')
  | EmptyString => EmptyString
  end.

Fixpoint lower (s : string) : string :=
  match s with
  | String c s' => String (lower_char c) (lower s')
  | EmptyString => EmptyString
  end.

Definition is_digit (c : ascii) : bool :=
  let n := N_of_ascii c in ((48 <=? n) && (n <=? 57))%N.

Definition digit_value (c : ascii) : Z := Z.of_N (N_of_ascii c) - 48.

(** The leading decimal digits of [s], their value, their number, and
    the rest of [s]. *)
Fixpoint read_digits (s : string) (acc : Z) (count : Z) : Z * Z * string :=
  match s with
  | String c s' =>
      if is_digit c then read_digits s' (10 * acc + digit_value c) (count + 1)
      else (acc, count, s)
  | EmptyString => (acc, count, s)
  end.

(** Underscores of a numeric literal: each one must stand between two
    digits; the result is the literal without them. *)
Fixpoint drop_underscores (prev : ascii) (s : string) : option string :=
  match s with
  | String c s' =>
      if Ascii.eqb c "_" then
        if is_digit prev then drop_underscores c s' else None
      else if Ascii.eqb prev "_" && negb (is_digit c) then None
      else option_map (String c) (drop_underscores c s')
  | EmptyString => if Ascii.eqb prev "_" then None else Some EmptyString
  end.

Definition read_sign (s : string) : bool * string :=
  match s with
  | String "-" s' => (true, s')
  | String "+" s' => (false, s')
  | _ => (false, s)
  end.

(** The float nearest to [(-1)^s * n * 10^e10]. *)
Definition of_decimal (s : bool) (n : Z) (e10 : Z) : float :=
  match e10 with
  | Zneg k => of_ratio s n (Pos.pow 10 k)
  | _ => of_ratio s (n * 10 ^ e10) 1
  end.

(** The optional exponent of a literal; [None] when text is left over. *)
Definition read_exponent (s : string) : option Z :=
  match s with
  | EmptyString => Some 0
  | String c s' =>
      if Ascii.eqb c "e" || Ascii.eqb c "E" then
        let '(neg, s'') := read_sign s' in
        match read_digits s'' 0 0 with
        | (v, count, EmptyString) =>
            if (0 <? count)%Z then Some (if neg then - v else v) else None
        | _ => None
        end
      else None
  end.

Definition read_number (s : string) : option (Z * Z) :=
  let '(ip, ni, s1) := read_digits s 0 0 in
  let '(fp, nf, s2) :=
    match s1 with
    | String "." s1' => read_digits s1' ip 0
    | _ => (ip, 0, s1)
    end in
  if (0 <? ni + nf)%Z then
    match read_exponent s2 with
    | Some e => Some (fp, e - nf)
    | None => None
    end
  else None.

(** The white space that [float] skips around a number: the six
    characters of C's [isspace].  The separators 28 to 31, which
    [str.strip] removes, are not among them. *)
Definition is_c_space (c : ascii) : bool :=
  let n := N_of_ascii c in ((9 <=? n) && (n <=? 13) || (n =? 32))%N.

Fixpoint skip_leading (s : string) : string :=
  match s with
  | String c s' => if is_c_space c then skip_leading s' else s
  | EmptyString => EmptyString
  end.

Fixpoint skip_trailing (s : string) : string :=
  match s with
  | String c s' =>
      match skip_trailing s' with
      | EmptyString =>
          if is_c_space c then EmptyString else String c EmptyString
      | t => String c t
      end
  | EmptyString => EmptyString
  end.

(** [float(s)] for a string [s]: [None] stands for [ValueError]. *)
Definition float_of_string (s : string) : option float :=
  match drop_underscores " " (skip_trailing (skip_leading s)) with
  | None => None
  | Some t =>
      let '(neg, body) := read_sign t in
      let low := lower body in
      if String.eqb low "inf" || String.eqb low "infinity"
      then Some (S754_infinity neg)
      else if String.eqb low "nan" then Some S754_nan
      else match read_number body with
           | Some (n, e10) => Some (of_decimal neg n e10)
           | None => None
           end
  end.

(** *** [repr] of a float: the shortest decimal that reads back *)

Definition digits_of_Z (z : Z) : string :=
  NilZero.string_of_uint (N.to_uint (Z.to_N z)).

(** [num / den >= 10^d] *)
Definition ge_pow10 (num den d : Z) : bool :=
  match d with
  | Zneg k => (den <=? num * Zpos (Pos.pow 10 k))%Z
  | _ => (den * 10 ^ d <=? num)%Z
  end.

Fixpoint search_up (fuel : nat) (num den d : Z) : Z :=
  match fuel with
  | O => d
  | S f => if ge_pow10 num den d then search_up f num den (d + 1) else d
  end.

Fixpoint search_down (fuel : nat) (num den d : Z) : Z :=
  match fuel with
  | O => d
  | S f => if ge_pow10 num den (d - 1) then d else search_down f num den (d - 1)
  end.

(** The [d] with [10^(d-1) <= num / den < 10^d]. *)
Definition decimal_point (num den : Z) : Z :=
  if ge_pow10 num den 0 then search_up 400 num den 1
  else search_down 400 num den 0.

Definition reads_back (x : float) (n k : Z) : bool :=
  eqb (of_decimal false n k) x.

(** The [n]-digit decimals next to [num / den]: the one that reads back
    as [x], the nearer one when both do.  The last argument asks for the
    nearest decimal whether it reads back or not. *)
Definition try_digits (x : float) (num den decpt n : Z) (force : bool)
  : option (Z * Z) :=
  let k := decpt - n in
  let '(sn, sd) :=
    match k with
    | Zneg j => (num * Zpos (Pos.pow 10 j), den)
    | _ => (num, den * 10 ^ k)
    end in
  let lo := sn / sd in
  let r := sn mod sd in
  let nearest :=
    match Z.compare (2 * r) sd with
    | Lt => lo
    | Gt => lo + 1
    | Eq => if Z.even lo then lo else lo + 1
    end in
  if (r =? 0)%Z then Some (lo, k)
  else if force then Some (nearest, k)
  else match reads_back x lo k, reads_back x (lo + 1) k with
       | true, true => Some (nearest, k)
       | true, false => Some (lo, k)
       | false, true => Some (lo + 1, k)
       | false, false => None
       end.

Fixpoint shortest_from (fuel : nat) (x : float) (num den decpt n : Z)
  : Z * Z :=
  match fuel with
  | O => match try_digits x num den decpt n true with
         | Some r => r
         | None => (0, 0)
         end
  | S f => match try_digits x num den decpt n false with
           | Some r => r
           | None => shortest_from f x num den decpt (n + 1)
           end
  end.

Fixpoint strip_zeros (rev_digits : string) (dropped : Z) : string * Z :=
  match rev_digits with
  | String "0" s' => strip_zeros s' (dropped + 1)
  | _ => (rev_digits, dropped)
  end.

Fixpoint rev_string (s acc : string) : string :=
  match s with
  | String c s' => rev_string s' (String c acc)
  | EmptyString => acc
  end.

Fixpoint zeros (n : nat) : string :=
  match n with
  | O => EmptyString
  | S n' => String "0" (zeros n')
  end.

(** The layout of [repr]: plain notation while the decimal point lies
    within [-4 < decpt <= 16], scientific notation otherwise. *)
Definition layout (digits : string) (decpt : Z) : string :=
  let len := Z.of_nat (String.length digits) in
  if ((decpt <=? -4) || (16 <? decpt))%Z then
    let e := (decpt - 1)%Z in
    let mant :=
      match digits with
      | String c EmptyString => digits
      | String c rest => String c (String "." rest)
      | EmptyString => digits
      end in
    let ed := digits_of_Z (Z.abs e) in
    mant ++ "e" ++ (if (e <? 0)%Z then "-" else "+")
         ++ (if (Z.abs e <? 10)%Z then "0" ++ ed else ed)
  else if (decpt <=? 0)%Z then
    "0." ++ zeros (Z.to_nat (- decpt)) ++ digits
  else if (len <=? decpt)%Z then
    digits ++ zeros (Z.to_nat (decpt - len)) ++ ".0"
  else
    substring 0 (Z.to_nat decpt) digits ++ "."
      ++ substring (Z.to_nat decpt) (Z.to_nat (len - decpt)) digits.

(** [repr(x)], which is also [str(x)] and what [csv.writer] writes. *)
Definition float_repr (x : float) : string :=
  match x with
  | S754_nan => "nan"
  | S754_infinity s => if s then "-inf" else "inf"
  | S754_zero s => if s then "-0.0" else "0.0"
  | S754_finite s m e =>
      let '(num, den) :=
        match e with
        | Zneg k => (Zpos m, Zpos (Pos.pow 2 k))
        | _ => (Z.shiftl (Zpos m) e, 1%Z)
        end in
      let decpt := decimal_point num den in
      let '(n, k) :=
        shortest_from 16 (S754_finite false m e) num den decpt 1 in
      let all := digits_of_Z n in
      let '(rd, _) := strip_zeros (rev_string all EmptyString) 0 in
      let body := layout (rev_string rd EmptyString)
                         (k + Z.of_nat (String.length all)) in
      if s then "-" ++ body else body
  end.

End Text.

Import Text.

(** ** The store *)

(** The two tables the handlers touch, each with the counter that
    [AUTOINCREMENT] keeps in [sqlite_sequence]. *)
Record database : Type := mkDb {
  investments : list investment;
  transactions : list transaction;
  investments_seq : Z;
  transactions_seq : Z
}.

(** The rowid given to a new row of an [AUTOINCREMENT] table. *)
Definition next_rowid (seq : Z) (ids : list Z) : Z :=
  Z.max seq (fold_right Z.max 0 ids) + 1.

(** [INSERT INTO investments (user_id, symbol, category, quantity,
    buy_price)]: a NaN is bound as NULL, which the [NOT NULL] columns
    refuse; [purchase_date] takes the current timestamp. *)
Definition insert_investment (db : database) (user_id : Z)
    (symbol category : string) (quantity buy_price : float) (now : string)
  : result database :=
  if is_nan quantity || is_nan buy_price then Raise IntegrityError
  else
    let id := next_rowid (investments_seq db) (map inv_id (investments db)) in
    Ok (mkDb (investments db
                ++ [mkInvestment id user_id symbol category
                                 quantity buy_price now])
             (transactions db) id (transactions_seq db)).

(** [INSERT INTO transactions (user_id, symbol, transaction_type,
    quantity, price)]. *)
Definition insert_transaction (db : database) (user_id : Z)
    (symbol : string) (ty : transaction_type) (quantity price : float)
    (now : string) : result database :=
  if is_nan quantity || is_nan price then Raise IntegrityError
  else
    let id := next_rowid (transactions_seq db) (map txn_id (transactions db)) in
    Ok (mkDb (investments db)
             (transactions db
                ++ [mkTransaction id user_id symbol ty quantity price now])
             (investments_seq db) id).

(** The integers that the store holds: 64 bits, signed. *)
Definition sqlite_integer (z : Z) : bool :=
  (-9223372036854775808 <=? z) && (z <=? 9223372036854775807).

(** [SELECT * FROM investments WHERE id = ? AND user_id = ?], [fetchone].
    The id comes from the URL and may be any integer: one that does not
    fit in 64 bits cannot be bound to the statement and raises.  The
    user id comes from the session, which holds a rowid of the store. *)
Definition select_investment (db : database) (id user_id : Z)
  : result (option investment) :=
  if sqlite_integer id then
    Ok (find (fun r => (inv_id r =? id)%Z && (inv_user_id r =? user_id)%Z)
             (investments db))
  else Raise OverflowError.

(** [SELECT ... FROM investments WHERE user_id = ?], [fetchall]. *)
Definition select_by_user (db : database) (user_id : Z) : list investment :=
  filter (fun r => (inv_user_id r =? user_id)%Z) (investments db).

(** [UPDATE investments SET quantity = ?, buy_price = ? WHERE id = ?],
    run with an id that the SELECT has bound before. *)
Definition update_investment (db : database) (id : Z)
    (quantity buy_price : float) : result database :=
  if existsb (fun r => (inv_id r =? id)%Z) (investments db)
     && (is_nan quantity || is_nan buy_price)
  then Raise IntegrityError
  else
    Ok (mkDb (map (fun r =>
                     if (inv_id r =? id)%Z
                     then mkInvestment (inv_id r) (inv_user_id r)
                            (inv_symbol r) (inv_category r)
                            quantity buy_price (inv_purchase_date r)
                     else r)
                  (investments db))
             (transactions db) (investments_seq db) (transactions_seq db)).

(** [DELETE FROM investments WHERE id = ? AND user_id = ?], run with an
    id that the SELECT has bound before. *)
Definition delete_row (db : database) (id user_id : Z) : database :=
  mkDb (filter (fun r => negb ((inv_id r =? id)%Z
                               && (inv_user_id r =? user_id)%Z))
               (investments db))
       (transactions db) (investments_seq db) (transactions_seq db).

(** ** What a handler leaves behind *)

Inductive flash_category : Type := success | danger | warning | info.

Inductive flash_text : Type :=
| Text (s : string)
| TextWithError (prefix : string) (e : exn).

Inductive response : Type :=
| Redirect (endpoint : string)
| RenderTemplate (name : string)
| CsvFile (records : list (list string))
| InternalServerError (e : exn).

(** The committed store, the flashed messages and the response. *)
Record outcome : Type := mkOutcome {
  out_db : database;
  out_flashes : list (flash_text * flash_category);
  out_response : response
}.

(** [require_login]: [session] holds the user id once logged in. *)
Definition require_login (session : option Z) (db : database)
    (f : Z -> outcome) : outcome :=
  match session with
  | None => mkOutcome db [(Text "Please log in to access this page.", warning)]
                      (Redirect "login")
  | Some user_id => f user_id
  end.

(** The validation shared by the add and edit forms: both fields parse
    and neither satisfies [<= 0]. *)
Definition parse_positive (quantity buy_price : string)
  : option (float * float) :=
  match float_of_string quantity with
  | None => None
  | Some q =>
      match float_of_string buy_price with
      | None => None
      | Some b => if leb q zero || leb b zero then None else Some (q, b)
      end
  end.

(** ** Handlers that change the holdings *)

Inductive http_method : Type := GET | POST.

(** The fields of the add and edit forms; a missing field reads as the
    empty string. *)
Record investment_form : Type := mkForm {
  form_symbol : string;
  form_category : string;
  form_quantity : string;
  form_buy_price : string
}.

Section Handlers.

Variable get_live_price : string -> option float.

(** The current timestamp of the store. *)
Variable now : string.

(** [add_investment], lines 266-325. *)
Definition add_investment (session : option Z) (db : database)
    (method : http_method) (form : investment_form) : outcome :=
  require_login session db (fun user_id =>
    match method with
    | GET => mkOutcome db [] (RenderTemplate "add_investment.html")
    | POST =>
        let symbol := upper (strip (form_symbol form)) in
        let category := strip (form_category form) in
        if String.eqb symbol "" || String.eqb category "" then
          mkOutcome db [(Text "Symbol and category are required.", danger)]
                    (Redirect "add_investment")
        else
          match parse_positive (form_quantity form) (form_buy_price form) with
          | None =>
              mkOutcome db
                [(Text "Quantity and price must be positive numbers.", danger)]
                (Redirect "add_investment")
          | Some (quantity, buy_price) =>
              let unverified :=
                match get_live_price symbol with
                | None =>
                    [(Text ("Warning: Could not verify symbol '" ++ symbol
                            ++ "'. It may be invalid."), warning)]
                | Some _ => []
                end in
              match
                (conn <- insert_investment db user_id symbol category
                                           quantity buy_price now ;;
                 insert_transaction conn user_id symbol BUY
                                    quantity buy_price now)
              with
              | Ok conn =>
                  mkOutcome conn
                    (unverified
                       ++ [(Text ("Successfully added " ++ float_repr quantity
                                  ++ " shares of " ++ symbol ++ "!"), success)])
                    (Redirect "dashboard")
              | Raise e =>
                  mkOutcome db
                    (unverified
                       ++ [(TextWithError "Error adding investment: " e,
                            danger)])
                    (Redirect "add_investment")
              end
          end
    end).

(** [edit_investment], lines 328-367. *)
Definition edit_investment (session : option Z) (db : database)
    (method : http_method) (form : investment_form) (id : Z) : outcome :=
  require_login session db (fun user_id =>
    match select_investment db id user_id with
    | Raise e => mkOutcome db [] (InternalServerError e)
    | Ok None =>
        mkOutcome db [(Text "Investment not found.", danger)]
                  (Redirect "dashboard")
    | Ok (Some _) =>
        match method with
        | GET => mkOutcome db [] (RenderTemplate "edit_investment.html")
        | POST =>
            match parse_positive (form_quantity form) (form_buy_price form) with
            | None =>
                mkOutcome db
                  [(Text "Quantity and price must be positive numbers.",
                    danger)]
                  (Redirect "edit_investment")
            | Some (quantity, buy_price) =>
                match update_investment db id quantity buy_price with
                | Ok conn =>
                    mkOutcome conn
                      [(Text "Investment updated successfully!", success)]
                      (Redirect "dashboard")
                | Raise e => mkOutcome db [] (InternalServerError e)
                end
            end
        end
    end).

(** [delete_investment], lines 370-403. *)
Definition delete_investment (session : option Z) (db : database) (id : Z)
  : outcome :=
  require_login session db (fun user_id =>
    match select_investment db id user_id with
    | Raise e => mkOutcome db [] (InternalServerError e)
    | Ok (Some investment) =>
        match insert_transaction db user_id (inv_symbol investment) SELL
                (inv_quantity investment) (inv_buy_price investment) now
        with
        | Ok conn =>
            mkOutcome (delete_row conn id user_id)
              [(Text ("Deleted " ++ inv_symbol investment
                      ++ " from portfolio."), success)]
              (Redirect "dashboard")
        | Raise e => mkOutcome db [] (InternalServerError e)
        end
    | Ok None =>
        mkOutcome db [(Text "Investment not found.", danger)]
                  (Redirect "dashboard")
    end).

(** ** CSV export and import

    A CSV file is modelled by its records, the lists of fields that
    [csv.writer] is given and that [csv.reader] yields, one after the
    other, as long as no field is longer than the reader allows. *)

Definition csv_header : list string :=
  ["symbol"; "category"; "quantity"; "buy_price"; "purchase_date"].

(** [export_csv], lines 433-455. *)
Definition export_csv (session : option Z) (db : database) : outcome :=
  require_login session db (fun user_id =>
    mkOutcome db []
      (CsvFile
         (csv_header
            :: map (fun r => [inv_symbol r; inv_category r;
                              float_repr (inv_quantity r);
                              float_repr (inv_buy_price r);
                              inv_purchase_date r])
                   (select_by_user db user_id)))).

(** A row of [csv.DictReader]: the field names zipped with the fields,
    the names left over bound to [None]; the last binding of a name is
    the one a lookup sees. *)
Definition csv_row : Type := list (string * option string).

Definition dict_row (fieldnames fields : list string) : csv_row :=
  combine fieldnames
          (map Some fields
             ++ repeat None (List.length fieldnames - List.length fields)).

Fixpoint row_get (k : string) (d : csv_row) : option (option string) :=
  match d with
  | [] => None
  | (k', v) :: d' =>
      match row_get k d' with
      | Some r => Some r
      | None => if String.eqb k k' then Some v else None
      end
  end.

(** [csv.field_size_limit()] *)
Definition field_size_limit : Z := 131072.

Definition within_field_limit (fields : list string) : bool :=
  forallb (fun f => Z.of_nat (String.length f) <=? field_size_limit) fields.

(** [next(reader)] on a record of the file: a field longer than the
    limit raises [csv.Error]. *)
Definition read_record (fields : list string) : result (list string) :=
  if within_field_limit fields then Ok fields else Raise CsvError.

Definition is_blank (fields : list string) : bool :=
  match fields with
  | [] => true
  | _ :: _ => false
  end.

(** [csv.DictReader]: what each step of the iteration yields or raises.
    The first record names the fields and is read at the first step;
    empty records are skipped. *)
Definition dict_reader (records : list (list string))
  : list (result csv_row) :=
  match records with
  | [] => []
  | fieldnames :: rows =>
      match read_record fieldnames with
      | Raise e => [Raise e]
      | Ok names =>
          map (fun fields =>
                 fields' <- read_record fields ;;
                 Ok (dict_row names fields'))
              (filter (fun r => negb (is_blank r)) rows)
      end
  end.

(** [float(row.get(key, 0))] *)
Definition float_field (row : csv_row) (key : string) : result float :=
  match row_get key row with
  | None => Ok (of_Z 0)
  | Some None => Raise TypeError
  | Some (Some s) =>
      match float_of_string s with
      | Some x => Ok x
      | None => Raise ValueError
      end
  end.

(** [row.get("symbol")] when it is truthy. *)
Definition symbol_field (row : csv_row) : option string :=
  match row_get "symbol" row with
  | Some (Some s) => if String.eqb s "" then None else Some s
  | _ => None
  end.

(** [row.get("category", "Other").strip()] *)
Definition category_field (row : csv_row) : result string :=
  match row_get "category" row with
  | None => Ok (strip "Other")
  | Some None => Raise AttributeError
  | Some (Some s) => Ok (strip s)
  end.

(** One iteration of the loop of lines 473-496 on the open connection
    and the counter [imported]. *)
Definition import_row (user_id : Z) (st : database * nat) (row : csv_row)
  : result (database * nat) :=
  match symbol_field row with
  | None => Ok st
  | Some s =>
      quantity <- float_field row "quantity" ;;
      buy_price <- float_field row "buy_price" ;;
      if leb quantity zero || leb buy_price zero then Ok st
      else
        category <- category_field row ;;
        conn <- insert_investment (fst st) user_id (upper (strip s))
                                  category quantity buy_price now ;;
        Ok (conn, S (snd st))
  end.

(** The loop [for row in reader]: each step reads a row, which may
    raise, and processes it. *)
Fixpoint import_rows (user_id : Z) (rows : list (result csv_row))
    (st : database * nat) : result (database * nat) :=
  match rows with
  | [] => Ok st
  | next :: rest =>
      row <- next ;;
      st' <- import_row user_id st row ;;
      import_rows user_id rest st'
  end.

(** [import_csv], lines 458-504.  The connection is committed after the
    loop only; an exception, of the reader or of the loop body, leaves it
    uncommitted and its inserts are rolled back when it is dropped. *)
Definition import_csv (session : option Z) (db : database)
    (file : option (list (list string))) : outcome :=
  require_login session db (fun user_id =>
    match file with
    | None => mkOutcome db [(Text "No file selected.", danger)]
                        (Redirect "dashboard")
    | Some records =>
        match import_rows user_id (dict_reader records) (db, O) with
        | Ok (conn, imported) =>
            mkOutcome conn
              [(Text ("Successfully imported "
                      ++ digits_of_Z (Z.of_nat imported)
                      ++ " investments!"), success)]
              (Redirect "dashboard")
        | Raise e =>
            mkOutcome db [(TextWithError "Error importing CSV: " e, danger)]
                      (Redirect "dashboard")
        end
    end).

End Handlers.

(** ** Reference definitions for the statements *)

(** A float written as a decimal literal. *)
Definition float_lit (s : string) : float :=
  match float_of_string s with
  | Some x => x
  | None => S754_nan
  end.

(** The accumulation [acc += v] over a list, started at [0.0]. *)
Definition float_sum (l : list float) : float := fold_left add l zero.

(** The keys of a list in the order of their first occurrence. *)
Fixpoint first_seen (l : list string) : list string :=
  match l with
  | [] => []
  | x :: l' => x :: filter (fun y => negb (String.eqb y x)) (first_seen l')
  end.

Section ValuationSpec.

Variable get_live_price : string -> option float.

(** The price the loop works with: [0.0] after a failed lookup. *)
Definition effective_price (inv : investment) : float :=
  match get_live_price (inv_symbol inv) with
  | None => zero
  | Some p => p
  end.

Definition lookup_failed (inv : investment) : bool :=
  match get_live_price (inv_symbol inv) with
  | None => true
  | Some _ => false
  end.

Definition current_value_of (inv : investment) : float :=
  mul (inv_quantity inv) (effective_price inv).

Definition cost_of (inv : investment) : float :=
  mul (inv_quantity inv) (inv_buy_price inv).

(** The percentage return as the specification words it. *)
Definition pct_return_of (inv : investment) : pynum :=
  if ltb zero (inv_buy_price inv)
  then PyFloat (mul (div (sub (effective_price inv) (inv_buy_price inv))
                         (inv_buy_price inv))
                    (of_Z 100))
  else PyInt 0.

Definition locals_of (inv : investment) : holding_locals :=
  mkLocals (lookup_failed inv) (effective_price inv)
           (inv_quantity inv) (inv_buy_price inv)
           (current_value_of inv) (cost_of inv)
           (sub (current_value_of inv) (cost_of inv))
           (pct_return_of inv).

Definition row_of (inv : investment) : dashboard_row :=
  make_row inv (locals_of inv).

Definition failed_of (invs : list investment) : list string :=
  map inv_symbol (filter lookup_failed invs).

(** The portfolio return as the specification words it. *)
Definition total_return_pct_of (tv tc : float) : pynum :=
  if ltb zero tc then PyFloat (mul (div (sub tv tc) tc) (of_Z 100))
  else PyInt 0.

End ValuationSpec.

(** The value held for a category, [0.0] when the key is missing. *)
Definition dict_get0 (k : string) (d : list (string * float)) : float :=
  match dict_get k d with
  | Some x => x
  | None => zero
  end.

(** [k in d] *)
Definition has_key (k : string) (ks : list string) : bool :=
  existsb (String.eqb k) ks.

(** The keys of a dict after [d[k] += v]. *)
Definition add_key (k : string) (ks : list string) : list string :=
  if has_key k ks then ks else (ks ++ [k])%list.

(** The loop of lines 243-244 from any starting dict. *)
Definition totals_from (rows : list dashboard_row)
    (d : list (string * float)) : list (string * float) :=
  fold_left (fun d r => dict_add (row_category r) (row_value r) d) rows d.

Definition in_category (c : string) (r : dashboard_row) : bool :=
  String.eqb (row_category r) c.

(** ** Sample portfolios *)

Definition sample_date : string := "2024-01-01 00:00:00".

(** Ten AAPL bought at 100 and quoted at 150, as in the specification. *)
Definition aapl_holding : investment :=
  mkInvestment 1 1 "AAPL" "Stock" (float_lit "10") (float_lit "100")
               sample_date.

Definition aapl_quote (symbol : string) : option float :=
  if String.eqb symbol "AAPL" then Some (float_lit "150") else None.

(** A holding whose symbol the market-data service does not know. *)
Definition unknown_holding : investment :=
  mkInvestment 2 1 "XXXX" "Other" (float_lit "5") (float_lit "20") sample_date.

(** A market-data service that knows no symbol. *)
Definition unknown_quote (symbol : string) : option float := None.

(** A holding with a zero buy price. *)
Definition free_holding : investment :=
  mkInvestment 3 1 "AAPL" "Stock" (float_lit "10") (float_lit "0") sample_date.

(** Two small positions quoted at 0.004. *)
Definition penny_holdings : list investment :=
  [mkInvestment 1 1 "AAA" "Stock" (float_lit "1") (float_lit "1") sample_date;
   mkInvestment 2 1 "BBB" "Stock" (float_lit "1") (float_lit "1") sample_date].

Definition penny_quote (symbol : string) : option float :=
  Some (float_lit "0.004").

(** ** Sample store *)

(** One holding of five shares bought at 20, owned by user 1. *)
Definition sample_holding : investment :=
  mkInvestment 1 1 "MSFT" "Stock" (float_lit "5") (float_lit "20") sample_date.

Definition sample_db : database := mkDb [sample_holding] [] 1 0.

(** The row an edit writes: only the two numeric fields change. *)
Definition with_numbers (quantity buy_price : float) (r : investment)
  : investment :=
  mkInvestment (inv_id r) (inv_user_id r) (inv_symbol r) (inv_category r)
               quantity buy_price (inv_purchase_date r).

(** [r] is the row with key [id] owned by [user_id]. *)
Definition is_row (id user_id : Z) (r : investment) : bool :=
  (inv_id r =? id) && (inv_user_id r =? user_id).

(** ** Reference definitions for the CSV statements *)

(** No field of the file is longer than the reader allows. *)
Definition readable_file (records : list (list string)) : bool :=
  forallb within_field_limit records.

(** The rows of a file that the reader reads to its end: the records
    after the first, the empty ones left out, under the names of the
    first. *)
Definition csv_rows (records : list (list string)) : list csv_row :=
  match records with
  | [] => []
  | fieldnames :: rows =>
      map (dict_row fieldnames) (filter (fun r => negb (is_blank r)) rows)
  end.

(** What identifies a holding once ids and dates are set aside. *)
Definition holding_tuple : Type := (string * string * float * float)%type.

Definition inv_tuple (r : investment) : holding_tuple :=
  (inv_symbol r, inv_category r, inv_quantity r, inv_buy_price r).

(** The number a row holds under [key], NaN when it holds none. *)
Definition field_number (row : csv_row) (key : string) : float :=
  match float_field row key with
  | Ok x => x
  | Raise _ => S754_nan
  end.

(** The row is skipped: it has no symbol, or its quantity or its buy
    price is a number that is not positive. *)
Definition row_skipped (row : csv_row) : bool :=
  match symbol_field row with
  | None => true
  | Some _ =>
      leb (field_number row "quantity") zero
      || leb (field_number row "buy_price") zero
  end.

(** The holding a row stands for. *)
Definition row_tuple (row : csv_row) : holding_tuple :=
  (match symbol_field row with
   | Some s => upper (strip s)
   | None => ""
   end,
   match category_field row with
   | Ok c => c
   | Raise _ => ""
   end,
   field_number row "quantity",
   field_number row "buy_price").

Definition is_ok {A : Type} (r : result A) : bool :=
  match r with
  | Ok _ => true
  | Raise _ => false
  end.

(** The row can be processed without an exception: when it has a symbol,
    both numbers can be read and, unless the row is skipped for a number
    that is not positive, the category is a string and neither number is
    NaN. *)
Definition row_readable (row : csv_row) : bool :=
  match symbol_field row with
  | None => true
  | Some _ =>
      is_ok (float_field row "quantity")
      && is_ok (float_field row "buy_price")
      && (row_skipped row
          || (is_ok (category_field row)
              && negb (is_nan (field_number row "quantity"))
              && negb (is_nan (field_number row "buy_price"))))
  end.

(** A step of the import loop raises: the reader does, or the row does
    whatever the connection holds. *)
Definition raising (now : string) (user_id : Z) (next : result csv_row)
  : Prop :=
  match next with
  | Ok row => forall st, exists e, import_row now user_id st row = Raise e
  | Raise _ => True
  end.

(** The text under [key] does not read as a number. *)
Definition unparseable (row : csv_row) (key : string) : Prop :=
  exists text,
    row_get key row = Some (Some text) /\ float_of_string text = None.

(** The open connection [st'] is [st] with the investments [added] for
    the user at the current timestamp, and nothing else changed. *)
Definition grown_by (now : string) (user_id : Z) (added : list investment)
    (st st' : database * nat) : Prop :=
  investments (fst st') = (investments (fst st) ++ added)%list /\
  transactions (fst st') = transactions (fst st) /\
  transactions_seq (fst st') = transactions_seq (fst st) /\
  snd st' = (snd st + List.length added)%nat /\
  Forall (fun r => inv_user_id r = user_id /\ inv_purchase_date r = now)
         added.

(** The same float, bit for bit. *)
Definition float_identical (x y : float) : bool :=
  match x, y with
  | S754_zero s, S754_zero s' => Bool.eqb s s'
  | S754_infinity s, S754_infinity s' => Bool.eqb s s'
  | S754_nan, S754_nan => true
  | S754_finite s m e, S754_finite s' m' e' =>
      Bool.eqb s s' && Pos.eqb m m' && Z.eqb e e'
  | _, _ => false
  end.

(** [float(repr(x))] is [x] again. *)
Definition reads_back_repr (x : float) : bool :=
  match float_of_string (float_repr x) with
  | Some y => float_identical y x
  | None => false
  end.

(** A stored holding as the add form leaves it: a symbol that is not
    empty and is stripped and upper-cased, a stripped category, positive
    numbers; and numbers that [repr] writes so that [float] reads them
    back. *)
Definition exportable (r : investment) : bool :=
  negb (String.eqb (inv_symbol r) "")
  && String.eqb (upper (strip (inv_symbol r))) (inv_symbol r)
  && String.eqb (strip (inv_category r)) (inv_category r)
  && ltb zero (inv_quantity r)
  && ltb zero (inv_buy_price r)
  && reads_back_repr (inv_quantity r)
  && reads_back_repr (inv_buy_price r).

(** The record that [export_csv] writes for a holding, as
    [csv.DictReader] reads it under the export header. *)
Definition exported_row (r : investment) : csv_row :=
  dict_row csv_header
           [inv_symbol r; inv_category r; float_repr (inv_quantity r);
            float_repr (inv_buy_price r); inv_purchase_date r].

(** ** Sample files *)

Definition empty_db : database := mkDb [] [] 0 0.

Definition import_header : list string :=
  ["symbol"; "category"; "quantity"; "buy_price"].

(** A well-formed row followed by a row whose quantity is not a number. *)
Definition bad_number_file : list (list string) :=
  [import_header; ["AAPL"; "Stock"; "1"; "10"]; ["MSFT"; "Stock"; "abc"; "10"]].

(** The two rows of the specification's scenario and a well-formed one. *)
Definition scenario_file : list (list string) :=
  [import_header; [""; "Other"; "5"; "10"]; ["AAPL"; "Stock"; "-1"; "10"];
   ["msft"; " Tech "; "2.5"; "100"]].

(** A row whose symbol is a single space. *)
Definition blank_symbol_file : list (list string) :=
  [import_header; [" "; "Stock"; "1"; "10"]].

(** The records that [export_csv] answers with. *)
Definition exported_records (out : outcome) : list (list string) :=
  match out_response out with
  | CsvFile records => records
  | _ => []
  end.

(** ** Routing of the portfolio requests *)

(** A request to one of the session-gated routes that read or change the
    holdings, with what the handler reads from it.  The id of a route
    [<int:id>] is a number written in digits in the URL: any natural
    number, however large. *)
Inductive request : Type :=
| AddInvestment (method : http_method) (form : investment_form)
| EditInvestment (method : http_method) (form : investment_form) (id : N)
| DeleteInvestment (id : N)
| ExportCsv
| ImportCsv (file : option (list (list string))).

(** A request as it reaches the application: the session cookie, the
    clock of the store and the answers of the market-data service at
    that moment. *)
Record call : Type := mkCall {
  call_session : option Z;
  call_now : string;
  call_quote : string -> option float;
  call_request : request
}.

(** The handler that [app.route] selects. *)
Definition handle (c : call) (db : database) : outcome :=
  match call_request c with
  | AddInvestment method form =>
      add_investment (call_quote c) (call_now c) (call_session c) db method form
  | EditInvestment method form id =>
      edit_investment (call_session c) db method form (Z.of_N id)
  | DeleteInvestment id =>
      delete_investment (call_now c) (call_session c) db (Z.of_N id)
  | ExportCsv => export_csv (call_session c) db
  | ImportCsv file => import_csv (call_now c) (call_session c) db file
  end.

(** The store after a sequence of requests. *)
Fixpoint run (calls : list call) (db : database) : database :=
  match calls with
  | [] => db
  | c :: rest => run rest (out_db (handle c db))
  end.

(** ** Invariants of the store *)

(** The primary keys of both tables are unique. *)
Definition keys_unique (db : database) : Prop :=
  NoDup (map inv_id (investments db)) /\
  NoDup (map txn_id (transactions db)).

(** The invariant the forms enforce: [quantity > 0] and [buy_price > 0]. *)
Definition positive_holding (r : investment) : Prop :=
  ltb zero (inv_quantity r) = true /\ ltb zero (inv_buy_price r) = true.

Definition positive_transaction (t : transaction) : Prop :=
  ltb zero (txn_quantity t) = true /\ ltb zero (txn_price t) = true.

Definition positive_store (db : database) : Prop :=
  Forall positive_holding (investments db) /\
  Forall positive_transaction (transactions db).

(** The symbol is a fixed point of [.strip().upper()] and the category
    of [.strip()]. *)
Definition normalised_holding (r : investment) : Prop :=
  upper (strip (inv_symbol r)) = inv_symbol r /\
  strip (inv_category r) = inv_category r.

(** The transactions of one user. *)
Definition transactions_of (db : database) (user_id : Z) : list transaction :=
  filter (fun t => txn_user_id t =? user_id) (transactions db).

(** The add form passes every check of [add_investment]. *)
Definition add_accepted (form : investment_form) : option (float * float) :=
  if String.eqb (upper (strip (form_symbol form))) ""
     || String.eqb (strip (form_category form)) ""
  then None
  else
    match parse_positive (form_quantity form) (form_buy_price form) with
    | Some (q, b) => if is_nan q || is_nan b then None else Some (q, b)
    | None => None
    end.

(** ** The elementary changes of the store

    The four statements that the handlers run for a user, each with what
    the handler has checked before running it. *)
Inductive effect (user_id : Z) : database -> database -> Prop :=
| effect_insert (db : database) (r : investment) :
    inv_id r = next_rowid (investments_seq db) (map inv_id (investments db)) ->
    inv_user_id r = user_id ->
    positive_holding r ->
    normalised_holding r ->
    effect user_id db
           (mkDb (investments db ++ [r]) (transactions db)
                 (inv_id r) (transactions_seq db))
| effect_log (db : database) (t : transaction) (r : investment) :
    txn_id t
    = next_rowid (transactions_seq db) (map txn_id (transactions db)) ->
    txn_user_id t = user_id ->
    In r (investments db) ->
    inv_user_id r = user_id ->
    txn_symbol t = inv_symbol r ->
    txn_quantity t = inv_quantity r ->
    txn_price t = inv_buy_price r ->
    effect user_id db
           (mkDb (investments db) (transactions db ++ [t])
                 (investments_seq db) (txn_id t))
| effect_update (db : database) (id : Z) (r : investment) (q b : float) :
    select_investment db id user_id = Ok (Some r) ->
    ltb zero q = true ->
    ltb zero b = true ->
    effect user_id db
           (mkDb (map (fun x => if inv_id x =? id then with_numbers q b x
                                else x)
                      (investments db))
                 (transactions db) (investments_seq db) (transactions_seq db))
| effect_remove (db : database) (id : Z) :
    effect user_id db (delete_row db id user_id).

(** A sequence of elementary changes. *)
Inductive effects (user_id : Z) : database -> database -> Prop :=
| effects_done (db : database) : effects user_id db db
| effects_step (db db' db'' : database) :
    effect user_id db db' ->
    effects user_id db' db'' ->
    effects user_id db db''.

(** ** Sample requests *)

(** User 1 adds AAPL, imports the scenario file, edits the first holding
    and deletes it. *)
Definition sample_calls : list call :=
  [mkCall (Some 1) sample_date aapl_quote
          (AddInvestment POST (mkForm "aapl" "Stock" "10" "100"));
   mkCall (Some 1) sample_date aapl_quote (ImportCsv (Some scenario_file));
   mkCall (Some 1) sample_date aapl_quote
          (EditInvestment POST (mkForm "" "" "8" "25") 1%N);
   mkCall (Some 1) sample_date aapl_quote (DeleteInvestment 1%N)].

(** The same requests without a session. *)
Definition anonymous_calls : list call :=
  map (fun c => mkCall None (call_now c) (call_quote c) (call_request c))
      sample_calls.

(** ** Accounts: [register], [login], [logout], [home] *)

(** A row of the [users] table. *)
Record user : Type := mkUser {
  usr_id : Z;
  usr_username : string;
  usr_password : string;
  usr_created_at : string
}.

(** The [users] table and its [AUTOINCREMENT] counter. *)
Record user_table : Type := mkUsers {
  users : list user;
  users_seq : Z
}.

(** The fields of the register and login forms; a missing field reads as
    the empty string. *)
Record credentials : Type := mkCredentials {
  form_username : string;
  form_password : string
}.

(** The session cookie: empty, or the keys [user_id] and [username]. *)
Definition session_data : Type := option (Z * string).

(** [session["user_id"]] as the portfolio handlers read it. *)
Definition session_user (session : session_data) : option Z :=
  option_map fst session.

(** What an account handler leaves behind. *)
Record auth_outcome : Type := mkAuth {
  auth_users : user_table;
  auth_session : session_data;
  auth_flashes : list (flash_text * flash_category);
  auth_response : response
}.

(** [SELECT * FROM users WHERE username = ?], [fetchone]. *)
Definition select_user (tbl : user_table) (username : string) : option user :=
  find (fun u => String.eqb (usr_username u) username) (users tbl).

(** [INSERT INTO users(username, password)]: the [UNIQUE] column refuses
    a name that is already stored. *)
Definition insert_user (tbl : user_table) (username password now : string)
  : result user_table :=
  if existsb (fun u => String.eqb (usr_username u) username) (users tbl)
  then Raise IntegrityError
  else
    let id := next_rowid (users_seq tbl) (map usr_id (users tbl)) in
    Ok (mkUsers (users tbl ++ [mkUser id username password now]) id).

Section Accounts.

(** [werkzeug.security]: the salted hash produced for a password, and
    the verification of a password against a stored hash. *)
Variable generate_password_hash : string -> string.
Variable check_password_hash : string -> string -> bool.

Variable now : string.

(** [home], lines 99-104. *)
Definition home (session : session_data) : response :=
  match session with
  | Some _ => Redirect "dashboard"
  | None => Redirect "login"
  end.

(** [register], lines 107-141. *)
Definition register (tbl : user_table) (session : session_data)
    (method : http_method) (form : credentials) : auth_outcome :=
  match method with
  | GET => mkAuth tbl session [] (RenderTemplate "register.html")
  | POST =>
      let username := strip (form_username form) in
      let password_raw := form_password form in
      if String.eqb username "" || (String.length username <? 3)%nat then
        mkAuth tbl session
               [(Text "Username must be at least 3 characters.", danger)]
               (Redirect "register")
      else if String.eqb password_raw ""
              || (String.length password_raw <? 6)%nat then
        mkAuth tbl session
               [(Text "Password must be at least 6 characters.", danger)]
               (Redirect "register")
      else
        let password := generate_password_hash password_raw in
        match insert_user tbl username password now with
        | Ok conn =>
            mkAuth conn session
                   [(Text "Account created successfully! Please log in.",
                     success)]
                   (Redirect "login")
        | Raise _ =>
            mkAuth tbl session
                   [(Text "Username already exists. Please choose another.",
                     danger)]
                   (Redirect "register")
        end
  end.

(** [login], lines 144-166. *)
Definition login (tbl : user_table) (session : session_data)
    (method : http_method) (form : credentials) : auth_outcome :=
  match method with
  | GET => mkAuth tbl session [] (RenderTemplate "login.html")
  | POST =>
      let username := strip (form_username form) in
      let password := form_password form in
      match select_user tbl username with
      | Some u =>
          if check_password_hash (usr_password u) password then
            mkAuth tbl (Some (usr_id u, usr_username u))
                   [(Text ("Welcome back, " ++ username ++ "!"), success)]
                   (Redirect "dashboard")
          else
            mkAuth tbl session [(Text "Invalid username or password.", danger)]
                   (RenderTemplate "login.html")
      | None =>
          mkAuth tbl session [(Text "Invalid username or password.", danger)]
                 (RenderTemplate "login.html")
      end
  end.

(** [logout], lines 169-175. *)
Definition logout (tbl : user_table) (session : session_data) : auth_outcome :=
  let username :=
    match session with
    | Some (_, name) => name
    | None => "User"
    end in
  mkAuth tbl None
         [(Text ("Goodbye, " ++ username ++ "! You've been logged out."), info)]
         (Redirect "login").

End Accounts.

(** The invariant of the [users] table: names are unique, stripped and
    at least three characters long. *)
Definition valid_username (name : string) : Prop :=
  strip name = name /\ (3 <= String.length name)%nat.

Definition users_ok (tbl : user_table) : Prop :=
  NoDup (map usr_username (users tbl)) /\
  NoDup (map usr_id (users tbl)) /\
  Forall (fun u => valid_username (usr_username u)) (users tbl).

(** ** Sample accounts *)

(** A stand-in for the password hashing of the library: the hash is the
    password behind a fixed prefix. *)
Definition sample_hash (password : string) : string := "h$" ++ password.

Definition sample_check (pwhash password : string) : bool :=
  String.eqb pwhash (sample_hash password).

Definition no_users : user_table := mkUsers [] 0.

(** ** Market data: [get_live_price] *)

Module MarketData.

(** A value found in the [info] dictionary of a ticker. *)
Inductive info_value : Type :=
| InfoNone
| InfoNumber (n : pynum)
| InfoText (s : string).

(** [float(v)], [None] when it raises: on [None], on text that is no
    number, on an integer too large for a float. *)
Definition float_of_value (v : info_value) : option float :=
  match v with
  | InfoNone => None
  | InfoNumber (PyFloat f) => Some f
  | InfoNumber (PyInt z) =>
      if is_finite (of_Z z) then Some (of_Z z) else None
  | InfoText s => float_of_string s
  end.

(** What [yf.Ticker(symbol)] answers: the [Close] column of
    [history(period="1d")] and the [info] dictionary, each of which may
    raise instead. *)
Record ticker : Type := mkTicker {
  history_close : result (list float);
  info : result (list (string * info_value))
}.

(** [info.get(key)] *)
Definition info_get (d : list (string * info_value)) (key : string)
  : option info_value :=
  option_map snd (find (fun kv => String.eqb (fst kv) key) d).

Section Lookup.

Variable Ticker : string -> ticker.

(** [get_live_price], lines 61-74. *)
Definition get_live_price (symbol : string) : option float :=
  match history_close (Ticker symbol) with
  | Raise _ => None
  | Ok [] =>
      match info (Ticker symbol) with
      | Raise _ => None
      | Ok d =>
          match info_get d "currentPrice" with
          | None => Some zero
          | Some v => float_of_value v
          end
      end
  | Ok (c :: closes) => Some (last (c :: closes) zero)
  end.

End Lookup.

End MarketData.

(** ** The pages: [dashboard] and [transactions] *)

(** What a page handler answers: the flashed messages, the response and,
    when a template is rendered, what it is given. *)
Record page (A : Type) : Type := mkPage {
  page_flashes : list (flash_text * flash_category);
  page_response : response;
  page_context : option A
}.

Arguments mkPage {A} _ _ _.
Arguments page_flashes {A} _.
Arguments page_response {A} _.
Arguments page_context {A} _.

Definition login_required {A : Type} : page A :=
  mkPage [(Text "Please log in to access this page.", warning)]
         (Redirect "login") None.

(** [', '.join(symbols)] *)
Definition join_symbols (symbols : list string) : string :=
  String.concat ", " symbols.

Section Pages.

Variable get_live_price : string -> option float.

(** The order in which the store returns the rows of
    [ORDER BY symbol] and of [ORDER BY transaction_date DESC]; rows
    that compare equal come in an order of its choosing. *)
Variable order_by_symbol : list investment -> list investment.
Variable order_by_date_desc : list transaction -> list transaction.

(** [dashboard], lines 182-263, from the query to the template. *)
Definition dashboard_page (session : option Z) (db : database)
  : page dashboard_context :=
  match session with
  | None => login_required
  | Some user_id =>
      let investments := order_by_symbol (select_by_user db user_id) in
      match dashboard get_live_price investments with
      | Ok ctx =>
          mkPage
            (match ctx_warning ctx with
             | Some failed =>
                 [(Text ("Warning: Could not fetch prices for: "
                         ++ join_symbols failed), warning)]
             | None => []
             end)
            (RenderTemplate "dashboard.html") (Some ctx)
      | Raise e => mkPage [] (InternalServerError e) None
      end
  end.

(** [transactions], lines 410-426. *)
Definition transactions_page (session : option Z) (db : database)
  : page (list transaction) :=
  match session with
  | None => login_required
  | Some user_id =>
      mkPage [] (RenderTemplate "transactions.html")
             (Some (firstn 100 (order_by_date_desc
                                  (transactions_of db user_id))))
  end.

End Pages.

(** [a] is at least as recent as [b]: timestamps are text and compare
    as text. *)
Definition not_older (a b : transaction) : Prop :=
  String.leb (txn_date b) (txn_date a) = true.

(** ** Sample market data *)

(** A service that has no price history for any symbol and no current
    price either. *)
Definition silent_ticker (symbol : string) : MarketData.ticker :=
  MarketData.mkTicker (Ok []) (Ok [("longName", MarketData.InfoText symbol)]).

(** A store with the purchase and the sale of one holding of user 1. *)
Definition traded_db : database :=
  mkDb []
       [mkTransaction 1 1 "MSFT" BUY (float_lit "5") (float_lit "20")
                      "2024-01-01 00:00:00";
        mkTransaction 2 1 "MSFT" SELL (float_lit "5") (float_lit "20")
                      "2024-02-01 00:00:00"]
       1 2.

(** * Facts on binary64 arithmetic *)

Section FloatFacts.

Lemma shr_1_nonneg (r : shr_record) : 0 <= shr_m r -> 0 <= shr_m (shr_1 r).
Proof.
  destruct r as [m b s]. simpl. intros H.
  destruct m as [|p|p]; simpl; try lia.
  all: destruct p; simpl; lia.
Qed.

Lemma iter_shr_1_nonneg (p : positive) :
  forall r, 0 <= shr_m r -> 0 <= shr_m (iter_pos shr_1 p r).
Proof.
  induction p as [p IH|p IH|]; intros r H; simpl.
  - apply IH, IH, shr_1_nonneg, H.
  - apply IH, IH, H.
  - apply shr_1_nonneg, H.
Qed.

Lemma shr_fexp_nonneg (m e : Z) (l : location) :
  0 <= m -> 0 <= shr_m (fst (shr_fexp prec emax m e l)).
Proof.
  intros H. unfold shr_fexp, shr.
  assert (H0 : 0 <= shr_m (shr_record_of_loc m l)).
  { destruct l as [|[]]; simpl; exact H. }
  destruct (fexp prec emax (Zdigits2 m + e) - e); simpl; try exact H0.
  apply iter_shr_1_nonneg, H0.
Qed.

Lemma round_nearest_even_nonneg (m : Z) (l : location) :
  0 <= m -> 0 <= round_nearest_even m l.
Proof.
  intros H. destruct l as [|[]]; simpl; try lia.
  destruct (Z.even m); lia.
Qed.

(** Rounding a non-negative mantissa never yields NaN. *)
Lemma binary_round_aux_not_nan (s : bool) (m e : Z) (l : location) :
  0 <= m -> is_nan (binary_round_aux prec emax s m e l) = false.
Proof.
  intros H. unfold binary_round_aux.
  pose proof (shr_fexp_nonneg m e l H) as H1.
  destruct (shr_fexp prec emax m e l) as [mrs' e'] eqn:E1. simpl in H1.
  pose proof (shr_fexp_nonneg
                _ e' loc_Exact
                (round_nearest_even_nonneg _ (loc_of_shr_record mrs') H1))
    as H2.
  destruct (shr_fexp prec emax
              (round_nearest_even (shr_m mrs') (loc_of_shr_record mrs'))
              e' loc_Exact) as [mrs'' e''] eqn:E2.
  simpl in H2.
  destruct (shr_m mrs'') as [|p|p]; try reflexivity.
  - destruct (e'' <=? emax - prec); reflexivity.
  - lia.
Qed.

(** The product of two finite floats is a number. *)
Lemma mul_finite_not_nan (x y : float) :
  is_finite x = true -> is_finite y = true -> is_nan (mul x y) = false.
Proof.
  destruct x as [sx|sx| |sx mx ex], y as [sy|sy| |sy my ey];
    simpl; intros Hx Hy; try discriminate; try reflexivity.
  apply binary_round_aux_not_nan. lia.
Qed.

(** A finite quantity at price [0.0] is worth a zero. *)
Lemma mul_finite_zero (x : float) :
  is_finite x = true -> is_zero (mul x zero) = true.
Proof. destruct x; simpl; intros H; try discriminate; reflexivity. Qed.

Lemma round2_zero (x : float) : is_zero x = true -> round2 x = x.
Proof. destruct x; simpl; intros H; try discriminate; reflexivity. Qed.

Lemma is_zero_eqb_zero (x : float) : is_zero x = true -> eqb x zero = true.
Proof. destruct x; simpl; intros H; try discriminate; reflexivity. Qed.

Lemma compare_cont_same (m : positive) : Pos.compare_cont Eq m m = Eq.
Proof. apply Pos.compare_cont_refl. Qed.

(** [0.0 - c == -c] for every number [c]. *)
Lemma sub_zero_eqb_opp (z c : float) :
  is_zero z = true -> is_nan c = false -> eqb (sub z c) (opp c) = true.
Proof.
  destruct z as [sz| | |]; simpl; intros Hz Hc; try discriminate.
  destruct c as [sc|sc| |sc mc ec]; try discriminate.
  - destruct sz, sc; reflexivity.
  - destruct sc; reflexivity.
  - unfold eqb, SFeqb, sub, opp. simpl.
    rewrite Z.compare_refl, compare_cont_same. destruct sc; reflexivity.
Qed.

End FloatFacts.

(** * Properties of the valuation pass *)

Section ValuationFacts.

Variable get_live_price : string -> option float.

Lemma positive_not_zero (x : float) : ltb zero x = true -> is_zero x = false.
Proof. destruct x; simpl; intros H; try reflexivity; discriminate H. Qed.

Lemma truediv_positive (x y : float) :
  ltb zero y = true -> truediv x y = Ok (div x y).
Proof.
  intros H. unfold truediv. now rewrite (positive_not_zero y H).
Qed.

Lemma holding_metrics_total (inv : investment) :
  holding_metrics get_live_price inv = Ok (locals_of get_live_price inv).
Proof.
  unfold holding_metrics, locals_of, pct_return_of, current_value_of,
    cost_of, effective_price, lookup_failed.
  destruct (ltb zero (inv_buy_price inv)) eqn:Hpos.
  - rewrite (truediv_positive _ _ Hpos). simpl.
    destruct (get_live_price (inv_symbol inv)); reflexivity.
  - simpl. destruct (get_live_price (inv_symbol inv)); reflexivity.
Qed.

(** The loop in closed form, from any starting state. *)
Lemma dashboard_loop_closed (invs : list investment) :
  forall st,
    dashboard_loop get_live_price invs st
    = Ok (mkLoop
            (fold_left add (map (current_value_of get_live_price) invs)
                       (total_value st))
            (fold_left add (map cost_of invs) (total_cost st))
            (updated_investments st ++ map (row_of get_live_price) invs)
            (failed_symbols st ++ failed_of get_live_price invs)).
Proof.
  induction invs as [|inv rest IH]; intros st.
  - simpl. rewrite !app_nil_r. now destruct st.
  - simpl. unfold dashboard_step. rewrite holding_metrics_total. simpl.
    rewrite IH. simpl. unfold failed_of. simpl.
    rewrite <- app_assoc. simpl.
    destruct (lookup_failed get_live_price inv); simpl.
    + now rewrite <- app_assoc.
    + reflexivity.
Qed.

(** The whole computation in closed form: it never raises. *)
Lemma dashboard_compute_closed (invs : list investment) :
  dashboard_compute get_live_price invs
  = Ok (mkDashboard
          (float_sum (map (current_value_of get_live_price) invs))
          (float_sum (map cost_of invs))
          (map (row_of get_live_price) invs)
          (failed_of get_live_price invs)
          (sub (float_sum (map (current_value_of get_live_price) invs))
               (float_sum (map cost_of invs)))
          (total_return_pct_of
             (float_sum (map (current_value_of get_live_price) invs))
             (float_sum (map cost_of invs)))
          (category_totals (map (row_of get_live_price) invs))).
Proof.
  unfold dashboard_compute. rewrite dashboard_loop_closed. simpl.
  unfold total_return_pct_of, float_sum.
  destruct (ltb zero (fold_left add (map cost_of invs) zero)) eqn:Hpos.
  - now rewrite (truediv_positive _ _ Hpos).
  - reflexivity.
Qed.

End ValuationFacts.

(** * The valuation claims *)

Lemma Forall2_map_r {A B : Type} (R : A -> B -> Prop) (f : A -> B)
    (l : list A) :
  (forall a, R a (f a)) -> Forall2 R l (map f l).
Proof.
  intros H. induction l as [|a l IH]; simpl; constructor; auto.
Qed.

(** C1. For every holding of the valuation pass, with live price [P]
    ([0.0] after a failed lookup), quantity [Q] and buy price [B], the
    iteration computes [current_value = Q * P], [cost = Q * B] and
    [profit_loss = current_value - cost] exactly, before any rounding; the
    row it appends carries these values rounded to two decimals. *)
Theorem valuation_row_value_cost_profit
    (get_live_price : string -> option float) (invs : list investment) :
  exists d,
    dashboard_compute get_live_price invs = Ok d /\
    Forall2
      (fun inv row =>
         let P := effective_price get_live_price inv in
         let Q := inv_quantity inv in
         let B := inv_buy_price inv in
         exists l,
           holding_metrics get_live_price inv = Ok l /\
           loc_current_value l = mul Q P /\
           loc_cost l = mul Q B /\
           loc_profit_loss l = sub (loc_current_value l) (loc_cost l) /\
           row = make_row inv l /\
           row_value row = round2 (mul Q P) /\
           row_profit_loss row = round2 (sub (mul Q P) (mul Q B)))
      invs (d_updated_investments d).
Proof.
  rewrite dashboard_compute_closed. eexists. split; [reflexivity|]. simpl.
  apply Forall2_map_r. intros inv. simpl.
  exists (locals_of get_live_price inv).
  rewrite holding_metrics_total. repeat split.
Qed.

(** C2. After the valuation pass [total_value] is the sum of the
    holdings' [current_value] and [total_cost] the sum of their [cost],
    both accumulated in order from [0.0]; [total_profit_loss] is their
    difference and [total_return_pct] is
    [(total_value - total_cost) / total_cost * 100] when [total_cost > 0]
    and the integer [0] otherwise.  The computation does not raise, and
    the empty portfolio yields [0]. *)
Theorem portfolio_totals_accumulate
    (get_live_price : string -> option float) (invs : list investment) :
  (exists d ls,
     dashboard_compute get_live_price invs = Ok d /\
     Forall2 (fun inv l => holding_metrics get_live_price inv = Ok l) invs ls /\
     d_total_value d = float_sum (map loc_current_value ls) /\
     d_total_cost d = float_sum (map loc_cost ls) /\
     d_total_profit_loss d = sub (d_total_value d) (d_total_cost d) /\
     d_total_return_pct d
     = (if ltb zero (d_total_cost d)
        then PyFloat (mul (div (sub (d_total_value d) (d_total_cost d))
                               (d_total_cost d))
                          (of_Z 100))
        else PyInt 0)) /\
  dashboard_compute get_live_price []
  = Ok (mkDashboard zero zero [] [] zero (PyInt 0) []).
Proof.
  split; [|reflexivity].
  rewrite dashboard_compute_closed.
  eexists. exists (map (locals_of get_live_price) invs).
  split; [reflexivity|]. simpl.
  split; [apply Forall2_map_r; intros inv; apply holding_metrics_total|].
  rewrite !map_map. simpl. repeat split.
Qed.

Lemma nth_error_failed_in (get_live_price : string -> option float)
    (invs : list investment) (i : nat) (inv : investment) :
  nth_error invs i = Some inv ->
  get_live_price (inv_symbol inv) = None ->
  In (inv_symbol inv) (failed_of get_live_price invs).
Proof.
  intros Hn Hf. unfold failed_of. apply in_map, filter_In. split.
  - eapply nth_error_In, Hn.
  - unfold lookup_failed. now rewrite Hf.
Qed.

(** C3, as stated, fails for a quantity that is not finite.  The add form
    accepts the quantity [inf], which is greater than zero; once the
    lookup of the symbol fails the holding is worth [inf * 0.0], a NaN,
    and so are its profit or loss and the total value. *)
Lemma infinite_quantity_is_not_worth_zero :
  exists inv d l row,
    investments
      (out_db (add_investment unknown_quote sample_date (Some 1) empty_db POST
                              (mkForm "xxxx" "Other" "inf" "20")))
    = [inv] /\
    inv_symbol inv = "XXXX" /\
    inv_quantity inv = S754_infinity false /\
    unknown_quote (inv_symbol inv) = None /\
    dashboard_compute unknown_quote [inv] = Ok d /\
    holding_metrics unknown_quote inv = Ok l /\
    d_updated_investments d = [row] /\
    loc_current_value l = S754_nan /\
    loc_profit_loss l = S754_nan /\
    row_value row = S754_nan /\
    eqb (row_value row) zero = false /\
    eqb (loc_profit_loss l) (opp (loc_cost l)) = false /\
    d_total_value d = S754_nan.
Proof.
  do 4 eexists. split; [vm_compute; reflexivity|].
  repeat split; vm_compute; reflexivity.
Qed.

(** C3, amended.  The valuation never raises and keeps one row per
    holding, all of them counted in the totals.  A holding whose price
    lookup fails is valued at the price [0.0] and its symbol is recorded
    among the failed symbols; when its quantity is finite its value is
    zero, and when moreover its cost is not NaN (as it is for every finite
    buy price) its profit or loss equals minus its cost. *)
Theorem failed_lookup_counts_as_zero
    (get_live_price : string -> option float) (invs : list investment) :
  exists d,
    dashboard_compute get_live_price invs = Ok d /\
    List.length (d_updated_investments d) = List.length invs /\
    d_total_value d = float_sum (map (current_value_of get_live_price) invs) /\
    d_total_cost d = float_sum (map cost_of invs) /\
    forall i inv,
      nth_error invs i = Some inv ->
      get_live_price (inv_symbol inv) = None ->
      exists l row,
        holding_metrics get_live_price inv = Ok l /\
        nth_error (d_updated_investments d) i = Some row /\
        row = make_row inv l /\
        loc_live_price l = zero /\
        row_current_price row = zero /\
        loc_current_value l = mul (inv_quantity inv) zero /\
        In (inv_symbol inv) (d_failed_symbols d) /\
        (is_finite (inv_quantity inv) = true ->
         is_zero (loc_current_value l) = true /\
         eqb (row_value row) zero = true /\
         (is_nan (loc_cost l) = false ->
          eqb (loc_profit_loss l) (opp (loc_cost l)) = true)) /\
        (is_finite (inv_quantity inv) = true ->
         is_finite (inv_buy_price inv) = true ->
         is_nan (loc_cost l) = false).
Proof.
  rewrite dashboard_compute_closed. eexists. split; [reflexivity|]. simpl.
  split; [apply length_map|]. do 2 (split; [reflexivity|]).
  intros i inv Hn Hf.
  exists (locals_of get_live_price inv), (row_of get_live_price inv).
  assert (Hp : effective_price get_live_price inv = zero).
  { unfold effective_price. now rewrite Hf. }
  split; [apply holding_metrics_total|].
  split; [now apply map_nth_error|].
  split; [reflexivity|]. simpl.
  split; [exact Hp|].
  split; [now rewrite Hp|].
  split; [unfold current_value_of; now rewrite Hp|].
  split; [eapply nth_error_failed_in; eauto|].
  split.
  - intros Hq.
    assert (Hv : is_zero (current_value_of get_live_price inv) = true).
    { unfold current_value_of. rewrite Hp. now apply mul_finite_zero. }
    split; [exact Hv|].
    split; [rewrite (round2_zero _ Hv); now apply is_zero_eqb_zero|].
    intros Hc. now apply sub_zero_eqb_opp.
  - intros Hq Hb. unfold cost_of. now apply mul_finite_not_nan.
Qed.

(** Witness of C3 amended: the unknown symbol of the sample portfolio. *)
Lemma failed_lookup_counts_as_zero_witness :
  exists d l row,
    dashboard_compute aapl_quote [aapl_holding; unknown_holding] = Ok d /\
    holding_metrics aapl_quote unknown_holding = Ok l /\
    nth_error (d_updated_investments d) 1 = Some row /\
    eqb (row_value row) zero = true /\
    eqb (loc_profit_loss l) (opp (loc_cost l)) = true /\
    In "XXXX" (d_failed_symbols d).
Proof.
  destruct (failed_lookup_counts_as_zero aapl_quote
              [aapl_holding; unknown_holding])
    as [d [Hd [_ [_ [_ H]]]]].
  destruct (H 1%nat unknown_holding eq_refl eq_refl)
    as [l [row [Hl [Hr [_ [_ [_ [_ [Hin [Hfin Hcost]]]]]]]]]].
  destruct (Hfin eq_refl) as [_ [Hv Hp]].
  exists d, l, row. repeat split; try assumption.
  apply Hp, Hcost; reflexivity.
Defined.

(** C4. For every holding the percentage return is
    [(P - buy_price) / buy_price * 100] when [buy_price > 0] and the
    integer [0] otherwise, in particular for a zero [buy_price]; the
    division is never reached with a zero divisor, so the pass does not
    raise. *)
Theorem pct_return_guarded
    (get_live_price : string -> option float) (invs : list investment) :
  exists d,
    dashboard_compute get_live_price invs = Ok d /\
    Forall2
      (fun inv row =>
         let P := effective_price get_live_price inv in
         let B := inv_buy_price inv in
         exists l,
           holding_metrics get_live_price inv = Ok l /\
           row_pct_return row = py_round2 (loc_pct_return l) /\
           loc_pct_return l
           = (if ltb zero B
              then PyFloat (mul (div (sub P B) B) (of_Z 100))
              else PyInt 0) /\
           (is_zero B = true -> loc_pct_return l = PyInt 0))
      invs (d_updated_investments d).
Proof.
  rewrite dashboard_compute_closed. eexists. split; [reflexivity|]. simpl.
  apply Forall2_map_r. intros inv. simpl.
  exists (locals_of get_live_price inv).
  rewrite holding_metrics_total. repeat split.
  simpl. unfold pct_return_of. intros Hz.
  destruct (inv_buy_price inv); try discriminate Hz. reflexivity.
Qed.

(** Witness of C4: a holding with a zero buy price. *)
Lemma pct_return_guarded_witness :
  exists d row,
    dashboard_compute aapl_quote [free_holding] = Ok d /\
    d_updated_investments d = [row] /\
    row_pct_return row = PyInt 0.
Proof.
  destruct (pct_return_guarded aapl_quote [free_holding]) as [d [Hd HF]].
  inversion HF as [|inv row invs rows [l [Hl [Hrow [_ Hzero]]]] Hrest];
    subst.
  inversion Hrest; subst.
  exists d, row. split; [exact Hd|]. split; [congruence|].
  rewrite Hrow, (Hzero eq_refl). reflexivity.
Defined.

(** The scenario of the specification: ten AAPL bought at 100 and quoted
    at 150 are worth 1500, cost 1000, gain 500 and return 50 percent. *)
Example aapl_scenario :
  holding_metrics aapl_quote aapl_holding
  = Ok (mkLocals false (float_lit "150") (float_lit "10") (float_lit "100")
                 (float_lit "1500") (float_lit "1000") (float_lit "500")
                 (PyFloat (float_lit "50.0"))) /\
  of_Z 100 = float_lit "100".
Proof. vm_compute. split; reflexivity. Qed.

(** * The allocation by category *)

Section CategoryFacts.

Lemma dict_get_add (k c : string) (v : float) (d : list (string * float)) :
  dict_get c (dict_add k v d)
  = if String.eqb c k then Some (add (dict_get0 k d) v) else dict_get c d.
Proof.
  unfold dict_get0.
  induction d as [|[k' x] d IH]; simpl.
  - reflexivity.
  - destruct (String.eqb k k') eqn:Ekk'; simpl.
    + apply String.eqb_eq in Ekk'. subst k'.
      destruct (String.eqb c k); reflexivity.
    + rewrite IH. destruct (String.eqb c k) eqn:Eck.
      * apply String.eqb_eq in Eck. subst c. now rewrite Ekk'.
      * reflexivity.
Qed.

Lemma dict_get0_add (k c : string) (v : float) (d : list (string * float)) :
  dict_get0 c (dict_add k v d)
  = if String.eqb c k then add (dict_get0 c d) v else dict_get0 c d.
Proof.
  unfold dict_get0 at 1. rewrite dict_get_add.
  destruct (String.eqb c k) eqn:E; [|reflexivity].
  apply String.eqb_eq in E. now subst.
Qed.

Lemma dict_add_keys (k : string) (v : float) (d : list (string * float)) :
  map fst (dict_add k v d) = add_key k (map fst d).
Proof.
  unfold add_key, has_key.
  induction d as [|[k' x] d IH]; simpl.
  - reflexivity.
  - destruct (String.eqb k k'); simpl; [reflexivity|].
    rewrite IH. now destruct (existsb (String.eqb k) (map fst d)).
Qed.

Lemma dict_get_keys (c : string) (d : list (string * float)) :
  dict_get c d = if has_key c (map fst d) then Some (dict_get0 c d) else None.
Proof.
  unfold dict_get0, has_key.
  induction d as [|[k x] d IH]; simpl.
  - reflexivity.
  - destruct (String.eqb c k); simpl; [reflexivity|].
    rewrite IH.
    destruct (existsb (String.eqb c) (map fst d)); reflexivity.
Qed.

(** Each bucket accumulates, in order, the values of its own rows. *)
Lemma totals_from_get0 (c : string) (rows : list dashboard_row) :
  forall d,
    dict_get0 c (totals_from rows d)
    = fold_left add (map row_value (filter (in_category c) rows))
                (dict_get0 c d).
Proof.
  induction rows as [|r rows IH]; intros d; simpl; [reflexivity|].
  unfold totals_from in *. simpl. rewrite IH, dict_get0_add.
  unfold in_category at 2. rewrite (String.eqb_sym (row_category r) c).
  destruct (String.eqb c (row_category r)); reflexivity.
Qed.

Lemma totals_from_keys (rows : list dashboard_row) :
  forall d,
    map fst (totals_from rows d)
    = fold_left (fun ks k => add_key k ks) (map row_category rows)
                (map fst d).
Proof.
  induction rows as [|r rows IH]; intros d; simpl; [reflexivity|].
  unfold totals_from in *. simpl. now rewrite IH, dict_add_keys.
Qed.

Lemma has_key_app (k : string) (ks ks' : list string) :
  has_key k (ks ++ ks') = has_key k ks || has_key k ks'.
Proof. apply existsb_app. Qed.

Lemma filter_twice {A : Type} (f g : A -> bool) (l : list A) :
  filter f (filter g l) = filter (fun x => g x && f x) l.
Proof.
  induction l as [|a l IH]; simpl; [reflexivity|].
  destruct (g a); simpl; [destruct (f a)|]; now rewrite IH.
Qed.

(** Keys are added in the order in which they are first seen. *)
Lemma add_keys_first_seen (l : list string) :
  forall ks,
    fold_left (fun ks k => add_key k ks) l ks
    = (ks ++ filter (fun y => negb (has_key y ks)) (first_seen l))%list.
Proof.
  induction l as [|x l IH]; intros ks; simpl.
  - now rewrite app_nil_r.
  - rewrite IH. unfold add_key.
    destruct (has_key x ks) eqn:Hx; simpl.
    + f_equal. rewrite filter_twice. apply filter_ext. intros y.
      destruct (String.eqb y x) eqn:Eyx; simpl; [|reflexivity].
      apply String.eqb_eq in Eyx. subst y. now rewrite Hx.
    + rewrite <- app_assoc. simpl. do 2 f_equal.
      rewrite filter_twice. apply filter_ext. intros y.
      rewrite has_key_app. unfold has_key at 2. simpl.
      rewrite orb_false_r, negb_orb. apply andb_comm.
Qed.

Lemma category_totals_keys (rows : list dashboard_row) :
  map fst (category_totals rows) = first_seen (map row_category rows).
Proof.
  unfold category_totals.
  change (map fst (totals_from rows []) = first_seen (map row_category rows)).
  rewrite totals_from_keys, add_keys_first_seen. simpl.
  clear. induction (first_seen (map row_category rows)) as [|y l IH];
    simpl; [reflexivity|]. now rewrite IH.
Qed.

Lemma has_key_filter (x : string) (f : string -> bool) (l : list string) :
  has_key x (filter f l) = f x && has_key x l.
Proof.
  unfold has_key. induction l as [|y l IH]; simpl.
  - now rewrite andb_false_r.
  - destruct (f y) eqn:Ey; simpl; rewrite IH.
    + destruct (String.eqb x y) eqn:Exy; simpl.
      * apply String.eqb_eq in Exy. subst y. now rewrite Ey.
      * reflexivity.
    + destruct (String.eqb x y) eqn:Exy; simpl; [|reflexivity].
      apply String.eqb_eq in Exy. subst y. now rewrite Ey.
Qed.

Lemma has_key_first_seen (x : string) (l : list string) :
  has_key x (first_seen l) = has_key x l.
Proof.
  induction l as [|y l IH]; simpl; [reflexivity|].
  unfold has_key in *. simpl.
  fold (has_key x (filter (fun z => negb (String.eqb z y)) (first_seen l))).
  rewrite has_key_filter. unfold has_key. rewrite IH.
  destruct (String.eqb x y); reflexivity.
Qed.

(** The mapping built by the handler, key by key. *)
Lemma category_totals_get (c : string) (rows : list dashboard_row) :
  dict_get c (category_totals rows)
  = if has_key c (map row_category rows)
    then Some (float_sum (map row_value (filter (in_category c) rows)))
    else None.
Proof.
  rewrite dict_get_keys, category_totals_keys, has_key_first_seen.
  destruct (has_key c (map row_category rows)); [|reflexivity].
  f_equal. unfold category_totals.
  change (dict_get0 c (totals_from rows [])
          = float_sum (map row_value (filter (in_category c) rows))).
  now rewrite totals_from_get0.
Qed.

(** With a single category the mapping has a single bucket. *)
Lemma totals_from_single (c : string) (rows : list dashboard_row) :
  Forall (fun r => row_category r = c) rows ->
  forall x,
    totals_from rows [(c, x)]
    = [(c, fold_left add (map row_value rows) x)].
Proof.
  induction 1 as [|r rows Hr _ IH]; intros x; simpl; [reflexivity|].
  unfold totals_from in *. simpl. rewrite Hr, String.eqb_refl. apply IH.
Qed.

Lemma category_totals_single (c : string) (rows : list dashboard_row) :
  rows <> [] ->
  Forall (fun r => row_category r = c) rows ->
  category_totals rows = [(c, float_sum (map row_value rows))].
Proof.
  intros Hne Hall. destruct rows as [|r rows]; [congruence|].
  inversion Hall as [|? ? Hr Hrest]; subst.
  unfold category_totals, float_sum. simpl.
  apply (totals_from_single _ rows Hrest).
Qed.

End CategoryFacts.

(** C5, as stated, fails: two holdings of one category, each worth 0.004,
    add up to [total_value = 0.008], but their rows carry the rounded
    value [0.0] and so does their category. *)
Lemma category_sum_not_total_value :
  exists d,
    dashboard_compute penny_quote penny_holdings = Ok d /\
    d_total_value d = float_lit "0.008" /\
    d_category_totals d = [("Stock", float_lit "0.0")] /\
    float_sum (map snd (d_category_totals d)) <> d_total_value d /\
    eqb (float_sum (map snd (d_category_totals d))) (d_total_value d) = false /\
    ctx_total_value (dashboard_render d) = float_lit "0.01" /\
    ctx_category_values (dashboard_render d) = [float_lit "0.0"].
Proof.
  eexists. split; [vm_compute; reflexivity|].
  repeat split; try (vm_compute; reflexivity).
  vm_compute. discriminate.
Qed.

(** C5, amended.  The category mapping is built from the rows, whose
    values are already rounded to two decimals: its keys are the
    categories in the order in which they are first seen, and each
    category holds the sum, accumulated in order from [0.0], of the
    rounded values of its rows, whereas [total_value] accumulates the
    unrounded values.  When all holdings share one category and rounding
    changes none of their values, that category holds [total_value]. *)
Theorem category_totals_sum_rounded_values
    (get_live_price : string -> option float) (invs : list investment) :
  exists d,
    dashboard_compute get_live_price invs = Ok d /\
    Forall2
      (fun inv row =>
         row_category row = inv_category inv /\
         row_value row
         = round2 (mul (inv_quantity inv) (effective_price get_live_price inv)))
      invs (d_updated_investments d) /\
    map fst (d_category_totals d)
    = first_seen (map row_category (d_updated_investments d)) /\
    (forall c,
       dict_get c (d_category_totals d)
       = if has_key c (map row_category (d_updated_investments d))
         then Some (float_sum
                      (map row_value
                           (filter (in_category c) (d_updated_investments d))))
         else None) /\
    d_total_value d
    = float_sum (map (fun inv => mul (inv_quantity inv)
                                     (effective_price get_live_price inv))
                     invs) /\
    (forall c,
       invs <> [] ->
       Forall (fun inv =>
                 inv_category inv = c /\
                 round2 (current_value_of get_live_price inv)
                 = current_value_of get_live_price inv)
              invs ->
       d_category_totals d = [(c, d_total_value d)]).
Proof.
  rewrite dashboard_compute_closed. eexists. split; [reflexivity|]. simpl.
  split; [apply Forall2_map_r; intros inv; split; reflexivity|].
  split; [apply category_totals_keys|].
  split; [intros c; apply category_totals_get|].
  split; [reflexivity|].
  intros c Hne Hall.
  rewrite (category_totals_single c).
  - do 2 f_equal. rewrite map_map. f_equal. apply map_ext_in. intros inv Hin.
    rewrite Forall_forall in Hall. simpl. apply (Hall inv Hin).
  - destruct invs; [congruence|discriminate].
  - rewrite Forall_forall in *. intros r Hr.
    apply in_map_iff in Hr. destruct Hr as [inv [<- Hin]].
    simpl. apply (Hall inv Hin).
Qed.

(** Witness of C5 amended: the AAPL holding alone. *)
Lemma category_totals_sum_rounded_values_witness :
  exists d,
    dashboard_compute aapl_quote [aapl_holding] = Ok d /\
    d_category_totals d = [("Stock", d_total_value d)].
Proof.
  destruct (category_totals_sum_rounded_values aapl_quote [aapl_holding])
    as [d [Hd [_ [_ [_ [_ H]]]]]].
  exists d. split; [exact Hd|].
  apply H.
  - discriminate.
  - constructor; [|constructor]. split; [reflexivity|vm_compute; reflexivity].
Defined.

(** * Deleting and editing holdings *)

Section StoreFacts.

(** The SELECT answers exactly when the id fits in 64 bits. *)
Lemma select_investment_bound (db : database) (id user_id : Z)
    (found : option investment) :
  select_investment db id user_id = Ok found -> sqlite_integer id = true.
Proof.
  unfold select_investment. now destruct (sqlite_integer id).
Qed.

Lemma select_investment_overflow (db : database) (id user_id : Z) :
  sqlite_integer id = false ->
  select_investment db id user_id = Raise OverflowError.
Proof. unfold select_investment. now intros ->. Qed.

Lemma select_investment_some (db : database) (id user_id : Z)
    (inv : investment) :
  select_investment db id user_id = Ok (Some inv) ->
  In inv (investments db) /\ inv_id inv = id /\ inv_user_id inv = user_id.
Proof.
  unfold select_investment. destruct (sqlite_integer id); [|discriminate].
  intros [= H]. apply find_some in H.
  destruct H as [Hin Hp]. apply andb_prop in Hp. destruct Hp as [H1 H2].
  apply Z.eqb_eq in H1, H2. auto.
Qed.

Lemma select_investment_none (db : database) (id user_id : Z) :
  sqlite_integer id = true ->
  (forall r, In r (investments db) -> inv_id r = id ->
             inv_user_id r <> user_id) ->
  select_investment db id user_id = Ok None.
Proof.
  unfold select_investment. intros -> H.
  destruct (find _ (investments db)) as [r|] eqn:E; [|reflexivity].
  apply find_some in E. destruct E as [Hin Hp].
  apply andb_prop in Hp. destruct Hp as [H1 H2].
  apply Z.eqb_eq in H1, H2. exfalso. exact (H r Hin H1 H2).
Qed.

Lemma NoDup_map_injective {A B : Type} (f : A -> B) (l : list A) :
  NoDup (map f l) ->
  forall a b, In a l -> In b l -> f a = f b -> a = b.
Proof.
  induction l as [|x l IH]; simpl; intros Hnd a b Ha Hb Hf; [contradiction|].
  inversion Hnd as [|? ? Hx Hl]; subst.
  destruct Ha as [<-|Ha], Hb as [<-|Hb]; auto.
  - exfalso. apply Hx. rewrite Hf. now apply in_map.
  - exfalso. apply Hx. rewrite <- Hf. now apply in_map.
Qed.

End StoreFacts.

(** C6. Deleting an existing investment appends exactly one transaction,
    of type SELL, with the investment's symbol, quantity and buy price,
    and removes the investment's row while keeping every other row;
    deleting an investment that does not exist or that belongs to another
    user leaves both tables as they were, whatever the id: when the id
    fits in 64 bits the user is told that the investment was not found,
    and when it does not the store refuses it and the request ends in a
    server error without a message. *)
Theorem delete_investment_records_sell (now : string) :
  (forall db user_id id inv,
     select_investment db id user_id = Ok (Some inv) ->
     is_nan (inv_quantity inv) = false ->
     is_nan (inv_buy_price inv) = false ->
     let out := delete_investment now (Some user_id) db id in
     transactions (out_db out)
     = (transactions db
          ++ [mkTransaction
                (next_rowid (transactions_seq db)
                            (map txn_id (transactions db)))
                user_id (inv_symbol inv) SELL
                (inv_quantity inv) (inv_buy_price inv) now])%list /\
     investments (out_db out)
     = filter (fun r => negb (is_row id user_id r)) (investments db) /\
     ~ In inv (investments (out_db out)) /\
     (forall r, In r (investments db) -> inv_id r <> id ->
                In r (investments (out_db out))) /\
     out_response out = Redirect "dashboard") /\
  (forall db user_id id,
     (forall r, In r (investments db) -> inv_id r = id ->
                inv_user_id r <> user_id) ->
     let out := delete_investment now (Some user_id) db id in
     out_db out = db /\
     (sqlite_integer id = true ->
      out_flashes out = [(Text "Investment not found.", danger)] /\
      out_response out = Redirect "dashboard") /\
     (sqlite_integer id = false ->
      out_flashes out = [] /\
      out_response out = InternalServerError OverflowError)).
Proof.
  split.
  - intros db user_id id inv Hsel Hq Hb. simpl.
    unfold delete_investment, require_login. rewrite Hsel.
    unfold insert_transaction. rewrite Hq, Hb. simpl.
    destruct (select_investment_some _ _ _ _ Hsel) as [Hin [Hid Hu]].
    repeat split.
    + intros Hin'. apply filter_In in Hin'. destruct Hin' as [_ Hp].
      rewrite Hid, Hu, !Z.eqb_refl in Hp. discriminate Hp.
    + intros r Hr Hne. apply filter_In. split; [exact Hr|].
      apply Z.eqb_neq in Hne. now rewrite Hne.
  - intros db user_id id Hnone. simpl.
    unfold delete_investment, require_login.
    destruct (sqlite_integer id) eqn:Hid.
    + rewrite (select_investment_none _ _ _ Hid Hnone).
      repeat split; discriminate.
    + rewrite (select_investment_overflow _ _ _ Hid).
      repeat split; discriminate.
Qed.

(** Witness of C6: the sample holding of quantity 5 bought at 20 is
    deleted by its owner; an unknown id, another user and an id of 64
    bits and one change nothing. *)
Lemma delete_investment_records_sell_witness :
  (transactions (out_db (delete_investment sample_date (Some 1) sample_db 1))
   = [mkTransaction 1 1 "MSFT" SELL (float_lit "5") (float_lit "20")
                    sample_date] /\
   investments (out_db (delete_investment sample_date (Some 1) sample_db 1))
   = []) /\
  (out_db (delete_investment sample_date (Some 1) sample_db 7) = sample_db /\
   out_flashes (delete_investment sample_date (Some 1) sample_db 7)
   = [(Text "Investment not found.", danger)]) /\
  out_db (delete_investment sample_date (Some 2) sample_db 1) = sample_db /\
  (out_db (delete_investment sample_date (Some 1) sample_db
                             9223372036854775808)
   = sample_db /\
   out_response (delete_investment sample_date (Some 1) sample_db
                                   9223372036854775808)
   = InternalServerError OverflowError).
Proof.
  destruct (delete_investment_records_sell sample_date) as [Hdel Hnone].
  split; [|split; [|split]].
  - destruct (Hdel sample_db 1 1 sample_holding eq_refl eq_refl eq_refl)
      as [Ht [Hi _]].
    split; [exact Ht|exact Hi].
  - destruct (Hnone sample_db 1 7) as [Hdb [Hfound _]].
    + intros r [<-|[]] Hid. discriminate Hid.
    + split; [exact Hdb|]. apply (proj1 (Hfound eq_refl)).
  - apply (Hnone sample_db 2 1). intros r [<-|[]] _. discriminate.
  - destruct (Hnone sample_db 1 9223372036854775808) as [Hdb [_ Hover]].
    + intros r [<-|[]] Hid. discriminate Hid.
    + split; [exact Hdb|]. apply (proj2 (Hover eq_refl)).
Defined.

(** C7. An edit never touches the transactions table, whatever its
    outcome.  A successful edit rewrites the quantity and the buy price of
    the investment with the given id and nothing else: ids, owners,
    symbols, categories and purchase dates are kept, and so is every other
    row. *)
Theorem edit_investment_changes_only_numbers :
  (forall session db method form id,
     transactions (out_db (edit_investment session db method form id))
     = transactions db) /\
  (forall db user_id id form inv quantity buy_price,
     select_investment db id user_id = Ok (Some inv) ->
     parse_positive (form_quantity form) (form_buy_price form)
     = Some (quantity, buy_price) ->
     is_nan quantity = false ->
     is_nan buy_price = false ->
     NoDup (map inv_id (investments db)) ->
     let out := edit_investment (Some user_id) db POST form id in
     out_flashes out = [(Text "Investment updated successfully!", success)] /\
     investments (out_db out)
     = map (fun r => if inv_id r =? id then with_numbers quantity buy_price r
                     else r)
           (investments db) /\
     In (with_numbers quantity buy_price inv) (investments (out_db out)) /\
     (forall r, In r (investments db) -> r <> inv ->
                In r (investments (out_db out))) /\
     transactions (out_db out) = transactions db).
Proof.
  split.
  - intros session db method form id.
    unfold edit_investment, require_login.
    destruct session as [user_id|]; [|reflexivity].
    destruct (select_investment db id user_id) as [[inv|]|e];
      [|reflexivity|reflexivity].
    destruct method; [reflexivity|].
    destruct (parse_positive _ _) as [[q b]|]; [|reflexivity].
    unfold update_investment.
    destruct (existsb _ _ && _); reflexivity.
  - intros db user_id id form inv q b Hsel Hparse Hq Hb Hnd. simpl.
    unfold edit_investment, require_login. rewrite Hsel, Hparse.
    unfold update_investment. rewrite Hq, Hb, andb_false_r. simpl.
    destruct (select_investment_some _ _ _ _ Hsel) as [Hin [Hid Hu]].
    repeat split.
    + apply in_map_iff. exists inv. split; [|exact Hin].
      apply Z.eqb_eq in Hid. now rewrite Hid.
    + intros r Hr Hne. apply in_map_iff. exists r. split; [|exact Hr].
      destruct (inv_id r =? id) eqn:E; [|reflexivity].
      apply Z.eqb_eq in E. exfalso. apply Hne.
      apply (NoDup_map_injective inv_id (investments db) Hnd); congruence.
Qed.

(** Witness of C7: the owner sets the sample holding to 8 shares at 25. *)
Lemma edit_investment_changes_only_numbers_witness :
  investments
    (out_db (edit_investment (Some 1) sample_db POST
                             (mkForm "" "" "8" "25") 1))
  = [mkInvestment 1 1 "MSFT" "Stock" (float_lit "8") (float_lit "25")
                  sample_date] /\
  transactions
    (out_db (edit_investment (Some 1) sample_db POST
                             (mkForm "" "" "8" "25") 1))
  = [].
Proof.
  destruct edit_investment_changes_only_numbers as [_ Hedit].
  destruct (Hedit sample_db 1 1 (mkForm "" "" "8" "25") sample_holding
                  (float_lit "8") (float_lit "25")
                  eq_refl eq_refl eq_refl eq_refl)
    as [_ [Hi [_ [_ Ht]]]].
  - constructor; [intros []|constructor].
  - split; [exact Hi|exact Ht].
Defined.

(** * CSV import and export *)

Section ImportFacts.

Variable now : string.
Variable user_id : Z.

Lemma grown_by_nil (st : database * nat) : grown_by now user_id [] st st.
Proof.
  unfold grown_by. rewrite app_nil_r, Nat.add_0_r. repeat split.
  constructor.
Qed.

Lemma grown_by_trans (a b : list investment) (s1 s2 s3 : database * nat) :
  grown_by now user_id a s1 s2 ->
  grown_by now user_id b s2 s3 ->
  grown_by now user_id (a ++ b) s1 s3.
Proof.
  unfold grown_by. intros [I1 [T1 [S1 [N1 F1]]]] [I2 [T2 [S2 [N2 F2]]]].
  rewrite I2, I1, T2, T1, S2, S1, N2, N1, length_app, <- app_assoc.
  repeat split; try lia. apply Forall_app. now split.
Qed.

(** A readable row is skipped or inserted as the holding it stands for. *)
Lemma import_row_readable (st : database * nat) (row : csv_row) :
  row_readable row = true ->
  exists added st',
    import_row now user_id st row = Ok st' /\
    grown_by now user_id added st st' /\
    map inv_tuple added
    = (if row_skipped row then [] else [row_tuple row]).
Proof.
  unfold row_readable, import_row, row_skipped, row_tuple, field_number.
  destruct (symbol_field row) as [s|].
  2:{ intros _. exists [], st. split; [reflexivity|].
      split; [apply grown_by_nil|reflexivity]. }
  destruct (float_field row "quantity") as [q|]; [|discriminate].
  destruct (float_field row "buy_price") as [b|]; [|discriminate].
  simpl.
  destruct (leb q zero || leb b zero).
  { intros _. exists [], st. split; [reflexivity|].
    split; [apply grown_by_nil|reflexivity]. }
  destruct (category_field row) as [c|]; [|discriminate].
  simpl. unfold insert_investment.
  destruct (is_nan q); [discriminate|].
  destruct (is_nan b); [discriminate|].
  intros _. simpl.
  exists [mkInvestment
            (next_rowid (investments_seq (fst st))
                        (map inv_id (investments (fst st))))
            user_id (upper (strip s)) c q b now].
  eexists. split; [reflexivity|]. split; [|reflexivity].
  unfold grown_by. simpl. repeat split; try lia.
  repeat constructor.
Qed.

Lemma import_rows_readable (rows : list csv_row) :
  Forall (fun row => row_readable row = true) rows ->
  forall st,
  exists added st',
    import_rows now user_id (map Ok rows) st = Ok st' /\
    grown_by now user_id added st st' /\
    map inv_tuple added
    = map row_tuple (filter (fun row => negb (row_skipped row)) rows).
Proof.
  induction 1 as [|row rows Hrow _ IH]; intros st; simpl.
  - exists [], st. split; [reflexivity|].
    split; [apply grown_by_nil|reflexivity].
  - destruct (import_row_readable st row Hrow) as [a [st1 [E1 [G1 M1]]]].
    destruct (IH st1) as [b [st2 [E2 [G2 M2]]]].
    exists (a ++ b)%list, st2. rewrite E1. simpl.
    split; [exact E2|]. split; [eapply grown_by_trans; eauto|].
    rewrite map_app, M1, M2. now destruct (row_skipped row).
Qed.

(** Rows are only ever added to the investments table. *)
Lemma import_row_transactions (st st' : database * nat) (row : csv_row) :
  import_row now user_id st row = Ok st' ->
  transactions (fst st') = transactions (fst st).
Proof.
  unfold import_row.
  destruct (symbol_field row); [|intros [= <-]; reflexivity].
  destruct (float_field row "quantity") as [q|]; [|discriminate].
  destruct (float_field row "buy_price") as [b|]; [|discriminate].
  simpl. destruct (leb q zero || leb b zero); [intros [= <-]; reflexivity|].
  destruct (category_field row) as [c|]; [|discriminate].
  simpl. unfold insert_investment.
  destruct (is_nan q || is_nan b); [discriminate|].
  simpl. intros [= <-]. reflexivity.
Qed.

Lemma import_rows_transactions (rows : list (result csv_row)) :
  forall st st',
    import_rows now user_id rows st = Ok st' ->
    transactions (fst st') = transactions (fst st).
Proof.
  induction rows as [|[row|e] rows IH]; simpl; intros st st'.
  - intros [= <-]. reflexivity.
  - destruct (import_row now user_id st row) as [st1|] eqn:E1;
      [|discriminate].
    simpl. intros E2. rewrite (IH _ _ E2).
    eapply import_row_transactions, E1.
  - discriminate.
Qed.

(** A row with a symbol and a number that cannot be read raises,
    whatever the connection holds. *)
Lemma import_row_unparseable (st : database * nat) (row : csv_row)
    (s : string) :
  symbol_field row = Some s ->
  unparseable row "quantity" \/ unparseable row "buy_price" ->
  exists e, import_row now user_id st row = Raise e.
Proof.
  intros Hs Hbad. unfold import_row. rewrite Hs.
  destruct Hbad as [[t [Hg Hp]]|[t [Hg Hp]]].
  - unfold float_field at 1. rewrite Hg, Hp. simpl. eauto.
  - destruct (float_field row "quantity") as [q|e]; simpl; [|eauto].
    unfold float_field. rewrite Hg, Hp. simpl. eauto.
Qed.

(** One raising step makes the whole loop raise. *)
Lemma import_rows_raise (rows : list (result csv_row)) :
  Exists (raising now user_id) rows ->
  forall st, exists e, import_rows now user_id rows st = Raise e.
Proof.
  induction rows as [|[r|e] rows IH]; intros Hex st; simpl.
  - inversion Hex.
  - destruct (import_row now user_id st r) as [st1|e] eqn:E1; simpl;
      [|eauto].
    inversion Hex as [? ? Hr|? ? Hrest]; subst.
    + destruct (Hr st) as [e He]. congruence.
    + apply IH, Hrest.
  - eauto.
Qed.

(** What the reader yields on a file without an oversized field. *)
Lemma read_records_within (names : list string) (rows : list (list string)) :
  forallb within_field_limit rows = true ->
  map (fun fields =>
         fields' <- read_record fields ;; Ok (dict_row names fields'))
      rows
  = map Ok (map (dict_row names) rows).
Proof.
  induction rows as [|r rows IH]; simpl; intros H; [reflexivity|].
  apply andb_prop in H. destruct H as [Hr Hrows].
  unfold read_record at 1. rewrite Hr. simpl. now rewrite IH.
Qed.

Lemma forallb_filter {A : Type} (p keep : A -> bool) (l : list A) :
  forallb p l = true -> forallb p (filter keep l) = true.
Proof.
  induction l as [|a l IH]; simpl; intros H; [reflexivity|].
  apply andb_prop in H. destruct H as [Ha Hl].
  destruct (keep a); simpl; [rewrite Ha|]; now apply IH.
Qed.

Lemma dict_reader_readable (records : list (list string)) :
  readable_file records = true ->
  dict_reader records = map Ok (csv_rows records).
Proof.
  destruct records as [|fieldnames rows]; simpl; intros H; [reflexivity|].
  apply andb_prop in H. destruct H as [Hnames Hrows].
  unfold read_record at 1. rewrite Hnames.
  apply read_records_within. now apply forallb_filter.
Qed.

(** A row of the file is a step of the reader, unless the reader has
    raised before it. *)
Lemma dict_reader_row (records : list (list string)) (row : csv_row) :
  In row (csv_rows records) ->
  raising now user_id (Ok row) ->
  Exists (raising now user_id) (dict_reader records).
Proof.
  destruct records as [|fieldnames rows]; simpl; [contradiction|].
  intros Hin Hrow. unfold read_record at 1.
  destruct (within_field_limit fieldnames); [|now constructor].
  induction (filter (fun r => negb (is_blank r)) rows) as [|r rs IH];
    simpl in *; [contradiction|].
  unfold read_record at 1.
  destruct (within_field_limit r); simpl; [|now constructor].
  destruct Hin as [->|Hin]; [now constructor|].
  apply Exists_cons_tl. now apply IH.
Qed.

(** On a file with an oversized field the reader raises at some step. *)
Lemma dict_reader_unreadable (records : list (list string)) :
  readable_file records = false ->
  Exists (raising now user_id) (dict_reader records).
Proof.
  destruct records as [|fieldnames rows]; simpl; [discriminate|].
  unfold read_record at 1.
  destruct (within_field_limit fieldnames); simpl; [|now constructor].
  induction rows as [|r rows IH]; simpl; [discriminate|].
  destruct (within_field_limit r) eqn:Hr; simpl.
  - intros H. destruct (is_blank r); simpl; [now apply IH|].
    unfold read_record at 1. rewrite Hr. simpl.
    apply Exists_cons_tl. now apply IH.
  - intros _. destruct r as [|f r]; [discriminate Hr|]. simpl.
    unfold read_record at 1. rewrite Hr. now constructor.
Qed.

End ImportFacts.

Section RoundTripFacts.

Lemma float_identical_eq (x y : float) : float_identical x y = true -> x = y.
Proof.
  destruct x as [s|s| |s m e], y as [s'|s'| |s' m' e']; simpl;
    intros H; try discriminate H; try reflexivity.
  - apply Bool.eqb_prop in H. now subst.
  - apply Bool.eqb_prop in H. now subst.
  - apply andb_prop in H. destruct H as [H He].
    apply andb_prop in H. destruct H as [Hs Hm].
    apply Bool.eqb_prop in Hs. apply Pos.eqb_eq in Hm. apply Z.eqb_eq in He.
    now subst.
Qed.

Lemma reads_back_repr_eq (x : float) :
  reads_back_repr x = true -> float_of_string (float_repr x) = Some x.
Proof.
  unfold reads_back_repr. destruct (float_of_string (float_repr x)) as [y|].
  - intros H. now rewrite (float_identical_eq _ _ H).
  - discriminate.
Qed.

Lemma positive_not_leb (x : float) : ltb zero x = true -> leb x zero = false.
Proof.
  destruct x as [s|[]| |[] m e]; simpl; intros H; now try discriminate H.
Qed.

Lemma positive_not_nan (x : float) : ltb zero x = true -> is_nan x = false.
Proof. destruct x; simpl; intros H; now try discriminate H. Qed.

(** The rows of an exported file. *)
Lemma csv_rows_export (db : database) (user_id : Z) :
  csv_rows (exported_records (export_csv (Some user_id) db))
  = map exported_row (select_by_user db user_id).
Proof.
  unfold export_csv, require_login, exported_records, csv_rows. simpl.
  induction (select_by_user db user_id) as [|r rows IH]; simpl.
  - reflexivity.
  - f_equal. exact IH.
Qed.

(** An exportable holding is read back as itself. *)
Lemma exported_row_reads_back (r : investment) :
  exportable r = true ->
  row_readable (exported_row r) = true /\
  row_skipped (exported_row r) = false /\
  row_tuple (exported_row r) = inv_tuple r.
Proof.
  unfold exportable. intros H. rewrite !andb_true_iff in H.
  destruct H as [[[[[[H Hs] Hc] Pq] Pb] Hq] Hb].
  apply reads_back_repr_eq in Hq, Hb.
  apply String.eqb_eq in Hs, Hc.
  pose proof (positive_not_leb _ Pq) as Lq.
  pose proof (positive_not_leb _ Pb) as Lb.
  pose proof (positive_not_nan _ Pq) as Nq.
  pose proof (positive_not_nan _ Pb) as Nb.
  apply negb_true_iff in H.
  assert (Es : symbol_field (exported_row r) = Some (inv_symbol r)).
  { unfold symbol_field, exported_row. simpl. now rewrite H. }
  assert (Fq : float_field (exported_row r) "quantity"
               = Ok (inv_quantity r)).
  { unfold float_field, exported_row. simpl. now rewrite Hq. }
  assert (Fb : float_field (exported_row r) "buy_price"
               = Ok (inv_buy_price r)).
  { unfold float_field, exported_row. simpl. now rewrite Hb. }
  assert (Ec : category_field (exported_row r) = Ok (inv_category r)).
  { unfold category_field, exported_row. simpl. now rewrite Hc. }
  unfold row_readable, row_skipped, row_tuple, field_number, inv_tuple.
  rewrite Es, Fq, Fb, Ec, Lq, Lb, Nq, Nb. simpl.
  repeat split. congruence.
Qed.

Lemma filter_all {A : Type} (f : A -> bool) (l : list A) :
  Forall (fun a => f a = true) l -> filter f l = l.
Proof.
  induction 1 as [|a l Ha _ IH]; simpl; [reflexivity|].
  now rewrite Ha, IH.
Qed.

(** X18. Exporting the holdings of a user and importing the file as a
    user who holds nothing gives the same holdings, in the same order, up
    to ids and purchase dates, provided each exported holding is as the
    add form leaves it (a symbol that is not empty and is stripped and
    upper-cased, a stripped category, positive numbers), its numbers are
    read back from what [repr] writes, and no field of the exported file
    is longer than the 131072 characters that the reader allows. *)
Lemma export_import_round_trip (now : string) (exporter importer : Z)
    (db db' : database) :
  Forall (fun r => exportable r = true) (select_by_user db exporter) ->
  readable_file (exported_records (export_csv (Some exporter) db)) = true ->
  select_by_user db' importer = [] ->
  let file := exported_records (export_csv (Some exporter) db) in
  let out := import_csv now (Some importer) db' (Some file) in
  map inv_tuple (select_by_user (out_db out) importer)
  = map inv_tuple (select_by_user db exporter).
Proof.
  intros Hexp Hfit Hempty file out. subst file out.
  assert (Hrows : Forall (fun row => row_readable row = true
                                     /\ row_skipped row = false)
                         (map exported_row (select_by_user db exporter))).
  { apply Forall_map. eapply Forall_impl; [|exact Hexp].
    intros r Hr. destruct (exported_row_reads_back r Hr) as [? [? _]]. auto. }
  assert (Hread : Forall (fun row => row_readable row = true)
                         (map exported_row (select_by_user db exporter))).
  { eapply Forall_impl; [|exact Hrows]. now intros row [? _]. }
  destruct (import_rows_readable now importer _ Hread (db', 0%nat))
    as [added [[conn imported] [E [G M]]]].
  unfold import_csv, require_login.
  rewrite (dict_reader_readable _ Hfit), csv_rows_export, E. simpl.
  destruct G as [GI [_ [_ [_ GF]]]]. simpl in GI.
  unfold select_by_user at 1. rewrite GI, filter_app.
  fold (select_by_user db' importer). rewrite Hempty. simpl.
  rewrite filter_all.
  2:{ eapply Forall_impl; [|exact GF]. intros r [Hu _]. simpl.
      now apply Z.eqb_eq. }
  rewrite M, filter_all.
  2:{ eapply Forall_impl; [|exact Hrows]. intros row [_ Hs]. simpl.
      now rewrite Hs. }
  rewrite map_map. apply map_ext_in. intros r Hin.
  rewrite Forall_forall in Hexp.
  now destruct (exported_row_reads_back r (Hexp r Hin)) as [_ [_ ?]].
Qed.

End RoundTripFacts.

(** C8 fails on a portfolio that the application itself can create.
    [import_csv] tests the symbol for emptiness before stripping it, so a
    row whose symbol is a single space is stored with the empty symbol
    (the add form strips first and refuses it).  Exporting that portfolio
    and importing the file as another user skips the row: the holding does
    not come back. *)
Theorem export_import_loses_blank_symbol :
  let db1 :=
    out_db (import_csv sample_date (Some 1) empty_db
                       (Some blank_symbol_file)) in
  let exported := exported_records (export_csv (Some 1) db1) in
  let db2 := out_db (import_csv sample_date (Some 2) db1 (Some exported)) in
  map inv_tuple (select_by_user db1 1)
  = [("", "Stock", float_lit "1", float_lit "10")] /\
  exported = [csv_header; [""; "Stock"; "1.0"; "10.0"; sample_date]] /\
  map inv_tuple (select_by_user db2 2) = [] /\
  (add_investment aapl_quote sample_date (Some 1) empty_db POST
                  (mkForm " " "Stock" "1" "10"))
  = mkOutcome empty_db [(Text "Symbol and category are required.", danger)]
              (Redirect "add_investment").
Proof. vm_compute. repeat split. Qed.

(** C9, as stated, fails: the first row of the file has a symbol and
    positive numbers, so it is not one of the skipped rows, yet it is not
    inserted, because the row after it holds a quantity that is not a
    number and the import is abandoned as a whole. *)
Lemma import_discards_rows_before_bad_number :
  let out := import_csv sample_date (Some 1) empty_db (Some bad_number_file) in
  map row_skipped (csv_rows bad_number_file) = [false; false] /\
  map row_tuple (csv_rows bad_number_file)
  = [("AAPL", "Stock", float_lit "1", float_lit "10");
     ("MSFT", "Stock", S754_nan, float_lit "10")] /\
  investments (out_db out) = [] /\
  out_flashes out
  = [(TextWithError "Error importing CSV: " ValueError, danger)].
Proof. vm_compute. repeat split. Qed.

(** C9, amended.  An import never adds a transaction.  For a file that
    the reader reads to its end (no field longer than 131072 characters)
    and none of whose rows raises, the rows without a symbol and the rows
    whose quantity or buy price is not positive are skipped, and every
    other row is appended, in order, as a new investment of the user with
    the symbol stripped and upper-cased and the category stripped; the
    holdings already stored are kept and never merged with. *)
Theorem import_csv_inserts_readable_rows (now : string) :
  (forall session db file,
     transactions (out_db (import_csv now session db file))
     = transactions db) /\
  (forall user_id db records,
     readable_file records = true ->
     Forall (fun row => row_readable row = true) (csv_rows records) ->
     let out := import_csv now (Some user_id) db (Some records) in
     exists added,
       investments (out_db out) = (investments db ++ added)%list /\
       map inv_tuple added
       = map row_tuple
             (filter (fun row => negb (row_skipped row))
                     (csv_rows records)) /\
       Forall (fun r => inv_user_id r = user_id /\ inv_purchase_date r = now)
              added /\
       out_flashes out
       = [(Text ("Successfully imported "
                 ++ digits_of_Z (Z.of_nat (List.length added))
                 ++ " investments!"), success)]).
Proof.
  split.
  - intros session db file. unfold import_csv, require_login.
    destruct session as [user_id|]; [|reflexivity].
    destruct file as [records|]; [|reflexivity].
    destruct (import_rows now user_id (dict_reader records) (db, 0%nat))
      as [[conn imported]|e] eqn:E; [|reflexivity].
    apply import_rows_transactions in E. exact E.
  - intros user_id db records Hfit Hall. simpl.
    destruct (import_rows_readable now user_id _ Hall (db, 0%nat))
      as [added [[conn imported] [E [G M]]]].
    unfold import_csv, require_login.
    rewrite (dict_reader_readable _ Hfit), E. simpl.
    destruct G as [GI [_ [_ [GN GF]]]]. simpl in GI, GN.
    exists added. rewrite GN. auto.
Qed.

(** Witness of C9 amended: the scenario file imported next to a holding
    of the same symbol. *)
Lemma import_csv_inserts_readable_rows_witness :
  exists added,
    investments
      (out_db (import_csv sample_date (Some 1) sample_db (Some scenario_file)))
    = sample_holding :: added /\
    map inv_tuple added = [("MSFT", "Tech", float_lit "2.5", float_lit "100")].
Proof.
  destruct (import_csv_inserts_readable_rows sample_date) as [_ H].
  destruct (H 1 sample_db scenario_file) as [added [Hi [Hm _]]].
  - reflexivity.
  - repeat (apply Forall_cons; [vm_compute; reflexivity|]). apply Forall_nil.
  - exists added. split.
    + rewrite Hi. reflexivity.
    + rewrite Hm. vm_compute. reflexivity.
Defined.

(** C10. When some row of the file has a symbol and a quantity or a buy
    price that is present but does not read as a number, the import
    fails with an error message and the store is left as it was: none of
    the rows of the file is inserted, wherever the bad row stands. *)
Theorem import_csv_bad_number_aborts
    (now : string) (user_id : Z) (db : database)
    (records : list (list string)) (row : csv_row) (s : string) :
  In row (csv_rows records) ->
  symbol_field row = Some s ->
  unparseable row "quantity" \/ unparseable row "buy_price" ->
  exists e,
    import_csv now (Some user_id) db (Some records)
    = mkOutcome db [(TextWithError "Error importing CSV: " e, danger)]
                (Redirect "dashboard").
Proof.
  intros Hin Hs Hbad.
  destruct (import_rows_raise now user_id (dict_reader records)
              (dict_reader_row now user_id records row Hin
                 (fun st => import_row_unparseable now user_id st row s
                              Hs Hbad))
              (db, 0%nat)) as [e He].
  exists e. unfold import_csv, require_login. now rewrite He.
Qed.

(** Witness of C10: the well-formed AAPL row before the bad row is not
    inserted. *)
Lemma import_csv_bad_number_aborts_witness :
  exists e,
    import_csv sample_date (Some 1) sample_db (Some bad_number_file)
    = mkOutcome sample_db [(TextWithError "Error importing CSV: " e, danger)]
                (Redirect "dashboard").
Proof.
  apply (import_csv_bad_number_aborts sample_date 1 sample_db bad_number_file
           (dict_row import_header ["MSFT"; "Stock"; "abc"; "10"]) "MSFT").
  - simpl. right. left. reflexivity.
  - reflexivity.
  - left. exists "abc". split; reflexivity.
Defined.

(** * Text normalisation *)

Section TextFacts.

Lemma lstrip_head (s : string) (c : ascii) (t : string) :
  lstrip s = String c t -> is_space c = false.
Proof.
  induction s as [|a s IH]; simpl; [discriminate|].
  destruct (is_space a) eqn:E; [exact IH|].
  intros [= <- <-]. exact E.
Qed.

Lemma lstrip_fixed (c : ascii) (t : string) :
  is_space c = false -> lstrip (String c t) = String c t.
Proof. intros H. simpl. now rewrite H. Qed.

Lemma lstrip_idempotent (s : string) : lstrip (lstrip s) = lstrip s.
Proof.
  destruct (lstrip s) as [|c t] eqn:E; [reflexivity|].
  apply lstrip_fixed. eapply lstrip_head, E.
Qed.

Lemma rstrip_idempotent (s : string) : rstrip (rstrip s) = rstrip s.
Proof.
  induction s as [|c s IH]; simpl; [reflexivity|].
  destruct (rstrip s) as [|d t] eqn:E.
  - destruct (is_space c) eqn:Ec; simpl; [reflexivity|]. now rewrite Ec.
  - simpl in *. now rewrite IH.
Qed.

(** Stripping on the right keeps a first character that is no space. *)
Lemma rstrip_head (c : ascii) (t : string) :
  is_space c = false -> exists t', rstrip (String c t) = String c t'.
Proof.
  intros H. simpl. destruct (rstrip t) as [|d t'].
  - rewrite H. eauto.
  - eauto.
Qed.

Lemma strip_idempotent (s : string) : strip (strip s) = strip s.
Proof.
  unfold strip. destruct (lstrip s) as [|c t] eqn:E; [reflexivity|].
  pose proof (lstrip_head _ _ _ E) as Hc.
  destruct (rstrip_head c t Hc) as [t' Ht']. rewrite Ht'.
  rewrite (lstrip_fixed _ _ Hc), <- Ht'. apply rstrip_idempotent.
Qed.

Lemma upper_char_space (c : ascii) : is_space (upper_char c) = is_space c.
Proof. destruct c as [[] [] [] [] [] [] [] []]; reflexivity. Qed.

Lemma upper_char_idempotent (c : ascii) :
  upper_char (upper_char c) = upper_char c.
Proof. destruct c as [[] [] [] [] [] [] [] []]; reflexivity. Qed.

Lemma upper_idempotent (s : string) : upper (upper s) = upper s.
Proof.
  induction s as [|c s IH]; simpl; [reflexivity|].
  now rewrite upper_char_idempotent, IH.
Qed.

Lemma lstrip_upper (s : string) : lstrip (upper s) = upper (lstrip s).
Proof.
  induction s as [|c s IH]; simpl; [reflexivity|].
  rewrite upper_char_space. now destruct (is_space c).
Qed.

Lemma rstrip_upper (s : string) : rstrip (upper s) = upper (rstrip s).
Proof.
  induction s as [|c s IH]; simpl; [reflexivity|].
  rewrite IH, upper_char_space.
  destruct (rstrip s); simpl; [now destruct (is_space c)|reflexivity].
Qed.

Lemma strip_upper (s : string) : strip (upper s) = upper (strip s).
Proof. unfold strip. now rewrite lstrip_upper, rstrip_upper. Qed.

(** [.strip().upper()] applied twice is [.strip().upper()]. *)
Lemma normalise_idempotent (s : string) :
  upper (strip (upper (strip s))) = upper (strip s).
Proof. now rewrite strip_upper, strip_idempotent, upper_idempotent. Qed.

End TextFacts.

(** * The holdings handlers beyond the claims *)

Section StoreSteps.

Lemma fold_max_bound (ids : list Z) (x : Z) :
  In x ids -> x <= fold_right Z.max 0 ids.
Proof.
  induction ids as [|y ids IH]; simpl; [contradiction|].
  intros [->|H]; [lia|]. specialize (IH H). lia.
Qed.

(** A new rowid is larger than every rowid of the table. *)
Lemma next_rowid_fresh (seq : Z) (ids : list Z) :
  ~ In (next_rowid seq ids) ids.
Proof.
  intros H. apply fold_max_bound in H. unfold next_rowid in H. lia.
Qed.

Lemma NoDup_snoc {A : Type} (l : list A) (x : A) :
  NoDup l -> ~ In x l -> NoDup (l ++ [x]).
Proof.
  intros Hl Hx. apply NoDup_app; [exact Hl|repeat constructor; intros []|].
  intros a Ha [<-|[]]. contradiction.
Qed.

(** Above zero means neither [<= 0] nor NaN, and conversely. *)
Lemma positive_iff (x : float) :
  ltb zero x = true <-> leb x zero = false /\ is_nan x = false.
Proof.
  destruct x as [s|[]| |[] m e]; simpl; split; intros H;
    try discriminate H; try (split; reflexivity); try reflexivity;
    destruct H as [H1 H2]; try discriminate H1; try discriminate H2.
Qed.

Lemma parse_positive_some (quantity buy_price : string) (q b : float) :
  parse_positive quantity buy_price = Some (q, b) <->
  float_of_string quantity = Some q /\
  float_of_string buy_price = Some b /\
  leb q zero = false /\ leb b zero = false.
Proof.
  unfold parse_positive.
  destruct (float_of_string quantity) as [q'|];
    [|split; [discriminate|intros [H _]; discriminate H]].
  destruct (float_of_string buy_price) as [b'|];
    [|split; [discriminate|intros [_ [H _]]; discriminate H]].
  destruct (leb q' zero) eqn:Eq; simpl.
  - split; [discriminate|]. intros [[= <-] [_ [H _]]]. congruence.
  - destruct (leb b' zero) eqn:Eb.
    + split; [discriminate|]. intros [_ [[= <-] [_ H]]]. congruence.
    + split.
      * intros [= <- <-]. auto.
      * intros [[= <-] [[= <-] _]]. reflexivity.
Qed.

Lemma select_investment_snoc (db : database) (r : investment)
    (seq tseq : Z) (txns : list transaction) :
  sqlite_integer (inv_id r) = true ->
  ~ In (inv_id r) (map inv_id (investments db)) ->
  select_investment (mkDb (investments db ++ [r]) txns seq tseq)
                    (inv_id r) (inv_user_id r)
  = Ok (Some r).
Proof.
  intros Hfit Hfresh. unfold select_investment. rewrite Hfit. simpl.
  f_equal.
  induction (investments db) as [|x l IH]; simpl.
  - now rewrite !Z.eqb_refl.
  - destruct (inv_id x =? inv_id r) eqn:E.
    + apply Z.eqb_eq in E. exfalso. apply Hfresh. simpl. auto.
    + simpl. apply IH. intros H. apply Hfresh. simpl. auto.
Qed.

Lemma filter_snoc_fresh (l : list investment) (r : investment) :
  ~ In (inv_id r) (map inv_id l) ->
  filter (fun x => negb ((inv_id x =? inv_id r)
                         && (inv_user_id x =? inv_user_id r)))
         (l ++ [r])
  = l.
Proof.
  intros Hfresh. rewrite filter_app. simpl. rewrite !Z.eqb_refl. simpl.
  rewrite app_nil_r. apply filter_all. rewrite Forall_forall.
  intros x Hx. destruct (inv_id x =? inv_id r) eqn:E; [|reflexivity].
  apply Z.eqb_eq in E. exfalso. apply Hfresh. rewrite <- E.
  now apply in_map.
Qed.

Lemma find_filter_none {A : Type} (p : A -> bool) (l : list A) :
  find p (filter (fun x => negb (p x)) l) = None.
Proof.
  induction l as [|a l IH]; simpl; [reflexivity|].
  destruct (p a) eqn:E; simpl; [exact IH|]. now rewrite E.
Qed.

Lemma find_map_some {A : Type} (p : A -> bool) (f : A -> A) (l : list A) :
  (forall a, p (f a) = p a) ->
  find p (map f l) = option_map f (find p l).
Proof.
  intros H. induction l as [|a l IH]; simpl; [reflexivity|].
  rewrite H. now destruct (p a).
Qed.

End StoreSteps.

Section AddFacts.

Variable get_live_price : string -> option float.
Variable now : string.

(** What [add_investment] does with a form that passes its checks. *)
Lemma add_investment_accepted (db : database) (user_id : Z)
    (form : investment_form) (q b : float) :
  add_accepted form = Some (q, b) ->
  let symbol := upper (strip (form_symbol form)) in
  let id := next_rowid (investments_seq db) (map inv_id (investments db)) in
  let tid := next_rowid (transactions_seq db) (map txn_id (transactions db)) in
  out_db (add_investment get_live_price now (Some user_id) db POST form)
  = mkDb (investments db
            ++ [mkInvestment id user_id symbol (strip (form_category form))
                             q b now])
         (transactions db ++ [mkTransaction tid user_id symbol BUY q b now])
         id tid /\
  out_response (add_investment get_live_price now (Some user_id) db POST form)
  = Redirect "dashboard".
Proof.
  unfold add_accepted, add_investment, require_login.
  destruct (String.eqb _ "" || String.eqb _ ""); [discriminate|].
  destruct (parse_positive _ _) as [[q' b']|]; [|discriminate].
  unfold insert_investment.
  destruct (is_nan q' || is_nan b') eqn:En; [discriminate|].
  intros [= <- <-]. simpl. unfold insert_transaction. simpl. rewrite En.
  simpl. split; reflexivity.
Qed.

(** What it does with any other form. *)
Lemma add_investment_refused (db : database) (session : option Z)
    (method : http_method) (form : investment_form) :
  session = None \/ method = GET \/ add_accepted form = None ->
  let out := add_investment get_live_price now session db method form in
  out_db out = db /\ out_response out <> Redirect "dashboard".
Proof.
  unfold add_accepted, add_investment, require_login.
  destruct session as [user_id|];
    [|intros _; split; [reflexivity|discriminate]].
  destruct method; [intros _; split; [reflexivity|discriminate]|].
  intros [H|[H|H]]; try discriminate H. revert H.
  destruct (String.eqb _ "" || String.eqb _ "");
    [intros _; split; [reflexivity|discriminate]|].
  destruct (parse_positive _ _) as [[q b]|];
    [|intros _; split; [reflexivity|discriminate]].
  unfold insert_investment.
  destruct (is_nan q || is_nan b); [|discriminate].
  intros _. simpl. split; [reflexivity|discriminate].
Qed.

End AddFacts.

(** X1. A valid add form (a symbol and a category that are not blank,
    numbers that parse and are greater than zero) appends one investment
    of the user, with the symbol stripped and upper-cased and the
    category stripped, and one BUY transaction with the same symbol,
    quantity and price; the rows already stored are kept. *)
Theorem add_investment_records_buy
    (get_live_price : string -> option float) (now : string)
    (db : database) (user_id : Z) (form : investment_form) (q b : float) :
  upper (strip (form_symbol form)) <> "" ->
  strip (form_category form) <> "" ->
  float_of_string (form_quantity form) = Some q ->
  float_of_string (form_buy_price form) = Some b ->
  ltb zero q = true ->
  ltb zero b = true ->
  let out := add_investment get_live_price now (Some user_id) db POST form in
  let symbol := upper (strip (form_symbol form)) in
  investments (out_db out)
  = (investments db
       ++ [mkInvestment
             (next_rowid (investments_seq db) (map inv_id (investments db)))
             user_id symbol (strip (form_category form)) q b now])%list /\
  transactions (out_db out)
  = (transactions db
       ++ [mkTransaction
             (next_rowid (transactions_seq db) (map txn_id (transactions db)))
             user_id symbol BUY q b now])%list /\
  out_response out = Redirect "dashboard".
Proof.
  intros Hs Hc Hq Hb Pq Pb out symbol.
  apply positive_iff in Pq, Pb. destruct Pq as [Lq Nq], Pb as [Lb Nb].
  assert (Hacc : add_accepted form = Some (q, b)).
  { unfold add_accepted.
    apply String.eqb_neq in Hs, Hc. rewrite Hs, Hc. simpl.
    replace (parse_positive (form_quantity form) (form_buy_price form))
      with (Some (q, b)) by (symmetry; now apply parse_positive_some).
    now rewrite Nq, Nb. }
  destruct (add_investment_accepted get_live_price now db user_id form q b Hacc)
    as [Hdb Hresp].
  subst out. rewrite Hdb, Hresp. simpl. repeat split.
Qed.

(** Witness of X1: ten AAPL at 100 added by user 1 to the empty store. *)
Lemma add_investment_records_buy_witness :
  let out := add_investment aapl_quote sample_date (Some 1) empty_db POST
                            (mkForm " aapl" "Stock " "10" "100") in
  investments (out_db out)
  = [mkInvestment 1 1 "AAPL" "Stock" (float_lit "10") (float_lit "100")
                  sample_date] /\
  transactions (out_db out)
  = [mkTransaction 1 1 "AAPL" BUY (float_lit "10") (float_lit "100")
                   sample_date].
Proof.
  destruct (add_investment_records_buy aapl_quote sample_date empty_db 1
              (mkForm " aapl" "Stock " "10" "100")
              (float_lit "10") (float_lit "100"))
    as [Hi [Ht _]]; try reflexivity; try discriminate.
  split; [exact Hi|exact Ht].
Defined.

(** X2. [add_investment] is all or nothing: whatever the request, either
    the store is left as it was and the user is not sent to the
    dashboard, or exactly one investment and one BUY transaction are
    appended that agree on user, symbol, quantity and price; the
    investment then belongs to the session user, has a symbol that is not
    empty and is stripped and upper-cased, a stripped category, and a
    quantity and a buy price greater than zero. *)
Theorem add_investment_all_or_nothing
    (get_live_price : string -> option float) (now : string)
    (session : option Z) (db : database) (method : http_method)
    (form : investment_form) :
  let out := add_investment get_live_price now session db method form in
  (out_db out = db /\ out_response out <> Redirect "dashboard") \/
  (exists r t,
     investments (out_db out) = (investments db ++ [r])%list /\
     transactions (out_db out) = (transactions db ++ [t])%list /\
     txn_type t = BUY /\
     txn_user_id t = inv_user_id r /\
     txn_symbol t = inv_symbol r /\
     txn_quantity t = inv_quantity r /\
     txn_price t = inv_buy_price r /\
     session = Some (inv_user_id r) /\
     inv_symbol r <> "" /\
     normalised_holding r /\
     positive_holding r /\
     out_response out = Redirect "dashboard").
Proof.
  intros out. subst out.
  destruct session as [user_id|];
    [|left; apply add_investment_refused; auto].
  destruct method; [left; apply add_investment_refused; auto|].
  destruct (add_accepted form) as [[q b]|] eqn:Hacc;
    [|left; apply add_investment_refused; auto].
  right.
  destruct (add_investment_accepted get_live_price now db user_id form q b Hacc)
    as [Hdb Hresp].
  rewrite Hdb, Hresp. simpl. do 2 eexists.
  do 8 (split; [reflexivity|]).
  unfold add_accepted in Hacc.
  destruct (String.eqb (upper (strip (form_symbol form))) "") eqn:Es;
    [discriminate|].
  destruct (String.eqb (strip (form_category form)) "") eqn:Ec;
    [discriminate|].
  simpl in Hacc.
  destruct (parse_positive _ _) as [[q' b']|] eqn:Hp; [|discriminate].
  destruct (is_nan q' || is_nan b') eqn:En; [discriminate|].
  injection Hacc as <- <-.
  apply parse_positive_some in Hp. destruct Hp as [_ [_ [Lq Lb]]].
  apply orb_false_elim in En. destruct En as [Nq Nb].
  split; [now apply String.eqb_neq|].
  split; [split; simpl; [apply normalise_idempotent|apply strip_idempotent]|].
  split; [split; simpl; now apply positive_iff|reflexivity].
Qed.

(** X3. A blank symbol or category, a quantity or a buy price that does
    not parse, that is not greater than zero, or that is NaN (which the
    form lets through and the store refuses): each makes [add_investment]
    leave the store as it was, flash a message of category danger and
    send the user back to the add form. *)
Theorem add_investment_rejects
    (get_live_price : string -> option float) (now : string)
    (db : database) (user_id : Z) (form : investment_form) :
  upper (strip (form_symbol form)) = "" \/
  strip (form_category form) = "" \/
  float_of_string (form_quantity form) = None \/
  float_of_string (form_buy_price form) = None \/
  (exists q, float_of_string (form_quantity form) = Some q /\
             (leb q zero = true \/ is_nan q = true)) \/
  (exists b, float_of_string (form_buy_price form) = Some b /\
             (leb b zero = true \/ is_nan b = true)) ->
  let out := add_investment get_live_price now (Some user_id) db POST form in
  out_db out = db /\
  out_response out = Redirect "add_investment" /\
  exists text, In (text, danger) (out_flashes out).
Proof.
  intros Hbad out. subst out. unfold add_investment, require_login.
  destruct (String.eqb (upper (strip (form_symbol form))) "") eqn:Es;
    [simpl; repeat split; eexists; left; reflexivity|].
  destruct (String.eqb (strip (form_category form)) "") eqn:Ec;
    [simpl; repeat split; eexists; left; reflexivity|].
  simpl.
  destruct (parse_positive _ _) as [[q b]|] eqn:Hp;
    [|simpl; repeat split; eexists; left; reflexivity].
  apply parse_positive_some in Hp. destruct Hp as [Hq [Hb [Lq Lb]]].
  assert (Hnan : is_nan q || is_nan b = true).
  { apply String.eqb_neq in Es, Ec.
    destruct Hbad as [H|[H|[H|[H|[[q' [H1 H2]]|[b' [H1 H2]]]]]]];
      try contradiction; try congruence.
    - replace q' with q in H2 by congruence.
      destruct H2 as [H2|H2]; [congruence|]. now rewrite H2.
    - replace b' with b in H2 by congruence.
      destruct H2 as [H2|H2]; [congruence|]. rewrite H2. apply orb_true_r. }
  unfold insert_investment. rewrite Hnan. simpl.
  repeat split. eexists. apply in_or_app. right. left. reflexivity.
Qed.

(** Witness of X3: a quantity of zero, and a quantity behind a file
    separator (character 28), which [str.strip] would remove and [float]
    does not skip. *)
Lemma add_investment_rejects_witness :
  out_db (add_investment aapl_quote sample_date (Some 1) sample_db POST
                         (mkForm "AAPL" "Stock" "0" "100"))
  = sample_db /\
  out_db (add_investment aapl_quote sample_date (Some 1) sample_db POST
                         (mkForm "AAPL" "Stock" (String "028" "1") "100"))
  = sample_db.
Proof.
  split.
  - apply (add_investment_rejects aapl_quote sample_date sample_db 1
             (mkForm "AAPL" "Stock" "0" "100")).
    right. right. right. right. left. exists (float_lit "0").
    split; [reflexivity|left; reflexivity].
  - apply (add_investment_rejects aapl_quote sample_date sample_db 1
             (mkForm "AAPL" "Stock" (String "028" "1") "100")).
    right. right. left. reflexivity.
Defined.

(** X4. What [add_investment] stores does not depend on the market-data
    service: for any two services the store and the response are the
    same.  A symbol the service cannot price is added all the same, with
    a warning flashed before the confirmation. *)
Theorem add_investment_ignores_market_data
    (quote quote' : string -> option float) (now : string)
    (session : option Z) (db : database) (method : http_method)
    (form : investment_form) :
  out_db (add_investment quote now session db method form)
  = out_db (add_investment quote' now session db method form) /\
  out_response (add_investment quote now session db method form)
  = out_response (add_investment quote' now session db method form) /\
  (forall user_id,
     session = Some user_id ->
     method = POST ->
     quote (upper (strip (form_symbol form))) = None ->
     out_response (add_investment quote now session db method form)
     = Redirect "dashboard" ->
     exists text text',
       out_flashes (add_investment quote now session db method form)
       = [(text, warning); (text', success)]).
Proof.
  unfold add_investment, require_login.
  destruct session as [user_id|]; [|repeat split; intros; discriminate].
  destruct method; [repeat split; intros; discriminate|].
  destruct (String.eqb _ "" || String.eqb _ "");
    [repeat split; intros; discriminate|].
  destruct (parse_positive _ _) as [[q b]|];
    [|repeat split; intros; discriminate].
  destruct (bind _ _) as [conn|e]; simpl.
  - repeat split. intros u _ _ Hq _. rewrite Hq. simpl. eauto.
  - repeat split. intros u _ _ Hq H. discriminate H.
Qed.

(** Witness of X4: a symbol unknown to the service is added. *)
Lemma add_investment_ignores_market_data_witness :
  exists text text',
    out_flashes (add_investment unknown_quote sample_date (Some 1) empty_db
                                POST (mkForm "XXXX" "Other" "5" "20"))
    = [(text, warning); (text', success)].
Proof.
  destruct (add_investment_ignores_market_data
              unknown_quote aapl_quote sample_date (Some 1) empty_db POST
              (mkForm "XXXX" "Other" "5" "20")) as [_ [_ H]].
  apply (H 1); reflexivity.
Defined.

(** X5. Adding a holding and then deleting it gives the investments
    table back as it was and leaves a BUY and a SELL transaction with the
    same symbol, quantity and price at the end of the log; the rowid of
    the new holding is one that the store can hold. *)
Theorem add_then_delete_restores_holdings
    (get_live_price : string -> option float) (now now' : string)
    (db : database) (user_id : Z) (form : investment_form) (q b : float) :
  add_accepted form = Some (q, b) ->
  sqlite_integer
    (next_rowid (investments_seq db) (map inv_id (investments db))) = true ->
  let added := out_db (add_investment get_live_price now (Some user_id) db
                                      POST form) in
  let id := investments_seq added in
  let out := delete_investment now' (Some user_id) added id in
  investments (out_db out) = investments db /\
  exists buy sell,
    transactions (out_db out) = (transactions db ++ [buy; sell])%list /\
    txn_type buy = BUY /\ txn_type sell = SELL /\
    txn_symbol sell = txn_symbol buy /\
    txn_quantity sell = txn_quantity buy /\
    txn_price sell = txn_price buy /\
    txn_user_id sell = user_id /\ txn_user_id buy = user_id.
Proof.
  intros Hacc Hfit added id out. subst out id added.
  destruct (add_investment_accepted get_live_price now db user_id form q b Hacc)
    as [Hdb _].
  rewrite Hdb. simpl.
  set (r := mkInvestment
              (next_rowid (investments_seq db) (map inv_id (investments db)))
              user_id (upper (strip (form_symbol form)))
              (strip (form_category form)) q b now).
  pose proof (next_rowid_fresh (investments_seq db)
                               (map inv_id (investments db))) as Hfresh.
  unfold delete_investment, require_login.
  rewrite (select_investment_snoc db r _ _ _ Hfit Hfresh).
  unfold add_accepted in Hacc.
  destruct (_ || _) in Hacc; [discriminate|].
  destruct (parse_positive _ _) as [[q' b']|]; [|discriminate].
  destruct (is_nan q' || is_nan b') eqn:En; [discriminate|].
  injection Hacc as <- <-.
  unfold insert_transaction. simpl. rewrite En. simpl.
  split.
  - apply (filter_snoc_fresh (investments db) r Hfresh).
  - do 2 eexists. rewrite <- app_assoc. simpl.
    split; [reflexivity|]. repeat split.
Qed.

(** Witness of X5 on the sample store. *)
Lemma add_then_delete_restores_holdings_witness :
  let added := out_db (add_investment aapl_quote sample_date (Some 1)
                                      sample_db POST
                                      (mkForm "AAPL" "Stock" "10" "100")) in
  investments
    (out_db (delete_investment sample_date (Some 1) added
                               (investments_seq added)))
  = investments sample_db.
Proof.
  apply (add_then_delete_restores_holdings aapl_quote sample_date sample_date
           sample_db 1 (mkForm "AAPL" "Stock" "10" "100")
           (float_lit "10") (float_lit "100"));
    reflexivity.
Defined.

(** X6. Editing an investment that does not exist or that belongs to
    another user changes nothing, whether the form is being opened or
    submitted.  When the id fits in 64 bits the user is told that the
    investment was not found and is sent to the dashboard; when it does
    not, the store refuses the id and the request ends in a server error
    without a message. *)
Theorem edit_investment_not_found
    (db : database) (user_id id : Z) (method : http_method)
    (form : investment_form) :
  (forall r, In r (investments db) -> inv_id r = id ->
             inv_user_id r <> user_id) ->
  edit_investment (Some user_id) db method form id
  = if sqlite_integer id
    then mkOutcome db [(Text "Investment not found.", danger)]
                   (Redirect "dashboard")
    else mkOutcome db [] (InternalServerError OverflowError).
Proof.
  intros Hnone. unfold edit_investment, require_login.
  destruct (sqlite_integer id) eqn:Hid.
  - now rewrite (select_investment_none _ _ _ Hid Hnone).
  - now rewrite (select_investment_overflow _ _ _ Hid).
Qed.

(** Witness of X6: user 2 submits an edit of the holding of user 1, and
    user 1 an edit of the id of 64 bits and one. *)
Lemma edit_investment_not_found_witness :
  edit_investment (Some 2) sample_db POST (mkForm "" "" "8" "25") 1
  = mkOutcome sample_db [(Text "Investment not found.", danger)]
              (Redirect "dashboard") /\
  edit_investment (Some 1) sample_db POST (mkForm "" "" "8" "25")
                  9223372036854775808
  = mkOutcome sample_db [] (InternalServerError OverflowError).
Proof.
  split.
  - rewrite (edit_investment_not_found sample_db 2 1 POST
               (mkForm "" "" "8" "25")).
    + reflexivity.
    + intros r [<-|[]] _. discriminate.
  - rewrite (edit_investment_not_found sample_db 1 9223372036854775808 POST
               (mkForm "" "" "8" "25")).
    + reflexivity.
    + intros r [<-|[]] Hid. discriminate Hid.
Defined.

(** X7. [edit_investment] changes the store in one case only.  Opening
    the form, an id that the store cannot hold, a quantity or buy price
    that does not parse or is not greater than zero, and a NaN (which the
    form lets through and the store refuses, so that the request ends in
    a server error) all leave the store as it was; otherwise the rows
    with the given id, and only they, receive the two parsed numbers. *)
Theorem edit_investment_changes_on_success_only
    (session : option Z) (db : database) (method : http_method)
    (form : investment_form) (id : Z) :
  let out := edit_investment session db method form id in
  (out_db out = db /\ out_response out <> Redirect "dashboard") \/
  (out_db out = db /\
   out_flashes out = [(Text "Investment not found.", danger)]) \/
  (exists q b,
     method = POST /\
     float_of_string (form_quantity form) = Some q /\
     float_of_string (form_buy_price form) = Some b /\
     ltb zero q = true /\ ltb zero b = true /\
     investments (out_db out)
     = map (fun r => if inv_id r =? id then with_numbers q b r else r)
           (investments db) /\
     transactions (out_db out) = transactions db /\
     out_flashes out = [(Text "Investment updated successfully!", success)]).
Proof.
  intros out. subst out. unfold edit_investment, require_login.
  destruct session as [user_id|]; [|left; split; [reflexivity|discriminate]].
  destruct (select_investment db id user_id) as [[inv|]|e] eqn:Hsel;
    [|right; left; split; reflexivity
     |left; split; [reflexivity|discriminate]].
  destruct method; [left; split; [reflexivity|discriminate]|].
  destruct (parse_positive _ _) as [[q b]|] eqn:Hp;
    [|left; split; [reflexivity|discriminate]].
  apply parse_positive_some in Hp. destruct Hp as [Hq [Hb [Lq Lb]]].
  unfold update_investment.
  assert (Hex : existsb (fun r => inv_id r =? id) (investments db) = true).
  { apply existsb_exists. exists inv.
    destruct (select_investment_some _ _ _ _ Hsel) as [Hin [Hid _]].
    split; [exact Hin|now apply Z.eqb_eq]. }
  rewrite Hex. simpl.
  destruct (is_nan q) eqn:Nq; [left; split; [reflexivity|discriminate]|].
  destruct (is_nan b) eqn:Nb; [left; split; [reflexivity|discriminate]|].
  right. right. exists q, b. simpl.
  repeat split; try assumption; now apply positive_iff.
Qed.

(** Lemmas on an accepted edit. *)
Lemma edit_investment_accepted (db : database) (user_id id : Z)
    (form : investment_form) (inv : investment) (q b : float) :
  select_investment db id user_id = Ok (Some inv) ->
  parse_positive (form_quantity form) (form_buy_price form) = Some (q, b) ->
  is_nan q = false ->
  is_nan b = false ->
  out_db (edit_investment (Some user_id) db POST form id)
  = mkDb (map (fun r => if inv_id r =? id then with_numbers q b r else r)
              (investments db))
         (transactions db) (investments_seq db) (transactions_seq db).
Proof.
  intros Hsel Hp Nq Nb. unfold edit_investment, require_login.
  rewrite Hsel, Hp. unfold update_investment.
  now rewrite Nq, Nb, andb_false_r.
Qed.

Lemma select_investment_updated (db : database) (id user_id : Z)
    (q b : float) (seq tseq : Z) (txns : list transaction) :
  select_investment
    (mkDb (map (fun r => if inv_id r =? id then with_numbers q b r else r)
               (investments db))
          txns seq tseq)
    id user_id
  = match select_investment db id user_id with
    | Ok found => Ok (option_map (with_numbers q b) found)
    | Raise e => Raise e
    end.
Proof.
  unfold select_investment. destruct (sqlite_integer id); [|reflexivity].
  simpl. f_equal.
  induction (investments db) as [|r l IH]; simpl; [reflexivity|].
  destruct (inv_id r =? id) eqn:E; simpl.
  - rewrite E. simpl. destruct (inv_user_id r =? user_id); [reflexivity|].
    exact IH.
  - rewrite E. simpl. exact IH.
Qed.

(** X8. Of two successive edits of the same investment the last one
    wins: the store is the one that the second edit alone would have
    given. *)
Theorem edit_investment_last_write_wins
    (db : database) (user_id id : Z) (form form' : investment_form)
    (inv : investment) (q b q' b' : float) :
  select_investment db id user_id = Ok (Some inv) ->
  parse_positive (form_quantity form) (form_buy_price form) = Some (q, b) ->
  parse_positive (form_quantity form') (form_buy_price form')
  = Some (q', b') ->
  is_nan q = false -> is_nan b = false ->
  is_nan q' = false -> is_nan b' = false ->
  out_db (edit_investment (Some user_id)
            (out_db (edit_investment (Some user_id) db POST form id))
            POST form' id)
  = out_db (edit_investment (Some user_id) db POST form' id).
Proof.
  intros Hsel Hp Hp' Nq Nb Nq' Nb'.
  rewrite (edit_investment_accepted db user_id id form inv q b Hsel Hp Nq Nb).
  rewrite (edit_investment_accepted db user_id id form' inv q' b'
             Hsel Hp' Nq' Nb').
  erewrite edit_investment_accepted; eauto.
  2:{ rewrite select_investment_updated, Hsel. reflexivity. }
  simpl. f_equal. rewrite map_map. apply map_ext. intros r.
  destruct (inv_id r =? id) eqn:E; simpl; now rewrite E.
Qed.

(** Witness of X8: 8 shares at 25, then 3 shares at 30. *)
Lemma edit_investment_last_write_wins_witness :
  investments
    (out_db (edit_investment (Some 1)
               (out_db (edit_investment (Some 1) sample_db POST
                                        (mkForm "" "" "8" "25") 1))
               POST (mkForm "" "" "3" "30") 1))
  = [mkInvestment 1 1 "MSFT" "Stock" (float_lit "3") (float_lit "30")
                  sample_date].
Proof.
  rewrite (edit_investment_last_write_wins sample_db 1 1
             (mkForm "" "" "8" "25") (mkForm "" "" "3" "30") sample_holding
             (float_lit "8") (float_lit "25")
             (float_lit "3") (float_lit "30"));
    reflexivity.
Defined.

(** X9. In a store whose holdings have positive numbers, deleting the
    same investment a second time finds nothing: the second request
    changes neither table and reports that the investment was not
    found.  The id is one that the store can hold, as the id of every
    investment is. *)
Theorem delete_investment_twice
    (now now' : string) (db : database) (user_id id : Z) :
  Forall positive_holding (investments db) ->
  sqlite_integer id = true ->
  let once := out_db (delete_investment now (Some user_id) db id) in
  select_investment once id user_id = Ok None /\
  delete_investment now' (Some user_id) once id
  = mkOutcome once [(Text "Investment not found.", danger)]
              (Redirect "dashboard").
Proof.
  intros Hpos Hfit once.
  assert (Hnone : select_investment once id user_id = Ok None).
  { subst once. unfold delete_investment, require_login.
    destruct (select_investment db id user_id) as [[inv|]|e] eqn:Hsel;
      [|exact Hsel
       |unfold select_investment in Hsel; rewrite Hfit in Hsel;
        discriminate Hsel].
    destruct (select_investment_some _ _ _ _ Hsel) as [Hin _].
    rewrite Forall_forall in Hpos. destruct (Hpos inv Hin) as [Pq Pb].
    apply positive_iff in Pq, Pb. destruct Pq as [_ Nq], Pb as [_ Nb].
    unfold insert_transaction. rewrite Nq, Nb. simpl.
    unfold select_investment, delete_row. rewrite Hfit. simpl. f_equal.
    apply (find_filter_none
             (fun r => (inv_id r =? id) && (inv_user_id r =? user_id))). }
  split; [exact Hnone|].
  unfold delete_investment, require_login. now rewrite Hnone.
Qed.

(** Witness of X9 on the sample store. *)
Lemma delete_investment_twice_witness :
  let once := out_db (delete_investment sample_date (Some 1) sample_db 1) in
  out_db (delete_investment sample_date (Some 1) once 1) = once.
Proof.
  destruct (delete_investment_twice sample_date sample_date sample_db 1 1)
    as [_ H].
  - repeat constructor.
  - reflexivity.
  - intros once. subst once. rewrite H. reflexivity.
Defined.

(** * The handlers as sequences of elementary changes *)

Section EffectFacts.

Lemma effects_one (u : Z) (db db' : database) :
  effect u db db' -> effects u db db'.
Proof. intros H. eapply effects_step; [exact H|apply effects_done]. Qed.

Lemma effects_trans (u : Z) (a b c : database) :
  effects u a b -> effects u b c -> effects u a c.
Proof.
  induction 1 as [|x y z Hxy _ IH]; intros H; [exact H|].
  eapply effects_step; [exact Hxy|apply IH, H].
Qed.

Lemma category_field_stripped (row : csv_row) (c : string) :
  category_field row = Ok c -> strip c = c.
Proof.
  unfold category_field.
  destruct (row_get "category" row) as [[s|]|]; intros [= <-];
    apply strip_idempotent.
Qed.

(** A row of the file changes the open connection by at most one
    insertion. *)
Lemma import_row_effects (now : string) (u : Z) (st st' : database * nat)
    (row : csv_row) :
  import_row now u st row = Ok st' -> effects u (fst st) (fst st').
Proof.
  unfold import_row.
  destruct (symbol_field row) as [s|];
    [|intros [= <-]; apply effects_done].
  destruct (float_field row "quantity") as [q|]; [|discriminate].
  destruct (float_field row "buy_price") as [b|]; [|discriminate].
  simpl. destruct (leb q zero || leb b zero) eqn:El;
    [intros [= <-]; apply effects_done|].
  destruct (category_field row) as [c|] eqn:Ec; [|discriminate].
  simpl. unfold insert_investment.
  destruct (is_nan q || is_nan b) eqn:En; [discriminate|].
  simpl. intros [= <-]. simpl.
  apply orb_false_elim in El, En. destruct El as [Lq Lb], En as [Nq Nb].
  apply effects_one.
  apply (effect_insert u (fst st)
           (mkInvestment
              (next_rowid (investments_seq (fst st))
                          (map inv_id (investments (fst st))))
              u (upper (strip s)) c q b now)).
  - reflexivity.
  - reflexivity.
  - split; simpl; now apply positive_iff.
  - split; simpl;
      [apply normalise_idempotent|eapply category_field_stripped, Ec].
Qed.

Lemma import_rows_effects (now : string) (u : Z)
    (rows : list (result csv_row)) :
  forall st st',
    import_rows now u rows st = Ok st' -> effects u (fst st) (fst st').
Proof.
  induction rows as [|[row|e] rows IH]; simpl; intros st st'.
  - intros [= <-]. apply effects_done.
  - destruct (import_row now u st row) as [st1|] eqn:E1; [|discriminate].
    simpl. intros E2. eapply effects_trans.
    + eapply import_row_effects, E1.
    + apply IH, E2.
  - discriminate.
Qed.

(** Every request of a logged-in user is a sequence of elementary
    changes made for that user. *)
Lemma handle_effects (c : call) (db : database) (u : Z) :
  call_session c = Some u -> effects u db (out_db (handle c db)).
Proof.
  intros Hs. unfold handle. rewrite Hs.
  destruct (call_request c) as [method form|method form id|id| |file].
  - (* add_investment *)
    destruct method;
      [rewrite (proj1 (add_investment_refused _ _ _ _ _ _
                         (or_intror (or_introl eq_refl))));
       apply effects_done|].
    destruct (add_accepted form) as [[q b]|] eqn:Hacc.
    + destruct (add_investment_accepted (call_quote c) (call_now c)
                  db u form q b Hacc) as [Hdb _].
      rewrite Hdb.
      unfold add_accepted in Hacc.
      destruct (_ || _) in Hacc; [discriminate|].
      destruct (parse_positive _ _) as [[q' b']|] eqn:Hp; [|discriminate].
      destruct (is_nan q' || is_nan b') eqn:En; [discriminate|].
      injection Hacc as <- <-.
      apply parse_positive_some in Hp. destruct Hp as [_ [_ [Lq Lb]]].
      apply orb_false_elim in En. destruct En as [Nq Nb].
      set (r := mkInvestment
                  (next_rowid (investments_seq db)
                              (map inv_id (investments db)))
                  u (upper (strip (form_symbol form)))
                  (strip (form_category form)) q' b' (call_now c)).
      eapply effects_step.
      * apply (effect_insert u db r); try reflexivity.
        -- split; simpl; now apply positive_iff.
        -- split; simpl; [apply normalise_idempotent|apply strip_idempotent].
      * apply effects_one.
        apply (effect_log u
                 (mkDb (investments db ++ [r]) (transactions db)
                       (inv_id r) (transactions_seq db))
                 (mkTransaction
                    (next_rowid (transactions_seq db)
                                (map txn_id (transactions db)))
                    u (inv_symbol r) BUY q' b' (call_now c))
                 r); try reflexivity.
        simpl. apply in_or_app. right. left. reflexivity.
    + rewrite (proj1 (add_investment_refused _ _ _ _ _ _
                        (or_intror (or_intror Hacc)))).
      apply effects_done.
  - (* edit_investment *)
    unfold edit_investment, require_login.
    destruct (select_investment db (Z.of_N id) u) as [[inv|]|e] eqn:Hsel;
      [|apply effects_done|apply effects_done].
    destruct method; [apply effects_done|].
    destruct (parse_positive _ _) as [[q b]|] eqn:Hp; [|apply effects_done].
    apply parse_positive_some in Hp. destruct Hp as [_ [_ [Lq Lb]]].
    unfold update_investment.
    destruct (existsb _ _ && (is_nan q || is_nan b)) eqn:E.
    + apply effects_done.
    + simpl. apply effects_one.
      assert (Hex : existsb (fun r => inv_id r =? Z.of_N id) (investments db)
                    = true).
      { apply existsb_exists. exists inv.
        destruct (select_investment_some _ _ _ _ Hsel) as [Hin [Hid _]].
        split; [exact Hin|now apply Z.eqb_eq]. }
      rewrite Hex in E. simpl in E.
      apply orb_false_elim in E. destruct E as [Nq Nb].
      apply (effect_update u db (Z.of_N id) inv q b Hsel);
        now apply positive_iff.
  - (* delete_investment *)
    unfold delete_investment, require_login.
    destruct (select_investment db (Z.of_N id) u) as [[inv|]|e] eqn:Hsel;
      [|apply effects_done|apply effects_done].
    unfold insert_transaction.
    destruct (is_nan (inv_quantity inv) || is_nan (inv_buy_price inv));
      [apply effects_done|].
    simpl.
    destruct (select_investment_some _ _ _ _ Hsel) as [Hin [Hid Hu]].
    eapply effects_step.
    + apply (effect_log u db
               (mkTransaction
                  (next_rowid (transactions_seq db)
                              (map txn_id (transactions db)))
                  u (inv_symbol inv) SELL (inv_quantity inv)
                  (inv_buy_price inv) (call_now c))
               inv); try reflexivity; assumption.
    + apply effects_one. apply effect_remove.
  - (* export_csv *)
    apply effects_done.
  - (* import_csv *)
    unfold import_csv, require_login.
    destruct file as [records|]; [|apply effects_done].
    destruct (import_rows _ _ _ _) as [[conn imported]|e] eqn:E;
      [|apply effects_done].
    apply (import_rows_effects _ _ _ _ _ E).
Qed.

Lemma handle_anonymous (c : call) (db : database) :
  call_session c = None ->
  handle c db
  = mkOutcome db [(Text "Please log in to access this page.", warning)]
              (Redirect "login").
Proof.
  intros Hs. unfold handle. rewrite Hs.
  destruct (call_request c); reflexivity.
Qed.

End EffectFacts.

(** * Invariants of the store *)

Section InvariantFacts.

Lemma map_id_updated (id : Z) (q b : float) (l : list investment) :
  map inv_id (map (fun x => if inv_id x =? id then with_numbers q b x else x) l)
  = map inv_id l.
Proof.
  rewrite map_map. apply map_ext. intros x.
  now destruct (inv_id x =? id).
Qed.

(** Deleting rows keeps the remaining keys unique. *)
Lemma filter_keeps_ids_unique (keep : investment -> bool)
    (rows : list investment) :
  NoDup (map inv_id rows) -> NoDup (map inv_id (filter keep rows)).
Proof.
  induction rows as [|r rows IH]; simpl; intros Hnd; [constructor|].
  apply NoDup_cons_iff in Hnd. destruct Hnd as [Hfresh Hrest].
  destruct (keep r); simpl; [|now apply IH].
  apply NoDup_cons_iff. split; [|now apply IH].
  intros Hin. apply Hfresh.
  apply in_map_iff in Hin. destruct Hin as [x [Hid Hx]].
  apply filter_In in Hx. destruct Hx as [Hx _].
  rewrite <- Hid. now apply in_map.
Qed.

Lemma effect_keys (u : Z) (db db' : database) :
  effect u db db' -> keys_unique db -> keys_unique db'.
Proof.
  intros H [Hi Ht].
  destruct H as [db r Hid _ _ _|db t r Hid _ _ _ _ _ _|db id r q b _ _ _|db id];
    split; simpl; try assumption.
  - rewrite map_app. simpl. apply NoDup_snoc; [exact Hi|].
    rewrite Hid. apply next_rowid_fresh.
  - rewrite map_app. simpl. apply NoDup_snoc; [exact Ht|].
    rewrite Hid. apply next_rowid_fresh.
  - now rewrite map_id_updated.
  - now apply filter_keeps_ids_unique.
Qed.

Lemma effect_positive (u : Z) (db db' : database) :
  effect u db db' -> positive_store db -> positive_store db'.
Proof.
  intros H [Hi Ht].
  destruct H as [db r _ _ Hp _|db t r _ _ Hin _ _ Hq Hb|db id r q b _ Pq Pb
                |db id];
    split; simpl; try assumption.
  - apply Forall_app. split; [exact Hi|]. constructor; [exact Hp|constructor].
  - apply Forall_app. split; [exact Ht|]. constructor; [|constructor].
    rewrite Forall_forall in Hi. destruct (Hi r Hin) as [P1 P2].
    split; congruence.
  - apply Forall_map. eapply Forall_impl; [|exact Hi].
    intros x Hx. destruct (inv_id x =? id); [split; assumption|exact Hx].
  - rewrite Forall_forall in *. intros x Hx. apply filter_In in Hx.
    apply Hi, Hx.
Qed.

Lemma effect_normalised (u : Z) (db db' : database) :
  effect u db db' ->
  Forall normalised_holding (investments db) ->
  Forall normalised_holding (investments db').
Proof.
  intros H Hi.
  destruct H as [db r _ _ _ Hn|db t r _ _ _ _ _ _ _|db id r q b _ _ _|db id];
    simpl; try assumption.
  - apply Forall_app. split; [exact Hi|]. constructor; [exact Hn|constructor].
  - apply Forall_map. eapply Forall_impl; [|exact Hi].
    intros x Hx. destruct (inv_id x =? id); exact Hx.
  - rewrite Forall_forall in *. intros x Hx. apply filter_In in Hx.
    apply Hi, Hx.
Qed.

Lemma effect_appends (u : Z) (db db' : database) :
  effect u db db' ->
  exists new,
    transactions db' = (transactions db ++ new)%list /\
    Forall (fun t => txn_user_id t = u) new.
Proof.
  intros H.
  destruct H as [db r _ _ _ _|db t r _ Hu _ _ _ _ _|db id r q b _ _ _|db id];
    simpl.
  - exists []. now rewrite app_nil_r.
  - exists [t]. split; [reflexivity|]. constructor; [exact Hu|constructor].
  - exists []. now rewrite app_nil_r.
  - exists []. now rewrite app_nil_r.
Qed.

Lemma filter_user_updated (u v id : Z) (q b : float) (l : list investment) :
  v <> u ->
  (forall x, In x l -> inv_id x = id -> inv_user_id x = u) ->
  filter (fun r => inv_user_id r =? v)
         (map (fun x => if inv_id x =? id then with_numbers q b x else x) l)
  = filter (fun r => inv_user_id r =? v) l.
Proof.
  intros Hv. induction l as [|x l IH]; simpl; intros Hown; [reflexivity|].
  rewrite IH by (intros y Hy; apply Hown; now right).
  destruct (inv_id x =? id) eqn:E; [|reflexivity].
  apply Z.eqb_eq in E. simpl.
  rewrite (Hown x (or_introl eq_refl) E).
  apply Z.eqb_neq in Hv. rewrite Z.eqb_sym in Hv. now rewrite Hv.
Qed.

Lemma effect_isolated (u v : Z) (db db' : database) :
  v <> u ->
  effect u db db' ->
  keys_unique db ->
  select_by_user db' v = select_by_user db v /\
  transactions_of db' v = transactions_of db v.
Proof.
  intros Hv H [Hi _].
  assert (Hvu : (u =? v) = false) by (apply Z.eqb_neq; congruence).
  unfold select_by_user, transactions_of.
  destruct H as [db r _ Hu _ _|db t r _ Hu _ _ _ _ _|db id r q b Hsel _ _
                |db id];
    simpl; split; try reflexivity.
  - rewrite filter_app. simpl. rewrite Hu, Hvu. apply app_nil_r.
  - rewrite filter_app. simpl. rewrite Hu, Hvu. apply app_nil_r.
  - apply (filter_user_updated u); [exact Hv|].
    destruct (select_investment_some _ _ _ _ Hsel) as [Hin [Hid Hu]].
    intros x Hx Hxid.
    rewrite (NoDup_map_injective inv_id (investments db) Hi x r Hx Hin);
      congruence.
  - rewrite filter_twice. apply filter_ext. intros x.
    destruct (inv_user_id x =? v) eqn:E.
    + apply Z.eqb_eq in E. rewrite E.
      apply Z.eqb_neq in Hv. rewrite Hv, andb_false_r. reflexivity.
    + now rewrite andb_false_r.
Qed.

(** An invariant of the elementary changes is an invariant of their
    sequences. *)
Lemma effects_invariant (P : database -> Prop) (u : Z) :
  (forall db db', effect u db db' -> P db -> P db') ->
  forall db db', effects u db db' -> P db -> P db'.
Proof.
  intros Hstep db db' H. induction H as [|a b c Hab _ IH]; [auto|].
  intros Ha. apply IH. eapply Hstep; eauto.
Qed.

(** And of every request. *)
Lemma handle_invariant (P : database -> Prop) :
  (forall u db db', effect u db db' -> P db -> P db') ->
  forall c db, P db -> P (out_db (handle c db)).
Proof.
  intros Hstep c db Hdb.
  destruct (call_session c) as [u|] eqn:Hs.
  - eapply (effects_invariant P u (Hstep u)); [|exact Hdb].
    now apply handle_effects.
  - now rewrite (handle_anonymous c db Hs).
Qed.

Lemma run_invariant (P : database -> Prop) :
  (forall u db db', effect u db db' -> P db -> P db') ->
  forall calls db, P db -> P (run calls db).
Proof.
  intros Hstep calls. induction calls as [|c calls IH]; simpl; [auto|].
  intros db Hdb. apply IH. now apply handle_invariant.
Qed.

End InvariantFacts.

(** X10. Whatever requests are served, the primary keys of the
    investments and of the transactions stay unique: they are unique in
    every store reached from one where they are, and in every store
    reached from the empty one. *)
Theorem primary_keys_stay_unique (calls : list call) :
  (forall db, keys_unique db -> keys_unique (run calls db)) /\
  keys_unique (run calls empty_db).
Proof.
  assert (H : forall db, keys_unique db -> keys_unique (run calls db)).
  { apply run_invariant. intros u db db'. apply effect_keys. }
  split; [exact H|]. apply H. split; constructor.
Qed.

(** Witness of X10: the sample requests on the sample store. *)
Lemma primary_keys_stay_unique_witness :
  keys_unique (run sample_calls sample_db).
Proof.
  apply (proj1 (primary_keys_stay_unique sample_calls)).
  split; simpl; repeat constructor; intros [].
Defined.

(** X11. Whatever requests are served, every stored quantity and price
    stays greater than zero, in the holdings and in the transaction log:
    the checks of the add and edit forms and of the import, together with
    the refusal of NaN by the store, keep the invariant
    [quantity > 0 and buy_price > 0]. *)
Theorem stored_numbers_stay_positive (calls : list call) :
  (forall db, positive_store db -> positive_store (run calls db)) /\
  positive_store (run calls empty_db).
Proof.
  assert (H : forall db, positive_store db -> positive_store (run calls db)).
  { apply run_invariant. intros u db db'. apply effect_positive. }
  split; [exact H|]. apply H. split; constructor.
Qed.

(** Witness of X11: the sample requests on the sample store. *)
Lemma stored_numbers_stay_positive_witness :
  positive_store (run sample_calls sample_db).
Proof.
  apply (proj1 (stored_numbers_stay_positive sample_calls)).
  split; repeat constructor.
Defined.

(** X12. Whatever requests are served, every stored symbol stays a fixed
    point of [.strip().upper()] and every stored category a fixed point
    of [.strip()]: text is stored stripped and symbols upper-cased, by
    the add form and by the import alike. *)
Theorem stored_text_stays_normalised (calls : list call) :
  (forall db,
     Forall normalised_holding (investments db) ->
     Forall normalised_holding (investments (run calls db))) /\
  Forall normalised_holding (investments (run calls empty_db)).
Proof.
  assert (H : forall db,
             Forall normalised_holding (investments db) ->
             Forall normalised_holding (investments (run calls db))).
  { apply (run_invariant
             (fun db => Forall normalised_holding (investments db))).
    intros u db db'. apply effect_normalised. }
  split; [exact H|]. apply H. constructor.
Qed.

(** Witness of X12: the sample requests on the sample store. *)
Lemma stored_text_stays_normalised_witness :
  Forall normalised_holding (investments (run sample_calls sample_db)).
Proof.
  apply (proj1 (stored_text_stays_normalised sample_calls)).
  repeat constructor.
Defined.

Lemma effects_appends (u : Z) (db db' : database) :
  effects u db db' ->
  exists new,
    transactions db' = (transactions db ++ new)%list /\
    Forall (fun t => txn_user_id t = u) new.
Proof.
  induction 1 as [db|a b c Hab _ [new' [E' F']]].
  - exists []. now rewrite app_nil_r.
  - destruct (effect_appends u a b Hab) as [new [E F]].
    exists (new ++ new')%list. rewrite E', E, app_assoc.
    split; [reflexivity|]. apply Forall_app. now split.
Qed.

(** X13. The transaction log is append-only.  A request leaves the rows
    of the log in place and may only add rows of the session user after
    them; so whatever requests are served, the log of the store they
    start from is a prefix of the log they end with. *)
Theorem transaction_log_is_append_only :
  (forall c db,
     exists new,
       transactions (out_db (handle c db)) = (transactions db ++ new)%list /\
       Forall (fun t => call_session c = Some (txn_user_id t)) new) /\
  (forall calls db,
     exists new, transactions (run calls db) = (transactions db ++ new)%list).
Proof.
  assert (H : forall c db,
             exists new,
               transactions (out_db (handle c db))
               = (transactions db ++ new)%list /\
               Forall (fun t => call_session c = Some (txn_user_id t)) new).
  { intros c db. destruct (call_session c) as [u|] eqn:Hs.
    - destruct (effects_appends u db _ (handle_effects c db u Hs))
        as [new [E F]].
      exists new. split; [exact E|]. eapply Forall_impl; [|exact F].
      intros t Ht. simpl in Ht. now rewrite Ht.
    - rewrite (handle_anonymous c db Hs). exists []. simpl.
      rewrite app_nil_r. split; [reflexivity|constructor]. }
  split; [exact H|].
  intros calls. induction calls as [|c calls IH]; simpl; intros db.
  - exists []. now rewrite app_nil_r.
  - destruct (IH (out_db (handle c db))) as [new' E'].
    destruct (H c db) as [new [E _]].
    exists (new ++ new')%list. now rewrite E', E, app_assoc.
Qed.

Lemma effects_isolated (u v : Z) (db db' : database) :
  v <> u ->
  effects u db db' ->
  keys_unique db ->
  select_by_user db' v = select_by_user db v /\
  transactions_of db' v = transactions_of db v.
Proof.
  intros Hv H. induction H as [db|a b c Hab _ IH]; intros Hk.
  - split; reflexivity.
  - destruct (effect_isolated u v a b Hv Hab Hk) as [E1 E2].
    destruct (IH (effect_keys u a b Hab Hk)) as [E1' E2'].
    split; congruence.
Qed.

(** X14. A request changes only the rows of the session user: in a store
    with unique primary keys, the holdings and the transactions of every
    other user are the same after the request as before. *)
Theorem requests_touch_own_rows_only
    (c : call) (db : database) (user_id other : Z) :
  keys_unique db ->
  call_session c = Some user_id ->
  other <> user_id ->
  select_by_user (out_db (handle c db)) other = select_by_user db other /\
  transactions_of (out_db (handle c db)) other = transactions_of db other.
Proof.
  intros Hk Hs Hv.
  apply (effects_isolated user_id other db _ Hv (handle_effects c db _ Hs) Hk).
Qed.

(** Witness of X14: user 2 deletes id 1, the holding of user 1. *)
Lemma requests_touch_own_rows_only_witness :
  select_by_user
    (out_db (handle (mkCall (Some 2) sample_date aapl_quote
                            (DeleteInvestment 1%N))
                    sample_db))
    1
  = [sample_holding].
Proof.
  destruct (requests_touch_own_rows_only
              (mkCall (Some 2) sample_date aapl_quote (DeleteInvestment 1%N))
              sample_db 2 1) as [H _].
  - split; simpl; repeat constructor; intros [].
  - reflexivity.
  - discriminate.
  - rewrite H. reflexivity.
Defined.

(** X15. Without a session no route of the portfolio is served: the
    request is answered by a redirection to the login page with a
    warning, and no sequence of such requests changes the store. *)
Theorem anonymous_requests_change_nothing :
  (forall c db,
     call_session c = None ->
     handle c db
     = mkOutcome db [(Text "Please log in to access this page.", warning)]
                 (Redirect "login")) /\
  (forall calls db,
     Forall (fun c => call_session c = None) calls -> run calls db = db).
Proof.
  split; [exact handle_anonymous|].
  intros calls db H. revert db.
  induction H as [|c calls Hc _ IH]; simpl; intros db; [reflexivity|].
  rewrite (handle_anonymous c db Hc). apply IH.
Qed.

(** Witness of X15: the sample requests without their session. *)
Lemma anonymous_requests_change_nothing_witness :
  run anonymous_calls sample_db = sample_db.
Proof.
  apply (proj2 anonymous_requests_change_nothing).
  repeat constructor.
Defined.

(** * The CSV import beyond the claims *)

Section ImportOutcomes.

(** A row that is not readable raises, whatever the connection holds. *)
Lemma import_row_unreadable (now : string) (u : Z) (st : database * nat)
    (row : csv_row) :
  row_readable row = false -> exists e, import_row now u st row = Raise e.
Proof.
  unfold row_readable, row_skipped, field_number, import_row.
  destruct (symbol_field row) as [s|]; [|discriminate].
  destruct (float_field row "quantity") as [q|e]; [|simpl; eauto].
  destruct (float_field row "buy_price") as [b|e]; [|simpl; eauto].
  simpl. destruct (leb q zero || leb b zero); [discriminate|].
  destruct (category_field row) as [c|e]; [|simpl; eauto].
  simpl. unfold insert_investment.
  destruct (is_nan q); [simpl; eauto|].
  destruct (is_nan b); [simpl; eauto|discriminate].
Qed.

Lemma row_get_missing (k : string) (fieldnames : list string) :
  ~ In k fieldnames ->
  forall values : list (option string),
    row_get k (combine fieldnames values) = None.
Proof.
  induction fieldnames as [|f fs IH]; simpl; intros Hk values; [reflexivity|].
  destruct values as [|v vs]; [reflexivity|]. simpl.
  rewrite IH by tauto.
  destruct (String.eqb k f) eqn:E; [|reflexivity].
  apply String.eqb_eq in E. subst. tauto.
Qed.

Lemma import_rows_without_symbol (now : string) (u : Z)
    (rows : list csv_row) :
  Forall (fun row => symbol_field row = None) rows ->
  forall st, import_rows now u (map Ok rows) st = Ok st.
Proof.
  induction 1 as [|row rows Hrow _ IH]; simpl; intros st; [reflexivity|].
  unfold import_row. rewrite Hrow. simpl. apply IH.
Qed.

(** Whatever the reader does, rows without a symbol leave the open
    connection as it is. *)
Lemma import_rows_skipping (now : string) (u : Z)
    (rows : list (result csv_row)) :
  Forall (fun next => forall row, next = Ok row -> symbol_field row = None)
         rows ->
  forall st,
    import_rows now u rows st = Ok st \/
    exists e, import_rows now u rows st = Raise e.
Proof.
  induction 1 as [|[row|e] rows Hrow _ IH]; simpl; intros st.
  - now left.
  - unfold import_row. rewrite (Hrow row eq_refl). simpl. apply IH.
  - right. eauto.
Qed.

Lemma csv_rows_without_symbol (fieldnames : list string)
    (rows : list (list string)) :
  ~ In "symbol" fieldnames ->
  Forall (fun row => symbol_field row = None) (csv_rows (fieldnames :: rows)).
Proof.
  intros Hk. unfold csv_rows. apply Forall_map. rewrite Forall_forall.
  intros fields _. unfold symbol_field, dict_row.
  now rewrite (row_get_missing "symbol" fieldnames Hk).
Qed.

Lemma dict_reader_without_symbol (fieldnames : list string)
    (rows : list (list string)) :
  ~ In "symbol" fieldnames ->
  Forall (fun next => forall row, next = Ok row -> symbol_field row = None)
         (dict_reader (fieldnames :: rows)).
Proof.
  intros Hk. unfold dict_reader.
  destruct (read_record fieldnames) as [names|e] eqn:En.
  - unfold read_record in En.
    destruct (within_field_limit fieldnames); [|discriminate].
    injection En as <-.
    apply Forall_map. rewrite Forall_forall. intros fields _ row.
    unfold read_record. destruct (within_field_limit fields); [|discriminate].
    simpl. intros [= <-]. unfold symbol_field, dict_row.
    now rewrite (row_get_missing "symbol" fieldnames Hk).
  - constructor; [discriminate|constructor].
Qed.

Lemma Forall_Exists_readable (rows : list csv_row) :
  Forall (fun row => row_readable row = true) rows \/
  Exists (fun row => row_readable row = false) rows.
Proof.
  induction rows as [|row rows [IH|IH]].
  - left. constructor.
  - destruct (row_readable row) eqn:E.
    + left. now constructor.
    + right. now constructor.
  - right. now constructor.
Qed.

End ImportOutcomes.

(** X16. An import is all or nothing.  When the reader raises (a field
    longer than 131072 characters) or some row of the file does (a
    number that does not parse, a row too short to hold a number or the
    category, a NaN that the store refuses) the store is left as it was
    and an error is flashed; otherwise every row that is not skipped is
    appended as an investment of the user, and the number announced is
    the number of rows appended. *)
Theorem import_csv_all_or_nothing
    (now : string) (user_id : Z) (db : database)
    (records : list (list string)) :
  let rows := csv_rows records in
  let out := import_csv now (Some user_id) db (Some records) in
  ((readable_file records = false \/
    Exists (fun row => row_readable row = false) rows) /\
   exists e,
     out = mkOutcome db [(TextWithError "Error importing CSV: " e, danger)]
                     (Redirect "dashboard")) \/
  (readable_file records = true /\
   Forall (fun row => row_readable row = true) rows /\
   exists added,
     investments (out_db out) = (investments db ++ added)%list /\
     map inv_tuple added
     = map row_tuple (filter (fun row => negb (row_skipped row)) rows) /\
     out_flashes out
     = [(Text ("Successfully imported "
               ++ digits_of_Z (Z.of_nat (List.length added))
               ++ " investments!"), success)]).
Proof.
  intros rows out. subst out.
  assert (Hraise : Exists (raising now user_id) (dict_reader records) ->
                   exists e,
                     import_csv now (Some user_id) db (Some records)
                     = mkOutcome db
                         [(TextWithError "Error importing CSV: " e, danger)]
                         (Redirect "dashboard")).
  { intros Hex.
    destruct (import_rows_raise now user_id _ Hex (db, 0%nat)) as [e He].
    exists e. unfold import_csv, require_login. now rewrite He. }
  destruct (readable_file records) eqn:Hfit.
  2:{ left. split; [now left|].
      apply Hraise. now apply dict_reader_unreadable. }
  destruct (Forall_Exists_readable rows) as [Hall|Hex].
  - right. split; [reflexivity|]. split; [exact Hall|].
    destruct (import_rows_readable now user_id _ Hall (db, 0%nat))
      as [added [[conn imported] [E [G M]]]].
    unfold import_csv, require_login.
    rewrite (dict_reader_readable _ Hfit). fold rows. rewrite E. simpl.
    destruct G as [GI [_ [_ [GN _]]]]. simpl in GI, GN.
    exists added. rewrite GN. auto.
  - left. split; [now right|].
    apply Exists_exists in Hex. destruct Hex as [row [Hin Hrow]].
    apply Hraise.
    apply (dict_reader_row now user_id records row Hin).
    intros st. now apply import_row_unreadable.
Qed.

(** X17. A file whose header has no [symbol] column imports nothing,
    whatever its rows hold, and so does a file without any record: the
    store is left as it was, and when the reader reads the file to its
    end (no field longer than 131072 characters) the import reports zero
    investments. *)
Theorem import_csv_without_symbol_column
    (now : string) (user_id : Z) (db : database) :
  (forall fieldnames rows,
     ~ In "symbol" fieldnames ->
     let out :=
       import_csv now (Some user_id) db (Some (fieldnames :: rows)) in
     out_db out = db /\
     (readable_file (fieldnames :: rows) = true ->
      out = mkOutcome db
              [(Text "Successfully imported 0 investments!", success)]
              (Redirect "dashboard"))) /\
  import_csv now (Some user_id) db (Some [])
  = mkOutcome db [(Text "Successfully imported 0 investments!", success)]
              (Redirect "dashboard").
Proof.
  split; [|reflexivity].
  intros fieldnames rows Hk out. subst out. split.
  - unfold import_csv, require_login.
    destruct (import_rows_skipping now user_id _
                (dict_reader_without_symbol fieldnames rows Hk) (db, 0%nat))
      as [E|[e E]]; now rewrite E.
  - intros Hfit. unfold import_csv, require_login.
    rewrite (dict_reader_readable _ Hfit).
    rewrite import_rows_without_symbol; [reflexivity|].
    now apply csv_rows_without_symbol.
Qed.

(** Witness of X17: the header names the column [ticker] instead. *)
Lemma import_csv_without_symbol_column_witness :
  import_csv sample_date (Some 1) sample_db
             (Some [["ticker"; "category"; "quantity"; "buy_price"];
                    ["AAPL"; "Stock"; "abc"; "10"]])
  = mkOutcome sample_db
              [(Text "Successfully imported 0 investments!", success)]
              (Redirect "dashboard").
Proof.
  apply (proj1 (import_csv_without_symbol_column sample_date 1 sample_db)).
  - intros [H|[H|[H|[H|[]]]]]; discriminate H.
  - reflexivity.
Defined.

(** Witness of X18: the sample store is exportable, so its holdings come
    back. *)
Example export_import_sample_store :
  map inv_tuple
      (select_by_user
         (out_db (import_csv sample_date (Some 2) sample_db
                    (Some (exported_records (export_csv (Some 1) sample_db)))))
         2)
  = [("MSFT", "Stock", float_lit "5", float_lit "20")].
Proof.
  rewrite (export_import_round_trip sample_date 1 2 sample_db sample_db).
  - reflexivity.
  - repeat (apply Forall_cons; [vm_compute; reflexivity|]). apply Forall_nil.
  - reflexivity.
  - reflexivity.
Defined.

(** * Accounts *)

Section AccountFacts.

Variable generate_password_hash : string -> string.
Variable check_password_hash : string -> string -> bool.
Variable now : string.

Lemma name_not_stored (tbl : user_table) (username : string) :
  existsb (fun u => String.eqb (usr_username u) username) (users tbl) = false ->
  ~ In username (map usr_username (users tbl)).
Proof.
  intros H Hin. apply in_map_iff in Hin. destruct Hin as [u [Hu Hin]].
  assert (Ht : existsb (fun u => String.eqb (usr_username u) username)
                       (users tbl) = true).
  { apply existsb_exists. exists u. split; [exact Hin|].
    now apply String.eqb_eq. }
  congruence.
Qed.

Lemma select_user_snoc (tbl : user_table) (u : user) (seq : Z) :
  existsb (fun x => String.eqb (usr_username x) (usr_username u)) (users tbl)
  = false ->
  select_user (mkUsers (users tbl ++ [u]) seq) (usr_username u) = Some u.
Proof.
  unfold select_user. simpl.
  induction (users tbl) as [|x l IH]; simpl.
  - intros _. now rewrite String.eqb_refl.
  - destruct (String.eqb (usr_username x) (usr_username u)); [discriminate|].
    exact IH.
Qed.

(** What [register] does with a form it accepts. *)
Lemma register_accepted (tbl : user_table) (session : session_data)
    (form : credentials) :
  (3 <= String.length (strip (form_username form)))%nat ->
  (6 <= String.length (form_password form))%nat ->
  existsb (fun u => String.eqb (usr_username u) (strip (form_username form)))
          (users tbl) = false ->
  register generate_password_hash now tbl session POST form
  = mkAuth
      (mkUsers
         (users tbl
            ++ [mkUser (next_rowid (users_seq tbl) (map usr_id (users tbl)))
                       (strip (form_username form))
                       (generate_password_hash (form_password form)) now])
         (next_rowid (users_seq tbl) (map usr_id (users tbl))))
      session
      [(Text "Account created successfully! Please log in.", success)]
      (Redirect "login").
Proof.
  intros Hu Hp Hfree. unfold register, insert_user.
  assert (Eu : String.eqb (strip (form_username form)) "" = false).
  { apply String.eqb_neq. intros E. rewrite E in Hu. simpl in Hu. lia. }
  assert (Ep : String.eqb (form_password form) "" = false).
  { apply String.eqb_neq. intros E. rewrite E in Hp. simpl in Hp. lia. }
  apply Nat.ltb_ge in Hu, Hp.
  now rewrite Eu, Ep, Hu, Hp, Hfree.
Qed.

End AccountFacts.

(** X19. [register] keeps the [users] table well formed: user names stay
    unique, stripped and at least three characters long, and ids stay
    unique.  It never touches the session or the rows already stored; it
    appends at most one user. *)
Theorem register_keeps_users_valid
    (generate_password_hash : string -> string) (now : string)
    (tbl : user_table) (session : session_data) (method : http_method)
    (form : credentials) :
  let out := register generate_password_hash now tbl session method form in
  auth_session out = session /\
  (exists new,
     users (auth_users out) = (users tbl ++ new)%list /\
     (List.length new <= 1)%nat) /\
  (users_ok tbl -> users_ok (auth_users out)).
Proof.
  intros out. subst out. unfold register.
  assert (Hsame : forall fl r,
             auth_session (mkAuth tbl session fl r) = session /\
             (exists new,
                users (auth_users (mkAuth tbl session fl r))
                = (users tbl ++ new)%list /\ (List.length new <= 1)%nat) /\
             (users_ok tbl -> users_ok (auth_users (mkAuth tbl session fl r)))).
  { intros fl r. simpl. split; [reflexivity|]. split; [|auto].
    exists []. rewrite app_nil_r. simpl. split; [reflexivity|lia]. }
  destruct method; [apply Hsame|].
  destruct (String.eqb (strip (form_username form)) ""
            || (String.length (strip (form_username form)) <? 3)%nat) eqn:Eu;
    [apply Hsame|].
  destruct (String.eqb (form_password form) ""
            || (String.length (form_password form) <? 6)%nat);
    [apply Hsame|].
  unfold insert_user.
  destruct (existsb _ (users tbl)) eqn:Ex; [apply Hsame|].
  simpl. split; [reflexivity|]. split.
  - eexists [_]. split; [reflexivity|simpl; lia].
  - intros [Hn [Hi Hv]]. unfold users_ok. simpl. rewrite !map_app. simpl.
    split; [|split].
    + apply NoDup_snoc; [exact Hn|]. now apply name_not_stored.
    + apply NoDup_snoc; [exact Hi|]. apply next_rowid_fresh.
    + apply Forall_app. split; [exact Hv|]. constructor; [|constructor].
      simpl. split; [apply strip_idempotent|].
      apply orb_false_elim in Eu. destruct Eu as [_ Eu].
      now apply Nat.ltb_ge in Eu.
Qed.

(** Witness of X19: a first account on the empty table. *)
Lemma register_keeps_users_valid_witness :
  users_ok (auth_users (register sample_hash sample_date no_users None POST
                                 (mkCredentials " alice " "secret1"))).
Proof.
  apply (register_keeps_users_valid sample_hash sample_date no_users None POST
           (mkCredentials " alice " "secret1")).
  split; [|split]; constructor.
Defined.

(** X20. [register] refuses a user name shorter than three characters
    once stripped, a password shorter than six characters, and a name
    that is already stored: the table is left as it was, a message of
    category danger is flashed and the form is shown again. *)
Theorem register_rejects
    (generate_password_hash : string -> string) (now : string)
    (tbl : user_table) (session : session_data) (form : credentials) :
  (String.length (strip (form_username form)) < 3)%nat \/
  (String.length (form_password form) < 6)%nat \/
  In (strip (form_username form)) (map usr_username (users tbl)) ->
  let out := register generate_password_hash now tbl session POST form in
  auth_users out = tbl /\
  auth_response out = Redirect "register" /\
  exists text, auth_flashes out = [(text, danger)].
Proof.
  intros Hbad out. subst out. unfold register.
  destruct (String.eqb (strip (form_username form)) ""
            || (String.length (strip (form_username form)) <? 3)%nat) eqn:Eu;
    [simpl; eauto|].
  destruct (String.eqb (form_password form) ""
            || (String.length (form_password form) <? 6)%nat) eqn:Ep;
    [simpl; eauto|].
  unfold insert_user.
  destruct (existsb _ (users tbl)) eqn:Ex; [simpl; eauto|].
  exfalso. apply orb_false_elim in Eu, Ep.
  destruct Eu as [_ Eu], Ep as [_ Ep]. apply Nat.ltb_ge in Eu, Ep.
  destruct Hbad as [H|[H|H]]; try lia.
  now apply (name_not_stored tbl _ Ex).
Qed.

(** Witness of X20: a name of two characters between spaces. *)
Lemma register_rejects_witness :
  auth_users (register sample_hash sample_date no_users None POST
                       (mkCredentials "  ab  " "secret1"))
  = no_users.
Proof.
  apply (register_rejects sample_hash sample_date no_users None
           (mkCredentials "  ab  " "secret1")).
  left. simpl. lia.
Defined.

(** X21. A user who has just registered can log in: when the library
    verifies a password against the hash it produced for it, logging in
    with the same password and the same user name, up to surrounding
    spaces, opens a session for the new account. *)
Theorem register_then_login
    (generate_password_hash : string -> string)
    (check_password_hash : string -> string -> bool) (now : string)
    (tbl : user_table) (session session' : session_data)
    (form form' : credentials) :
  (3 <= String.length (strip (form_username form)))%nat ->
  (6 <= String.length (form_password form))%nat ->
  ~ In (strip (form_username form)) (map usr_username (users tbl)) ->
  check_password_hash (generate_password_hash (form_password form))
                      (form_password form) = true ->
  strip (form_username form') = strip (form_username form) ->
  form_password form' = form_password form ->
  let registered :=
    auth_users (register generate_password_hash now tbl session POST form) in
  let out := login check_password_hash registered session' POST form' in
  auth_session out
  = Some (users_seq registered, strip (form_username form)) /\
  auth_response out = Redirect "dashboard" /\
  auth_users out = registered.
Proof.
  intros Hu Hp Hfree Hcheck Hname Hpass registered out.
  assert (Hex : existsb (fun u => String.eqb (usr_username u)
                                             (strip (form_username form)))
                        (users tbl) = false).
  { destruct (existsb _ (users tbl)) eqn:E; [|reflexivity].
    exfalso. apply Hfree. apply existsb_exists in E.
    destruct E as [u [Hin E]]. apply String.eqb_eq in E. rewrite <- E.
    now apply in_map. }
  subst out registered.
  rewrite (register_accepted generate_password_hash now tbl session form
             Hu Hp Hex).
  simpl. unfold login. rewrite Hname, Hpass.
  set (u := mkUser (next_rowid (users_seq tbl) (map usr_id (users tbl)))
                   (strip (form_username form))
                   (generate_password_hash (form_password form)) now).
  rewrite (select_user_snoc tbl u _ Hex). simpl. rewrite Hcheck.
  repeat split.
Qed.

(** Witness of X21: alice registers and logs in. *)
Lemma register_then_login_witness :
  auth_session
    (login sample_check
           (auth_users (register sample_hash sample_date no_users None POST
                                 (mkCredentials " alice " "secret1")))
           None POST (mkCredentials "alice" "secret1"))
  = Some (1, "alice").
Proof.
  apply (register_then_login sample_hash sample_check sample_date no_users
           None None (mkCredentials " alice " "secret1")
           (mkCredentials "alice" "secret1")).
  - simpl. lia.
  - simpl. lia.
  - intros [].
  - reflexivity.
  - reflexivity.
  - reflexivity.
Defined.

(** X22. [login] never changes the [users] table, and it opens a session
    only for a stored user whose name is the stripped name of the form
    and whose stored hash the library verifies against the password of
    the form; in every other case the session is left as it was and the
    user is not sent to the dashboard. *)
Theorem login_opens_verified_sessions_only
    (check_password_hash : string -> string -> bool)
    (tbl : user_table) (session : session_data) (method : http_method)
    (form : credentials) :
  let out := login check_password_hash tbl session method form in
  auth_users out = tbl /\
  ((auth_session out = session /\ auth_response out <> Redirect "dashboard") \/
   (exists u,
      In u (users tbl) /\
      usr_username u = strip (form_username form) /\
      check_password_hash (usr_password u) (form_password form) = true /\
      auth_session out = Some (usr_id u, usr_username u) /\
      auth_response out = Redirect "dashboard")).
Proof.
  intros out. subst out. unfold login.
  destruct method;
    [simpl; split; [reflexivity|left; split; [reflexivity|discriminate]]|].
  destruct (select_user tbl (strip (form_username form))) as [u|] eqn:Hsel;
    [|simpl; split; [reflexivity|left; split; [reflexivity|discriminate]]].
  unfold select_user in Hsel. apply find_some in Hsel.
  destruct Hsel as [Hin Hname]. apply String.eqb_eq in Hname.
  destruct (check_password_hash (usr_password u) (form_password form)) eqn:Hc;
    simpl.
  - split; [reflexivity|]. right. exists u. repeat split; assumption.
  - split; [reflexivity|left; split; [reflexivity|discriminate]].
Qed.

(** * Market data and pages *)

Section PageFacts.

Lemma first_seen_in (c : string) (l : list string) :
  In c (first_seen l) <-> In c l.
Proof.
  induction l as [|x l IH]; simpl; [tauto|].
  rewrite filter_In, IH. split.
  - intros [H|[H _]]; auto.
  - intros [H|H]; [auto|].
    destruct (String.eqb c x) eqn:E.
    + apply String.eqb_eq in E. auto.
    + right. split; [exact H|]. reflexivity.
Qed.

Lemma first_seen_nodup (l : list string) : NoDup (first_seen l).
Proof.
  induction l as [|x l IH]; simpl; constructor.
  - intros H. apply filter_In in H. destruct H as [_ H].
    now rewrite String.eqb_refl in H.
  - now apply NoDup_filter.
Qed.

Lemma sorted_app_order {A : Type} (R : A -> A -> Prop) (l1 l2 : list A) :
  StronglySorted R (l1 ++ l2) ->
  forall a b, In a l1 -> In b l2 -> R a b.
Proof.
  induction l1 as [|x l1 IH]; simpl; intros H a b Ha Hb; [contradiction|].
  inversion H as [|? ? Hs Hx]; subst.
  destruct Ha as [<-|Ha].
  - rewrite Forall_forall in Hx. apply Hx, in_or_app. now right.
  - now apply IH.
Qed.

Lemma sorted_firstn {A : Type} (R : A -> A -> Prop) (n : nat) (l : list A) :
  StronglySorted R l -> StronglySorted R (firstn n l).
Proof.
  revert l. induction n as [|n IH]; intros l H; simpl; [constructor|].
  destruct l as [|x l]; [constructor|].
  inversion H as [|? ? Hs Hx]; subst.
  constructor; [now apply IH|].
  rewrite Forall_forall in *. intros y Hy. apply Hx.
  rewrite <- (firstn_skipn n l). apply in_or_app. now left.
Qed.

Lemma failed_of_nil (get_live_price : string -> option float)
    (invs : list investment) :
  failed_of get_live_price invs = [] <->
  Forall (fun r => get_live_price (inv_symbol r) <> None) invs.
Proof.
  unfold failed_of. induction invs as [|r invs IH]; simpl.
  - split; [constructor|reflexivity].
  - unfold lookup_failed at 1.
    destruct (get_live_price (inv_symbol r)) eqn:E; simpl.
    + rewrite IH. split.
      * intros H. constructor; [congruence|exact H].
      * intros H. now inversion H.
    + split; [discriminate|]. intros H. inversion H. congruence.
Qed.

End PageFacts.

(** X23. A symbol for which the service has no price history and no
    current price is priced 0.0 by [get_live_price] without any failure:
    on the dashboard its holdings get the same rows and totals as after a
    failed lookup, but no symbol is reported as failed and no warning is
    shown. *)
Theorem unpriced_symbols_are_valued_at_zero_silently
    (Ticker : string -> MarketData.ticker) (invs : list investment) :
  Forall (fun inv =>
            MarketData.history_close (Ticker (inv_symbol inv)) = Ok [] /\
            exists d,
              MarketData.info (Ticker (inv_symbol inv)) = Ok d /\
              MarketData.info_get d "currentPrice" = None)
         invs ->
  exists d d',
    dashboard_compute (MarketData.get_live_price Ticker) invs = Ok d /\
    dashboard_compute unknown_quote invs = Ok d' /\
    d_updated_investments d = d_updated_investments d' /\
    d_total_value d = d_total_value d' /\
    d_total_cost d = d_total_cost d' /\
    d_category_totals d = d_category_totals d' /\
    Forall (fun row => row_current_price row = zero)
           (d_updated_investments d) /\
    d_failed_symbols d = [] /\
    d_failed_symbols d' = map inv_symbol invs /\
    ctx_warning (dashboard_render d) = None.
Proof.
  intros Hall. rewrite !dashboard_compute_closed. do 2 eexists.
  split; [reflexivity|]. split; [reflexivity|]. simpl.
  assert (Hprice : forall inv, In inv invs ->
            MarketData.get_live_price Ticker (inv_symbol inv) = Some zero).
  { rewrite Forall_forall in Hall. intros inv Hin.
    destruct (Hall inv Hin) as [Hh [d [Hi Hg]]].
    unfold MarketData.get_live_price. now rewrite Hh, Hi, Hg. }
  assert (Heff : forall inv, In inv invs ->
            effective_price (MarketData.get_live_price Ticker) inv
            = effective_price unknown_quote inv).
  { intros inv Hin. unfold effective_price. now rewrite (Hprice inv Hin). }
  assert (Hval : map (current_value_of (MarketData.get_live_price Ticker)) invs
                 = map (current_value_of unknown_quote) invs).
  { apply map_ext_in. intros inv Hin. unfold current_value_of.
    now rewrite (Heff inv Hin). }
  assert (Hrows : map (row_of (MarketData.get_live_price Ticker)) invs
                  = map (row_of unknown_quote) invs).
  { apply map_ext_in. intros inv Hin.
    unfold row_of, make_row, locals_of, pct_return_of, current_value_of.
    simpl. now rewrite (Heff inv Hin). }
  assert (Hfail : failed_of (MarketData.get_live_price Ticker) invs = []).
  { apply failed_of_nil. rewrite Forall_forall. intros inv Hin.
    now rewrite (Hprice inv Hin). }
  rewrite Hrows, Hval, Hfail.
  repeat split.
  - apply Forall_map. rewrite Forall_forall. intros inv _. reflexivity.
  - unfold failed_of. f_equal. apply filter_all.
    rewrite Forall_forall. intros inv _. reflexivity.
Qed.

(** Witness of X23: the sample holdings under a service without data. *)
Lemma unpriced_symbols_are_valued_at_zero_silently_witness :
  exists d,
    dashboard_compute (MarketData.get_live_price silent_ticker)
                      [aapl_holding; unknown_holding] = Ok d /\
    d_failed_symbols d = [] /\
    ctx_warning (dashboard_render d) = None.
Proof.
  destruct (unpriced_symbols_are_valued_at_zero_silently silent_ticker
              [aapl_holding; unknown_holding])
    as [d [d' [Hd [_ [_ [_ [_ [_ [_ [Hf [_ Hw]]]]]]]]]]].
  - repeat constructor; eexists; split; reflexivity.
  - exists d. repeat split; assumption.
Defined.

(** X24. [get_live_price] never lets an exception through and fails
    only where something raised: with a price history it answers the
    last close whatever the [info] dictionary holds; it answers [None]
    exactly when the history raises, or when the history is empty and
    either [info] raises or its [currentPrice] cannot be converted to a
    float. *)
Theorem get_live_price_fails_on_exceptions_only
    (Ticker : string -> MarketData.ticker) (symbol : string) :
  let t := Ticker symbol in
  (forall closes,
     MarketData.history_close t = Ok closes ->
     closes <> [] ->
     MarketData.get_live_price Ticker symbol = Some (last closes zero)) /\
  (MarketData.get_live_price Ticker symbol = None <->
   (exists e, MarketData.history_close t = Raise e) \/
   (MarketData.history_close t = Ok [] /\
    ((exists e, MarketData.info t = Raise e) \/
     (exists d v,
        MarketData.info t = Ok d /\
        MarketData.info_get d "currentPrice" = Some v /\
        MarketData.float_of_value v = None)))).
Proof.
  intros t. subst t. unfold MarketData.get_live_price. split.
  - intros closes H Hne. rewrite H. destruct closes; [congruence|reflexivity].
  - destruct (MarketData.history_close (Ticker symbol)) as [[|c closes]|e].
    + destruct (MarketData.info (Ticker symbol)) as [d|e].
      * destruct (MarketData.info_get d "currentPrice") as [v|] eqn:Hg.
        -- split.
           ++ intros H. right. split; [reflexivity|]. right. eauto.
           ++ intros [[e H]|[_ [[e H]|[d' [v' [Hd [Hv Hf]]]]]]];
                try discriminate.
              injection Hd as <-. congruence.
        -- split; [discriminate|].
           intros [[e H]|[_ [[e H]|[d' [v' [Hd [Hv Hf]]]]]]];
             try discriminate.
           injection Hd as <-. congruence.
      * split; [|reflexivity]. intros _. right. split; [reflexivity|].
        left. eauto.
    + split; [discriminate|].
      intros [[e H]|[H _]]; discriminate.
    + split; [|reflexivity]. intros _. left. eauto.
Qed.

(** Witness of X24: a history of two closes and an [info] that raises. *)
Lemma get_live_price_fails_on_exceptions_only_witness :
  MarketData.get_live_price
    (fun _ => MarketData.mkTicker (Ok [float_lit "149.5"; float_lit "150"])
                                  (Raise ValueError))
    "AAPL"
  = Some (float_lit "150").
Proof.
  destruct (get_live_price_fails_on_exceptions_only
              (fun _ => MarketData.mkTicker
                          (Ok [float_lit "149.5"; float_lit "150"])
                          (Raise ValueError))
              "AAPL") as [H _].
  rewrite (H [float_lit "149.5"; float_lit "150"]).
  - reflexivity.
  - reflexivity.
  - discriminate.
Defined.

(** X25. The dashboard shows the holdings of the session user and no
    others: whatever order the store returns them in, the rows carry
    exactly the ids of the user's investments; the page is marked empty
    exactly when the user holds nothing; and a warning is flashed exactly
    when the lookup of some holding failed. *)
Theorem dashboard_page_shows_own_holdings
    (get_live_price : string -> option float)
    (order_by_symbol : list investment -> list investment)
    (db : database) (user_id : Z) :
  Permutation (select_by_user db user_id)
              (order_by_symbol (select_by_user db user_id)) ->
  let shown := dashboard_page get_live_price order_by_symbol
                              (Some user_id) db in
  exists ctx,
    page_context shown = Some ctx /\
    page_response shown = RenderTemplate "dashboard.html" /\
    Permutation (map inv_id (select_by_user db user_id))
                (map row_id (ctx_investments ctx)) /\
    (ctx_has_investments ctx = false <-> select_by_user db user_id = []) /\
    (page_flashes shown = [] <->
     Forall (fun r => get_live_price (inv_symbol r) <> None)
            (select_by_user db user_id)).
Proof.
  intros Hperm shown. subst shown. unfold dashboard_page, dashboard.
  rewrite dashboard_compute_closed. simpl.
  set (mine := select_by_user db user_id) in *.
  set (ordered := order_by_symbol mine) in *.
  eexists. split; [reflexivity|]. split; [reflexivity|]. simpl.
  split; [|split].
  - rewrite map_map. simpl. now apply Permutation_map.
  - rewrite length_map. split.
    + intros H. apply negb_false_iff, Nat.eqb_eq in H.
      apply length_zero_iff_nil in H. rewrite H in Hperm.
      now apply Permutation_nil, Permutation_sym.
    + intros H. rewrite H in Hperm. apply Permutation_nil in Hperm.
      now rewrite Hperm.
  - pose proof (failed_of_nil get_live_price ordered) as Hnil.
    assert (Hall : Forall (fun r => get_live_price (inv_symbol r) <> None)
                          ordered
                   <-> Forall (fun r => get_live_price (inv_symbol r) <> None)
                              mine).
    { rewrite !Forall_forall. split; intros H r Hr; apply H.
      - eapply Permutation_in; [exact Hperm|exact Hr].
      - eapply Permutation_in; [apply Permutation_sym, Hperm|exact Hr]. }
    rewrite <- Hall, <- Hnil.
    destruct (failed_of get_live_price ordered); split;
      try reflexivity; discriminate.
Qed.

(** Witness of X25: the dashboard of user 1 on the sample store. *)
Lemma dashboard_page_shows_own_holdings_witness :
  exists ctx,
    page_context (dashboard_page aapl_quote (fun l => l) (Some 1) sample_db)
    = Some ctx /\
    map row_id (ctx_investments ctx) = [1].
Proof.
  destruct (dashboard_page_shows_own_holdings aapl_quote (fun l => l)
              sample_db 1) as [ctx [Hc [_ [Hp _]]]].
  - apply Permutation_refl.
  - exists ctx. split; [exact Hc|].
    simpl in Hp. apply Permutation_length_1_inv in Hp. exact Hp.
Defined.

(** X26. The transaction page shows at most one hundred transactions,
    all of them rows of the log that belong to the session user; when
    the store returns them most recent first, the page is in that order,
    every transaction it leaves out is at most as recent as every one it
    shows, and a log of a hundred rows or fewer is shown in full. *)
Theorem transactions_page_shows_latest_hundred
    (order_by_date_desc : list transaction -> list transaction)
    (db : database) (user_id : Z) :
  Permutation (transactions_of db user_id)
              (order_by_date_desc (transactions_of db user_id)) ->
  StronglySorted not_older
                 (order_by_date_desc (transactions_of db user_id)) ->
  exists shown hidden,
    page_context (transactions_page order_by_date_desc (Some user_id) db)
    = Some shown /\
    (List.length shown <= 100)%nat /\
    Permutation (transactions_of db user_id) (shown ++ hidden) /\
    (forall t,
       In t shown -> In t (transactions db) /\ txn_user_id t = user_id) /\
    StronglySorted not_older shown /\
    (forall t t', In t shown -> In t' hidden -> not_older t t') /\
    ((List.length (transactions_of db user_id) <= 100)%nat -> hidden = []).
Proof.
  intros Hperm Hsorted. unfold transactions_page.
  set (mine := transactions_of db user_id) in *.
  set (ordered := order_by_date_desc mine) in *.
  exists (firstn 100 ordered), (skipn 100 ordered).
  split; [reflexivity|].
  split; [apply firstn_le_length|].
  split; [now rewrite firstn_skipn|].
  split; [|split; [|split]].
  - intros t Ht.
    assert (Hin : In t mine).
    { eapply Permutation_in; [apply Permutation_sym, Hperm|].
      rewrite <- (firstn_skipn 100 ordered). apply in_or_app. now left. }
    unfold mine, transactions_of in Hin. apply filter_In in Hin.
    destruct Hin as [Hin Hu]. split; [exact Hin|now apply Z.eqb_eq].
  - now apply sorted_firstn.
  - apply sorted_app_order. now rewrite firstn_skipn.
  - intros Hlen. apply skipn_all2.
    now rewrite <- (Permutation_length Hperm).
Qed.

(** Witness of X26: the log of user 1, returned in reverse. *)
Lemma transactions_page_shows_latest_hundred_witness :
  exists shown,
    page_context (transactions_page (@rev transaction) (Some 1) traded_db)
    = Some shown /\
    map txn_type shown = [SELL; BUY].
Proof.
  destruct (transactions_page_shows_latest_hundred (@rev transaction)
              traded_db 1) as [shown [hidden [Hc _]]].
  - apply Permutation_rev.
  - repeat constructor.
  - exists shown. split; [exact Hc|].
    injection Hc as <-. reflexivity.
Defined.

(** X27. The category labels of the dashboard are distinct, they are
    exactly the categories of the holdings shown, and there is one value
    for each label. *)
Theorem dashboard_category_labels
    (get_live_price : string -> option float) (invs : list investment) :
  exists ctx,
    dashboard get_live_price invs = Ok ctx /\
    NoDup (ctx_category_labels ctx) /\
    (forall c,
       In c (ctx_category_labels ctx) <-> In c (map inv_category invs)) /\
    List.length (ctx_category_values ctx)
    = List.length (ctx_category_labels ctx).
Proof.
  unfold dashboard. rewrite dashboard_compute_closed. simpl.
  eexists. split; [reflexivity|]. simpl.
  split; [|split].
  - rewrite category_totals_keys. apply first_seen_nodup.
  - intros c. rewrite category_totals_keys, first_seen_in, map_map.
    reflexivity.
  - now rewrite !length_map.
Qed.
